(** * TutorialLLM: a shallow embedding of [model.py]

    The Python module builds a decoder-only transformer on top of PyTorch.
    Here every class of [model.py] becomes a record, every [forward] a
    function returning a [result] (Python exceptions are values), and a
    PyTorch tensor is a shape together with an indexing function.  Floating
    point numbers are idealised as real numbers; [float('-inf')] is kept as
    a separate value because the causal mask relies on it, and a quotient
    that PyTorch evaluates to NaN is the unspecified real [x / 0].  The
    memory layout of tensors, devices and gradients are not modelled. *)

From Stdlib Require Import Reals Lra Lia List ZArith Bool Arith.
Import ListNotations.

(** ** Exceptions *)

Inductive exn : Type :=
| ZeroDivisionError
| RuntimeError
| IndexError
| ValueError
| TypeError.

Inductive result (A : Type) : Type :=
| Ok (a : A)
| Raise (e : exn).

Arguments Ok {A} a.
Arguments Raise {A} e.

Definition bind {A B : Type} (m : result A) (k : A -> result B) : result B :=
  match m with
  | Ok a => k a
  | Raise e => Raise e
  end.

Notation "x <- m ;; k" := (bind m (fun x => k))
  (at level 61, m at next level, right associativity).

Notation "' pat <- m ;; k" := (bind m (fun pat => k))
  (at level 61, pat pattern, m at next level, right associativity).

Definition is_ok {A : Type} (m : result A) : bool :=
  match m with Ok _ => true | Raise _ => false end.

(** ** Numbers *)

(** A float that may be [-inf]; the only infinite value [model.py] creates. *)
Inductive ExtR : Type :=
| Fin (r : R)
| NegInf.

(** [exp] extended with [exp(-inf) = 0]. *)
Definition expE (x : ExtR) : R :=
  match x with
  | Fin r => exp r
  | NegInf => 0%R
  end.

(** Sum of [f 0 .. f (n-1)]. *)
Definition Rsum (n : nat) (f : nat -> R) : R :=
  fold_right Rplus 0%R (map f (seq 0 n)).

Arguments Rsum : simpl never.

(** Python's [n ** -0.5] for an [int] n: zero raises. *)
Definition pow_neg_half (n : nat) : result R :=
  if Nat.eqb n 0 then Raise ZeroDivisionError
  else Ok (Rpower (INR n) (- (1 / 2))%R).

(** ** Tensors *)

Record Tensor (A : Type) : Type := mkTensor {
  shape : list nat;
  elem : list nat -> A
}.

Arguments mkTensor {A} shape elem.
Arguments shape {A} t.
Arguments elem {A} t idx.

Definition numel (s : list nat) : nat := fold_right Nat.mul 1 s.

Definition tmap {A B : Type} (f : A -> B) (t : Tensor A) : Tensor B :=
  {| shape := shape t; elem := fun idx => f (elem t idx) |}.

(** The index without its last component, and the last two components. *)
Definition lead (idx : list nat) : list nat := removelast idx.
Definition lst (idx : list nat) : nat := last idx 0.
Definition pen (idx : list nat) : nat := last (removelast idx) 0.
Definition lead2 (idx : list nat) : list nat := removelast (removelast idx).

(** *** Broadcasting *)

(** Shapes are aligned from the right, so the work is done on reversed
    shapes. *)
Fixpoint broadcast_rev (a b : list nat) : option (list nat) :=
  match a, b with
  | [], _ => Some b
  | _, [] => Some a
  | x :: a', y :: b' =>
      match broadcast_rev a' b' with
      | None => None
      | Some r =>
          if Nat.eqb x y then Some (x :: r)
          else if Nat.eqb x 1 then Some (y :: r)
          else if Nat.eqb y 1 then Some (x :: r)
          else None
      end
  end.

Definition broadcast_shapes (a b : list nat) : option (list nat) :=
  option_map (@rev nat) (broadcast_rev (rev a) (rev b)).

(** The index into a tensor of shape [s] that an index of the broadcast
    result reads. *)
Definition bidx (s idx : list nat) : list nat :=
  map (fun di => if Nat.eqb (fst di) 1 then 0 else snd di)
      (combine s (skipn (length idx - length s) idx)).

Definition list_nat_eqb (a b : list nat) : bool :=
  if list_eq_dec Nat.eq_dec a b then true else false.

(** Element-wise binary operation with broadcasting. *)
Definition zip_broadcast {A B C : Type} (f : A -> B -> C)
    (a : Tensor A) (b : Tensor B) : result (Tensor C) :=
  match broadcast_shapes (shape a) (shape b) with
  | None => Raise RuntimeError
  | Some s =>
      Ok {| shape := s;
            elem := fun idx =>
              f (elem a (bidx (shape a) idx)) (elem b (bidx (shape b) idx)) |}
  end.

(** [self.masked_fill(mask, value)], out of place: [self] and the mask are
    broadcast against each other, and the result has the broadcast shape. *)
Definition masked_fill (self : Tensor R) (mask : Tensor bool) (value : ExtR)
    : result (Tensor ExtR) :=
  match broadcast_shapes (shape mask) (shape self) with
  | None => Raise RuntimeError
  | Some s =>
      if list_nat_eqb s (shape self) then
        (* only the mask is expanded *)
        Ok {| shape := shape self;
              elem := fun idx =>
                if elem mask (bidx (shape mask) idx) then value
                else Fin (elem self idx) |}
      else
        Ok {| shape := s;
              elem := fun idx =>
                if elem mask (bidx (shape mask) idx) then value
                else Fin (elem self (bidx (shape self) idx)) |}
  end.

(** *** Linear algebra *)

(** [t.transpose(-2, -1)] *)
Definition transpose_last2 {A : Type} (t : Tensor A) : result (Tensor A) :=
  if Nat.ltb (length (shape t)) 2 then Raise IndexError
  else
    Ok {| shape := lead2 (shape t) ++ [lst (shape t); pen (shape t)];
          elem := fun idx => elem t (lead2 idx ++ [lst idx; pen idx]) |}.

(** [a @ b] for two tensors of the same rank (at least 2) and the same
    batch dimensions, the only way [model.py] uses it. *)
Definition matmul (a b : Tensor R) : result (Tensor R) :=
  if Nat.ltb (length (shape a)) 2 || Nat.ltb (length (shape b)) 2 then
    Raise RuntimeError
  else if negb (list_nat_eqb (lead2 (shape a)) (lead2 (shape b))) then
    Raise RuntimeError
  else if negb (Nat.eqb (lst (shape a)) (pen (shape b))) then
    Raise RuntimeError
  else
    Ok {| shape := lead2 (shape a) ++ [pen (shape a); lst (shape b)];
          elem := fun idx =>
            Rsum (lst (shape a)) (fun k =>
              (elem a (lead2 idx ++ [pen idx; k])
               * elem b (lead2 idx ++ [k; lst idx]))%R) |}.

(** [F.softmax(x, dim=-1)] *)
Definition softmax (x : Tensor ExtR) : Tensor R :=
  {| shape := shape x;
     elem := fun idx =>
       (expE (elem x idx)
        / Rsum (lst (shape x)) (fun k => expE (elem x (lead idx ++ [k]))))%R |}.

(** [torch.tril(torch.ones(n, n))] *)
Definition tril_ones (n : nat) : Tensor R :=
  {| shape := [n; n];
     elem := fun idx => if Nat.leb (lst idx) (pen idx) then 1%R else 0%R |}.

(** [t[:n, :n]] on a matrix. *)
Definition slice2 {A : Type} (t : Tensor A) (n : nat) : Tensor A :=
  {| shape := map (Nat.min n) (shape t); elem := elem t |}.

(** [t == 0] *)
Definition eq_zero (t : Tensor R) : Tensor bool :=
  tmap (fun x => if Req_dec_T x 0%R then true else false) t.

(** [torch.cat(ts, dim=-1)]: an empty list raises a ValueError, and tensors
    whose other dimensions differ raise a RuntimeError. *)
Fixpoint cat_elem {A : Type} (ts : list (Tensor A)) (d : A)
    (pre : list nat) (j : nat) : A :=
  match ts with
  | [] => d
  | x :: ts' =>
      if Nat.ltb j (lst (shape x)) then elem x (pre ++ [j])
      else cat_elem ts' d pre (j - lst (shape x))
  end.

Definition cat_last {A : Type} (ts : list (Tensor A)) : result (Tensor A) :=
  match ts with
  | [] => Raise ValueError
  | x :: _ =>
      if forallb (fun y => negb (Nat.eqb (length (shape y)) 0)
                           && list_nat_eqb (lead (shape y)) (lead (shape x))) ts
      then
        Ok {| shape := lead (shape x)
                       ++ [fold_right Nat.add 0 (map (fun y => lst (shape y)) ts)];
              elem := fun idx => cat_elem ts (elem x idx) (lead idx) (lst idx) |}
      else Raise RuntimeError
  end.

(** Row-major flattening of an index, and its inverse. *)
Fixpoint ravel (s idx : list nat) : nat :=
  match s, idx with
  | _ :: s', i :: idx' => i * numel s' + ravel s' idx'
  | _, _ => 0
  end.

Fixpoint unravel (s : list nat) (f : nat) : list nat :=
  match s with
  | [] => []
  | _ :: s' => (f / numel s') :: unravel s' (f mod numel s')
  end.

(** [t.view(new_shape)] *)
Definition view {A : Type} (x : Tensor A) (new_shape : list nat)
    : result (Tensor A) :=
  if Nat.eqb (numel (shape x)) (numel new_shape) then
    Ok {| shape := new_shape;
          elem := fun idx => elem x (unravel (shape x) (ravel new_shape idx)) |}
  else Raise RuntimeError.

(** All the indices of a shape, in row-major order. *)
Fixpoint indices (s : list nat) : list (list nat) :=
  match s with
  | [] => [[]]
  | d :: s' => flat_map (fun i => map (cons i) (indices s')) (seq 0 d)
  end.

Definition tsum (x : Tensor R) : R :=
  fold_right Rplus 0%R (map (elem x) (indices (shape x))).

(** [t.mean()]: a tensor of rank 0. *)
Definition mean (x : Tensor R) : Tensor R :=
  {| shape := []; elem := fun _ => (tsum x / INR (numel (shape x)))%R |}.

(** [torch.arange(n)] *)
Definition arange (n : nat) : Tensor Z :=
  {| shape := [n]; elem := fun idx => Z.of_nat (lst idx) |}.

(** [F.logsigmoid], over the reals: negative everywhere, where the floating
    point value reaches 0 for large arguments. *)
Definition logsigmoid (x : R) : R := (- ln (1 + exp (- x)))%R.

(** Initial values of the learned parameters: PyTorch draws them at random;
    here they are read from a source addressed by the path of the parameter
    in the module tree and the index in the tensor. *)
Definition Initializer : Type := list nat -> list nat -> R.

Definition sub (ini : Initializer) (k : nat) : Initializer :=
  fun path => ini (k :: path).

(** Creating a tensor with a negative dimension raises. *)
Definition check_dim (z : Z) : result nat :=
  if Z.ltb z 0 then Raise RuntimeError else Ok (Z.to_nat z).

Fixpoint mapM {A B : Type} (f : A -> result B) (l : list A)
    : result (list B) :=
  match l with
  | [] => Ok []
  | a :: l' => b <- f a ;; bs <- mapM f l' ;; Ok (b :: bs)
  end.

(** ** nn.Linear *)

Module Linear.

Record t : Type := mk {
  in_features : nat;
  out_features : nat;
  weight : Tensor R;            (* (out_features, in_features) *)
  bias : option (Tensor R)      (* (out_features) *)
}.

Definition init (ini : Initializer) (n_in n_out : Z) (with_bias : bool)
    : result t :=
  i <- check_dim n_in ;;
  o <- check_dim n_out ;;
  Ok {| in_features := i;
        out_features := o;
        weight := {| shape := [o; i]; elem := ini [0] |};
        bias := if with_bias then Some {| shape := [o]; elem := ini [1] |}
                else None |}.

Definition forward (self : t) (input : Tensor R) : result (Tensor R) :=
  match shape input with
  | [] => Raise RuntimeError
  | _ :: _ =>
      if negb (Nat.eqb (lst (shape input)) (in_features self)) then
        Raise RuntimeError
      else
        Ok {| shape := lead (shape input) ++ [out_features self];
              elem := fun idx =>
                (Rsum (in_features self) (fun k =>
                   elem input (lead idx ++ [k])
                   * elem (weight self) [lst idx; k])
                 + match bias self with
                   | Some b => elem b [lst idx]
                   | None => 0
                   end)%R |}
  end.

End Linear.

(** ** nn.LayerNorm (over the last dimension) *)

Module LayerNorm.

Record t : Type := mk {
  normalized_shape : nat;
  weight : Tensor R;
  bias : Tensor R;
  eps : R
}.

Definition init (dim : Z) : result t :=
  d <- check_dim dim ;;
  Ok {| normalized_shape := d;
        weight := {| shape := [d]; elem := fun _ => 1%R |};
        bias := {| shape := [d]; elem := fun _ => 0%R |};
        eps := (1 / 100000)%R |}.

Definition forward (self : t) (input : Tensor R) : result (Tensor R) :=
  match shape input with
  | [] => Raise RuntimeError
  | _ :: _ =>
      if negb (Nat.eqb (lst (shape input)) (normalized_shape self)) then
        Raise RuntimeError
      else
        let n := normalized_shape self in
        let mu := fun idx =>
          (Rsum n (fun k => elem input (lead idx ++ [k])) / INR n)%R in
        let var := fun idx =>
          (Rsum n (fun k => (elem input (lead idx ++ [k]) - mu idx) ^ 2)
           / INR n)%R in
        Ok {| shape := shape input;
              elem := fun idx =>
                ((elem input idx - mu idx) / sqrt (var idx + eps self)
                 * elem (weight self) [lst idx]
                 + elem (bias self) [lst idx])%R |}
  end.

End LayerNorm.

(** ** nn.Embedding *)

Module Embedding.

Record t : Type := mk {
  num_embeddings : nat;
  embedding_dim : nat;
  weight : Tensor R             (* (num_embeddings, embedding_dim) *)
}.

Definition init (ini : Initializer) (num dim : Z) : result t :=
  n <- check_dim num ;;
  d <- check_dim dim ;;
  Ok {| num_embeddings := n;
        embedding_dim := d;
        weight := {| shape := [n; d]; elem := ini [0] |} |}.

Definition in_range (self : t) (id : Z) : bool :=
  Z.leb 0 id && Z.ltb id (Z.of_nat (num_embeddings self)).

(** Looking up an id outside the table raises: an IndexError, and a
    RuntimeError when the table holds no entry at all (no row, or rows of
    width 0). *)
Definition forward (self : t) (ids : Tensor Z) : result (Tensor R) :=
  if forallb (fun idx => in_range self (elem ids idx)) (indices (shape ids))
  then
    Ok {| shape := shape ids ++ [embedding_dim self];
          elem := fun idx =>
            elem (weight self) [Z.to_nat (elem ids (lead idx)); lst idx] |}
  else if Nat.eqb (num_embeddings self) 0 || Nat.eqb (embedding_dim self) 0
  then Raise RuntimeError
  else Raise IndexError.

End Embedding.

(** ** AttentionHead *)

Module AttentionHead.

Record t : Type := mk {
  project_to_key : Linear.t;
  project_to_query : Linear.t;
  project_to_value : Linear.t;
  tril : Tensor R
}.

Definition init (ini : Initializer) (dim_embed head_size max_length : Z)
    : result t :=
  k <- Linear.init (sub ini 0) dim_embed head_size false ;;
  q <- Linear.init (sub ini 1) dim_embed head_size false ;;
  v <- Linear.init (sub ini 2) dim_embed head_size false ;;
  n <- check_dim max_length ;;
  Ok {| project_to_key := k;
        project_to_query := q;
        project_to_value := v;
        tril := tril_ones n |}.

(** Lines 52-60 of [forward]: the scaled affinity scores.  [dim_embed] is read
    from the shape of the input, as the source does; unpacking a shape that
    is not of rank 3 raises. *)
Definition scores (self : t) (input : Tensor R) : result (Tensor R) :=
  match shape input with
  | [_; _; dim_embed] =>
      key <- Linear.forward (project_to_key self) input ;;
      query <- Linear.forward (project_to_query self) input ;;
      keyT <- transpose_last2 key ;;
      weights <- matmul query keyT ;;
      c <- pow_neg_half dim_embed ;;
      Ok (tmap (fun w => (w * c)%R) weights)
  | _ => Raise ValueError
  end.

(** Lines 52-65: the attention weight matrix after mask and softmax. *)
Definition attention (self : t) (input : Tensor R) : result (Tensor R) :=
  match shape input with
  | [_; T; _] =>
      weights <- scores self input ;;
      weights <- masked_fill weights (eq_zero (slice2 (tril self) T)) NegInf ;;
      Ok (softmax weights)
  | _ => Raise ValueError
  end.

Definition forward (self : t) (input : Tensor R) : result (Tensor R) :=
  match shape input with
  | [_; _; _] =>
      value <- Linear.forward (project_to_value self) input ;;
      weights <- attention self input ;;
      matmul weights value
  | _ => Raise ValueError
  end.

End AttentionHead.

(** ** MultiHeadAttention *)

Module MultiHeadAttention.

Record t : Type := mk {
  heads : list AttentionHead.t;
  project : Linear.t
}.

Definition init (ini : Initializer) (dim_embed num_heads head_size max_length : Z)
    : result t :=
  hs <- mapM (fun i => AttentionHead.init (sub (sub ini 0) i)
                         dim_embed head_size max_length)
             (seq 0 (Z.to_nat num_heads)) ;;
  p <- Linear.init (sub ini 1) (head_size * num_heads) dim_embed true ;;
  Ok {| heads := hs; project := p |}.

Definition forward (self : t) (input : Tensor R) : result (Tensor R) :=
  outs <- mapM (fun head => AttentionHead.forward head input) (heads self) ;;
  output <- cat_last outs ;;
  Linear.forward (project self) output.

End MultiHeadAttention.

(** ** FeedForward *)

Module FeedForward.

Record t : Type := mk {
  expand : Linear.t;            (* feed_forward[0] *)
  contract : Linear.t           (* feed_forward[2] *)
}.

Definition init (ini : Initializer) (dim_embed : Z) : result t :=
  a <- Linear.init (sub ini 0) dim_embed (4 * dim_embed) true ;;
  b <- Linear.init (sub ini 2) (4 * dim_embed) dim_embed true ;;
  Ok {| expand := a; contract := b |}.

Definition relu (x : R) : R := Rmax 0 x.

Definition forward (self : t) (input : Tensor R) : result (Tensor R) :=
  h <- Linear.forward (expand self) input ;;
  Linear.forward (contract self) (tmap relu h).

End FeedForward.

(** ** TranformerBlock (the source's spelling) *)

Module TranformerBlock.

Record t : Type := mk {
  multi_head_attention : MultiHeadAttention.t;
  feed_forward : FeedForward.t;
  layer_norm1 : LayerNorm.t;
  layer_norm2 : LayerNorm.t
}.

(** Python's [//] on integers: floor division, raising on a zero divisor. *)
Definition floordiv (a b : Z) : result Z :=
  if Z.eqb b 0 then Raise ZeroDivisionError else Ok (Z.div a b).

Definition init (ini : Initializer) (dim_embed num_heads max_length : Z)
    : result t :=
  head_size <- floordiv dim_embed num_heads ;;
  mha <- MultiHeadAttention.init (sub ini 0) dim_embed num_heads head_size
           max_length ;;
  ff <- FeedForward.init (sub ini 1) dim_embed ;;
  ln1 <- LayerNorm.init dim_embed ;;
  ln2 <- LayerNorm.init dim_embed ;;
  Ok {| multi_head_attention := mha;
        feed_forward := ff;
        layer_norm1 := ln1;
        layer_norm2 := ln2 |}.

Definition forward (self : t) (input : Tensor R) : result (Tensor R) :=
  n1 <- LayerNorm.forward (layer_norm1 self) input ;;
  a <- MultiHeadAttention.forward (multi_head_attention self) n1 ;;
  output <- zip_broadcast Rplus input a ;;
  n2 <- LayerNorm.forward (layer_norm2 self) output ;;
  f <- FeedForward.forward (feed_forward self) n2 ;;
  zip_broadcast Rplus output f.

End TranformerBlock.

(** ** F.cross_entropy *)

(** The default [ignore_index] of [F.cross_entropy]. *)
Definition ignore_index : Z := (-100)%Z.

Definition target_ok (C : nat) (y : Z) : bool :=
  Z.eqb y ignore_index || (Z.leb 0 y && Z.ltb y (Z.of_nat C)).

(** The loss of one example: minus the log-probability of the target class,
    and zero for an ignored target. *)
Definition example_loss (input : Tensor R) (target : Tensor Z) (C i : nat) : R :=
  let y := elem target [i] in
  if Z.eqb y ignore_index then 0%R
  else (- (elem input [i; Z.to_nat y]
           - ln (Rsum C (fun c => exp (elem input [i; c])))))%R.

Definition counted (target : Tensor Z) (N : nat) : nat :=
  length (filter (fun i => negb (Z.eqb (elem target [i]) ignore_index))
                 (seq 0 N)).

(** [F.cross_entropy(input, target, reduce=reduce)] for [input] of shape
    (N, C) and [target] of shape (N): the legacy flag [reduce] selects the
    reduction 'mean' (True) or 'none' (False).  The mean is taken over the
    targets that are not ignored; when every target is ignored it is 0 / 0,
    which PyTorch returns as nan and about which nothing is stated here.
    A target outside the classes raises.  Other ranks are not used by
    [model.py]. *)
Definition cross_entropy (input : Tensor R) (target : Tensor Z) (reduce : bool)
    : result (Tensor R) :=
  match shape input, shape target with
  | [N; C], [M] =>
      if negb (Nat.eqb N M) then Raise ValueError
      else if negb (forallb (fun i => target_ok C (elem target [i])) (seq 0 N))
      then Raise IndexError
      else if reduce then
        Ok {| shape := [];
              elem := fun _ =>
                (Rsum N (example_loss input target C)
                 / INR (counted target N))%R |}
      else
        Ok {| shape := [N];
              elem := fun idx => example_loss input target C (lst idx) |}
  | _, _ => Raise RuntimeError
  end.

(** ** Tensor operations of [generate] *)

(** [t[:, -n:]]: the last [n] entries along the second dimension.  In
    Python [-0] is [0], so [n = 0] keeps every entry. *)
Definition crop_last {A : Type} (x : Tensor A) (n : nat) : result (Tensor A) :=
  match shape x with
  | B :: T :: rest =>
      let start := if Nat.eqb n 0 then 0 else T - n in
      Ok {| shape := B :: (T - start) :: rest;
            elem := fun idx =>
              match idx with
              | b :: t :: r => elem x (b :: (t + start) :: r)
              | _ => elem x idx
              end |}
  | _ => Raise IndexError
  end.

(** [t[:, -1, :]] on a tensor of rank 3; an empty second dimension has no
    last entry. *)
Definition select_last {A : Type} (x : Tensor A) : result (Tensor A) :=
  match shape x with
  | [B; T; V] =>
      if Nat.eqb T 0 then Raise IndexError
      else Ok {| shape := [B; V];
                 elem := fun idx => elem x [pen idx; T - 1; lst idx] |}
  | _ => Raise IndexError
  end.

(** [t.item()]: only a tensor with exactly one element converts to a
    scalar. *)
Definition item {A : Type} (x : Tensor A) : result A :=
  if Nat.eqb (numel (shape x)) 1 then Ok (elem x (map (fun _ => 0) (shape x)))
  else Raise RuntimeError.

(** ** Sampling *)

(** [torch.multinomial] reads the global random generator.  The generator is
    a state [rng] and [draw g p V] picks a category among [V] with the
    probabilities [p], returning the next state. *)
Record Sampler : Type := mkSampler {
  rng : Type;
  draw : rng -> (nat -> R) -> nat -> nat * rng
}.

(** What [torch.multinomial] guarantees: the category exists. *)
Definition sampler_ok (smp : Sampler) : Prop :=
  forall g p V, 0 < V -> fst (draw smp g p V) < V.

Fixpoint draw_rows (smp : Sampler) (g : rng smp) (probs : Tensor R) (V : nat)
    (rows : list nat) : list nat * rng smp :=
  match rows with
  | [] => ([], g)
  | b :: rows' =>
      let '(x, g1) := draw smp g (fun v => elem probs [b; v]) V in
      let '(xs, g2) := draw_rows smp g1 probs V rows' in
      (x :: xs, g2)
  end.

(** [torch.multinomial(probs, num_samples=1)] on a matrix of probabilities. *)
Definition multinomial (smp : Sampler) (g : rng smp) (probs : Tensor R)
    : result (Tensor Z * rng smp) :=
  match shape probs with
  | [B; V] =>
      if Nat.eqb V 0 then Raise RuntimeError
      else
        let '(xs, g') := draw_rows smp g probs V (seq 0 B) in
        Ok ({| shape := [B; 1];
               elem := fun idx => Z.of_nat (nth (pen idx) xs 0) |}, g')
  | _ => Raise RuntimeError
  end.

(** ** TutorialLLM *)

Module TutorialLLM.

Record t : Type := mk {
  max_length : nat;
  token_embedding_table : Embedding.t;
  position_embedding_table : Embedding.t;
  transformer_blocks : list TranformerBlock.t;
  layer_norm_final : LayerNorm.t;
  project : Linear.t
}.

Definition init (ini : Initializer)
    (vocabulary_size dim_embed max_length num_head num_layer : Z) : result t :=
  tok <- Embedding.init (sub ini 0) vocabulary_size dim_embed ;;
  pos <- Embedding.init (sub ini 1) max_length dim_embed ;;
  blocks <- mapM (fun i => TranformerBlock.init (sub (sub ini 2) i)
                             dim_embed num_head max_length)
                 (seq 0 (Z.to_nat num_layer)) ;;
  ln <- LayerNorm.init dim_embed ;;
  p <- Linear.init (sub ini 4) dim_embed vocabulary_size true ;;
  (* [max_length] is not negative here: the position table was created. *)
  Ok {| max_length := Z.to_nat max_length;
        token_embedding_table := tok;
        position_embedding_table := pos;
        transformer_blocks := blocks;
        layer_norm_final := ln;
        project := p |}.

(** [nn.Sequential] over the blocks. *)
Fixpoint sequential (blocks : list TranformerBlock.t) (x : Tensor R)
    : result (Tensor R) :=
  match blocks with
  | [] => Ok x
  | b :: blocks' => y <- TranformerBlock.forward b x ;; sequential blocks' y
  end.

(** Lines 251-262: the logits, of rank 3. *)
Definition logits_of (self : t) (token_ids : Tensor Z) : result (Tensor R) :=
  match shape token_ids with
  | [_; T] =>
      token_embedding <- Embedding.forward (token_embedding_table self)
                           token_ids ;;
      position_embedding <- Embedding.forward (position_embedding_table self)
                              (arange T) ;;
      embedding <- zip_broadcast Rplus token_embedding position_embedding ;;
      embedding <- sequential (transformer_blocks self) embedding ;;
      embedding <- LayerNorm.forward (layer_norm_final self) embedding ;;
      Linear.forward (project self) embedding
  | _ => Raise ValueError
  end.

Definition forward (self : t) (token_ids : Tensor Z)
    (labels : option (Tensor Z)) (reduce_loss : bool)
    : result (Tensor R * option (Tensor R)) :=
  logits <- logits_of self token_ids ;;
  match labels with
  | None => Ok (logits, None)
  | Some labels =>
      match shape logits with
      | [B; T; vocabulary_size] =>
          logits <- view logits [B * T; vocabulary_size] ;;
          labels <- view labels [B * T] ;;
          loss <- cross_entropy logits labels reduce_loss ;;
          Ok (logits, Some loss)
      | _ => Raise ValueError
      end
  end.

(** Lines 291-301: one sampling step, which returns the extended sequence
    and the sampled column [idx_next]. *)
Definition sample_next (smp : Sampler) (self : t) (token_ids : Tensor Z)
    (g : rng smp) : result (Tensor Z * Tensor Z * rng smp) :=
  token_ids_available <- crop_last token_ids (max_length self) ;;
  ' (logits, _) <- forward self token_ids_available None true ;;
  logits <- select_last logits ;;
  let probs := softmax (tmap Fin logits) in
  ' (idx_next, g') <- multinomial smp g probs ;;
  token_ids <- cat_last [token_ids; idx_next] ;;
  Ok (token_ids, idx_next, g').

(** The loop of [generate]: [n] is what is left of [range(max_new_tokens)];
    line 303 is the end-of-sequence check. *)
Fixpoint generate (smp : Sampler) (self : t) (token_ids : Tensor Z) (n : nat)
    (g : rng smp) : result (Tensor Z * rng smp) :=
  match n with
  | 0 => Ok (token_ids, g)
  | S n' =>
      ' (token_ids, idx_next, g') <- sample_next smp self token_ids g ;;
      v <- item idx_next ;;
      if Z.eqb v 0 then Ok (token_ids, g')
      else generate smp self token_ids n' g'
  end.

End TutorialLLM.

(** ** DpoWrapper *)

Module DpoWrapper.

Record t : Type := mk {
  aligned_model : TutorialLLM.t;
  beta : R;
  positive_weight : R;
  negative_weight : R;
  reference_model : TutorialLLM.t
}.

(** [copy.deepcopy] of an immutable value is the value. *)
Definition init (model : TutorialLLM.t) (beta positive_weight : R) : t :=
  {| aligned_model := model;
     beta := beta;
     positive_weight := positive_weight;
     negative_weight := (1 - positive_weight)%R;
     reference_model := model |}.

(** [_, loss = model(token_ids, labels, False)] *)
Definition loss_of (model : TutorialLLM.t) (token_ids labels : Tensor Z)
    : result (Tensor R) :=
  ' (_, loss) <- TutorialLLM.forward model token_ids (Some labels) false ;;
  match loss with
  | Some l => Ok l
  | None => Raise TypeError
  end.

Record Losses : Type := mkLosses {
  positive_loss : Tensor R;
  negative_loss : Tensor R;
  reference_positive_loss : Tensor R;
  reference_negative_loss : Tensor R
}.

(** Lines 350-355: the four forward passes. *)
Definition losses (self : t)
    (positive_token_ids positive_labels negative_token_ids negative_labels
       : Tensor Z) : result Losses :=
  pl <- loss_of (aligned_model self) positive_token_ids positive_labels ;;
  nl <- loss_of (aligned_model self) negative_token_ids negative_labels ;;
  rpl <- loss_of (reference_model self) positive_token_ids positive_labels ;;
  rnl <- loss_of (reference_model self) negative_token_ids negative_labels ;;
  Ok {| positive_loss := pl;
        negative_loss := nl;
        reference_positive_loss := rpl;
        reference_negative_loss := rnl |}.

(** Lines 357-366: the loss and the mean reward margin. *)
Definition combine_losses (self : t) (l : Losses)
    : result (Tensor R * Tensor R) :=
  positive_reward <- zip_broadcast Rminus (reference_positive_loss l)
                       (positive_loss l) ;;
  negative_reward <- zip_broadcast Rminus (negative_loss l)
                       (reference_negative_loss l) ;;
  reward_margin <- zip_broadcast Rplus
                     (tmap (Rmult (positive_weight self)) positive_reward)
                     (tmap (Rmult (negative_weight self)) negative_reward) ;;
  let loss :=
    tmap Ropp (mean (tmap logsigmoid (tmap (Rmult (beta self)) reward_margin)))
  in
  Ok (loss, mean reward_margin).

Definition forward (self : t)
    (positive_token_ids positive_labels negative_token_ids negative_labels
       : Tensor Z) : result (Tensor R * Tensor R) :=
  l <- losses self positive_token_ids positive_labels negative_token_ids
         negative_labels ;;
  combine_losses self l.

End DpoWrapper.

(** * Vocabulary of the statements *)

(** The projection of token [i] of sequence [b] on output coordinate [h]. *)
Definition projected (l : Linear.t) (input : Tensor R) (b i h : nat) : R :=
  Rsum (Linear.in_features l) (fun d =>
    (elem input [b; i; d] * elem (Linear.weight l) [h; d])%R).

(** query . key^T at (b, i, j), before any scaling. *)
Definition affinity (self : AttentionHead.t) (input : Tensor R) (b i j : nat)
    : R :=
  Rsum (Linear.out_features (AttentionHead.project_to_query self)) (fun h =>
    (projected (AttentionHead.project_to_query self) input b i h
     * projected (AttentionHead.project_to_key self) input b j h)%R).

(** A head as [AttentionHead.__init__] builds it. *)
Record head_dims (h : AttentionHead.t) (D hs L : nat) : Prop := {
  hd_key_in : Linear.in_features (AttentionHead.project_to_key h) = D;
  hd_query_in : Linear.in_features (AttentionHead.project_to_query h) = D;
  hd_value_in : Linear.in_features (AttentionHead.project_to_value h) = D;
  hd_key_out : Linear.out_features (AttentionHead.project_to_key h) = hs;
  hd_query_out : Linear.out_features (AttentionHead.project_to_query h) = hs;
  hd_value_out : Linear.out_features (AttentionHead.project_to_value h) = hs;
  hd_key_bias : Linear.bias (AttentionHead.project_to_key h) = None;
  hd_query_bias : Linear.bias (AttentionHead.project_to_query h) = None;
  hd_value_bias : Linear.bias (AttentionHead.project_to_value h) = None;
  hd_tril : AttentionHead.tril h = tril_ones L
}.

(** A block as [TranformerBlock.__init__] builds it, with at least one
    head. *)
Record block_dims (blk : TranformerBlock.t) (D hs L : nat) : Prop := {
  bd_heads_nonempty :
    MultiHeadAttention.heads (TranformerBlock.multi_head_attention blk) <> [];
  bd_heads :
    Forall (fun h => head_dims h D hs L)
      (MultiHeadAttention.heads (TranformerBlock.multi_head_attention blk));
  bd_project_in :
    Linear.in_features
      (MultiHeadAttention.project (TranformerBlock.multi_head_attention blk))
    = length (MultiHeadAttention.heads
                (TranformerBlock.multi_head_attention blk)) * hs;
  bd_project_out :
    Linear.out_features
      (MultiHeadAttention.project (TranformerBlock.multi_head_attention blk))
    = D;
  bd_expand_in :
    Linear.in_features (FeedForward.expand (TranformerBlock.feed_forward blk))
    = D;
  bd_contract_in :
    Linear.in_features (FeedForward.contract (TranformerBlock.feed_forward blk))
    = Linear.out_features
        (FeedForward.expand (TranformerBlock.feed_forward blk));
  bd_contract_out :
    Linear.out_features
      (FeedForward.contract (TranformerBlock.feed_forward blk)) = D;
  bd_ln1 : LayerNorm.normalized_shape (TranformerBlock.layer_norm1 blk) = D;
  bd_ln2 : LayerNorm.normalized_shape (TranformerBlock.layer_norm2 blk) = D
}.

(** A model as [TutorialLLM.__init__] builds it: vocabulary [V], embedding
    dimension [D], head size [hs], context length [L]. *)
Record model_dims (m : TutorialLLM.t) (V D hs L : nat) : Prop := {
  md_max_length : TutorialLLM.max_length m = L;
  md_tok_num : Embedding.num_embeddings (TutorialLLM.token_embedding_table m) = V;
  md_tok_dim : Embedding.embedding_dim (TutorialLLM.token_embedding_table m) = D;
  md_pos_num :
    Embedding.num_embeddings (TutorialLLM.position_embedding_table m) = L;
  md_pos_dim :
    Embedding.embedding_dim (TutorialLLM.position_embedding_table m) = D;
  md_blocks :
    Forall (fun b => block_dims b D hs L) (TutorialLLM.transformer_blocks m);
  md_ln : LayerNorm.normalized_shape (TutorialLLM.layer_norm_final m) = D;
  md_project_in : Linear.in_features (TutorialLLM.project m) = D;
  md_project_out : Linear.out_features (TutorialLLM.project m) = V
}.

(** Every id of a (B, T) batch indexes the vocabulary. *)
Definition ids_in_vocab (ids : Tensor Z) (B T V : nat) : Prop :=
  forall b t, b < B -> t < T ->
    (0 <= elem ids [b; t] < Z.of_nat V)%Z.


(** What [x.view(s)] returns when the sizes agree. *)
Definition flat_view {A : Type} (x : Tensor A) (s : list nat) : Tensor A :=
  mkTensor s (fun idx => elem x (unravel (shape x) (ravel s idx))).

(** Every target of a (B, T) batch is a class of the vocabulary. *)
Definition labels_in_vocab (labels : Tensor Z) (B T V : nat) : Prop :=
  forall b t, b < B -> t < T ->
    (0 <= elem labels [b; t] < Z.of_nat V)%Z.

(** The loss tensor [F.cross_entropy] returns on flattened logits and
    labels. *)
Definition loss_tensor (logits : Tensor R) (labels : Tensor Z) (N C : nat)
    (reduce : bool) : Tensor R :=
  if reduce
  then mkTensor []
         (fun _ => (Rsum N (example_loss logits labels C)
                    / INR (counted labels N))%R)
  else mkTensor [N] (fun idx => example_loss logits labels C (lst idx)).


(** The optimizer updates the parameters of the aligned model between
    forward passes; the reference copy and the hyperparameters stay. *)
Definition trained (w : DpoWrapper.t) (updated : TutorialLLM.t)
    : DpoWrapper.t :=
  {| DpoWrapper.aligned_model := updated;
     DpoWrapper.beta := DpoWrapper.beta w;
     DpoWrapper.positive_weight := DpoWrapper.positive_weight w;
     DpoWrapper.negative_weight := DpoWrapper.negative_weight w;
     DpoWrapper.reference_model := DpoWrapper.reference_model w |}.

(** The rewards and the reward margin of example [i], as the specification
    writes them. *)
Definition positive_reward_at (l : DpoWrapper.Losses) (i : nat) : R :=
  (elem (DpoWrapper.reference_positive_loss l) [i]
   - elem (DpoWrapper.positive_loss l) [i])%R.

Definition negative_reward_at (l : DpoWrapper.Losses) (i : nat) : R :=
  (elem (DpoWrapper.negative_loss l) [i]
   - elem (DpoWrapper.reference_negative_loss l) [i])%R.

Definition reward_margin_at (positive_weight : R) (l : DpoWrapper.Losses)
    (i : nat) : R :=
  (positive_weight * positive_reward_at l i
   + (1 - positive_weight) * negative_reward_at l i)%R.

(** Concrete inputs for the examples. *)
Definition zero_init : Initializer := fun _ _ => 0%R.

Definition ones (s : list nat) : Tensor R := mkTensor s (fun _ => 1%R).

Definition const_ids (B T : nat) (z : Z) : Tensor Z :=
  mkTensor [B; T] (fun _ => z).

(** Targets that ignore the first [k] positions of every sequence and ask
    for the class [z] at the others. *)
Definition labels_from (B T k : nat) (z : Z) : Tensor Z :=
  mkTensor [B; T] (fun idx => if Nat.ltb (lst idx) k then ignore_index else z).


(** Row [b] of a matrix of ids, as a list ([x[b].tolist()]). *)
Definition row (x : Tensor Z) (b : nat) : list Z :=
  map (fun t => elem x [b; t]) (seq 0 (lst (shape x))).

(** A model without parameters, for the examples that need only a value. *)
Definition empty_model : TutorialLLM.t :=
  TutorialLLM.mk 0 (Embedding.mk 0 0 (ones [])) (Embedding.mk 0 0 (ones []))
    [] (LayerNorm.mk 0 (ones []) (ones []) 0%R)
    (Linear.mk 0 0 (ones []) None).

(** A generator that always samples the end-of-sequence token, and one that
    always samples the last category. *)
Definition always_eos : Sampler :=
  {| rng := unit; draw := fun g _ _ => (0, g) |}.

Definition always_last : Sampler :=
  {| rng := unit; draw := fun g _ V => (V - 1, g) |}.


(** One run of [generate] on the model of the specification's scenario
    (vocabulary 5, dim_embed 8, context 4, 2 heads, 1 layer): the first row
    of the result, or the exception. *)
Definition run_generate (smp : Sampler) (g : rng smp) (prompt : Tensor Z)
    (max_new_tokens : nat) : result (list Z) :=
  m <- TutorialLLM.init zero_init 5 8 4 2 1 ;;
  ' (out, _) <- TutorialLLM.generate smp m prompt max_new_tokens g ;;
  Ok (row out 0).


(** Two activations agree on sequence [b] at the positions up to [i]. *)
Definition same_upto (b i D : nat) (x x' : Tensor R) : Prop :=
  forall t d, t <= i -> d < D -> elem x [b; t; d] = elem x' [b; t; d].

(** Two batches of ids agree on sequence [b] at the positions up to [i]. *)
Definition ids_same_upto (b i : nat) (ids ids' : Tensor Z) : Prop :=
  forall t, t <= i -> elem ids [b; t] = elem ids' [b; t].

(** An operation on activations of at most [L] positions that keeps the
    batch and the positions, maps width [Din] to width [Dout], and whose
    output at position [i] of sequence [b] reads the input only at the
    positions up to [i] of that sequence. *)
Definition causal_op (L : nat) (f : Tensor R -> result (Tensor R))
    (Din Dout : nat) : Prop :=
  forall x B T, shape x = [B; T; Din] -> T <= L ->
    exists y, f x = Ok y /\ shape y = [B; T; Dout]
      /\ forall x' B' T' y' b i,
           shape x' = [B'; T'; Din] -> T' <= L -> f x' = Ok y' ->
           b < B -> b < B' -> i < T -> i < T' ->
           same_upto b i Din x x' -> same_upto b i Dout y y'.

(** The weight a head gives to position [j] when it is at position [t], and
    the output of the head at position [t]: the weighted average of the
    values of the positions [0 .. t]. *)
Definition attention_weight (h : AttentionHead.t) (x : Tensor R) (D : nat)
    (b t j : nat) : R :=
  (exp (affinity h x b t j / sqrt (INR D))
   / Rsum (S t) (fun k => exp (affinity h x b t k / sqrt (INR D))))%R.

Definition head_output (h : AttentionHead.t) (x : Tensor R) (D : nat)
    (b t o : nat) : R :=
  Rsum (S t) (fun j =>
    (attention_weight h x D b t j
     * projected (AttentionHead.project_to_value h) x b j o)%R).


(** * Properties *)

(** ** Finite sums *)

Section Sums.

Local Open Scope R_scope.

Lemma fold_Rplus_app (l1 l2 : list R) :
  fold_right Rplus 0 (l1 ++ l2)
  = fold_right Rplus 0 l1 + fold_right Rplus 0 l2.
Proof.
  induction l1 as [|x l1 IH]; simpl.
  - lra.
  - rewrite IH. lra.
Qed.

Lemma Rsum_0 (f : nat -> R) : Rsum 0 f = 0.
Proof. reflexivity. Qed.

Lemma Rsum_S (n : nat) (f : nat -> R) : Rsum (S n) f = Rsum n f + f n.
Proof.
  unfold Rsum. rewrite seq_S, map_app, fold_Rplus_app. simpl. lra.
Qed.

Lemma Rsum_ext (n : nat) (f g : nat -> R) :
  (forall k, (k < n)%nat -> f k = g k) -> Rsum n f = Rsum n g.
Proof.
  induction n as [|n IH]; intros H.
  - reflexivity.
  - rewrite !Rsum_S, IH, (H n) by (intros; try apply H; lia). reflexivity.
Qed.

Lemma Rsum_scal (n : nat) (f : nat -> R) (c : R) :
  Rsum n (fun k => f k * c) = Rsum n f * c.
Proof.
  induction n as [|n IH].
  - rewrite !Rsum_0. lra.
  - rewrite !Rsum_S, IH. lra.
Qed.

Lemma Rsum_zero_tail (n i : nat) (f : nat -> R) :
  (i <= n)%nat -> (forall k, (i <= k < n)%nat -> f k = 0) ->
  Rsum n f = Rsum i f.
Proof.
  induction n as [|n IH]; intros Hi H.
  - replace i with 0%nat by lia. reflexivity.
  - destruct (Nat.eq_dec i (S n)) as [->|Hne]; [reflexivity|].
    rewrite Rsum_S, H by lia. rewrite IH by (intros; try apply H; lia). lra.
Qed.

Lemma Rsum_nonneg (n : nat) (f : nat -> R) :
  (forall k, (k < n)%nat -> 0 <= f k) -> 0 <= Rsum n f.
Proof.
  induction n as [|n IH]; intros H.
  - rewrite Rsum_0. lra.
  - rewrite Rsum_S.
    assert (0 <= Rsum n f) by (apply IH; intros; apply H; lia).
    assert (0 <= f n) by (apply H; lia). lra.
Qed.

Lemma Rsum_pos (n : nat) (f : nat -> R) :
  (0 < n)%nat -> (forall k, (k < n)%nat -> 0 < f k) -> 0 < Rsum n f.
Proof.
  intros Hn H. destruct n as [|n]; [lia|].
  rewrite Rsum_S.
  assert (0 <= Rsum n f).
  { apply Rsum_nonneg. intros k Hk. apply Rlt_le, H. lia. }
  assert (0 < f n) by (apply H; lia). lra.
Qed.

Lemma pow_neg_half_sqrt (n : nat) :
  (0 < n)%nat -> pow_neg_half n = Ok (/ sqrt (INR n)).
Proof.
  intros Hn. unfold pow_neg_half.
  destruct (Nat.eqb_spec n 0) as [->|_]; [lia|].
  f_equal. rewrite Rpower_Ropp. f_equal.
  replace (1 / 2) with (/ 2) by lra.
  apply Rpower_sqrt. apply lt_0_INR. exact Hn.
Qed.

End Sums.

Lemma list_nat_eqb_refl (a : list nat) : list_nat_eqb a a = true.
Proof.
  unfold list_nat_eqb. destruct (list_eq_dec Nat.eq_dec a a); congruence.
Qed.

Lemma list_nat_eqb_eq (a b : list nat) : list_nat_eqb a b = true -> a = b.
Proof.
  unfold list_nat_eqb. destruct (list_eq_dec Nat.eq_dec a b); congruence.
Qed.

(** ** AttentionHead *)

Section AttentionHeadFacts.

Local Open Scope R_scope.

Lemma check_dim_ok (z : Z) (n : nat) :
  check_dim z = Ok n -> (0 <= z)%Z /\ n = Z.to_nat z.
Proof.
  unfold check_dim. destruct (Z.ltb_spec z 0) as [Hz|Hz]; intros H;
    inversion H. lia.
Qed.

Lemma bind_ok {A B : Type} (m : result A) (k : A -> result B) (b : B) :
  bind m k = Ok b -> exists a, m = Ok a /\ k a = Ok b.
Proof. destruct m; simpl; intros H; [eauto | discriminate]. Qed.

Lemma Linear_init_ok ini n_in n_out wb l :
  Linear.init ini n_in n_out wb = Ok l ->
  (0 <= n_in)%Z /\ (0 <= n_out)%Z
  /\ Linear.in_features l = Z.to_nat n_in
  /\ Linear.out_features l = Z.to_nat n_out
  /\ (wb = false -> Linear.bias l = None).
Proof.
  unfold Linear.init. intros H.
  apply bind_ok in H as (i & Hi & H). apply bind_ok in H as (o & Ho & H).
  apply check_dim_ok in Hi as [? ->]. apply check_dim_ok in Ho as [? ->].
  inversion H; subst; simpl. repeat split; try assumption.
  intros Hwb. rewrite Hwb. reflexivity.
Qed.

Lemma AttentionHead_init_dims ini dim_embed head_size max_length h :
  AttentionHead.init ini dim_embed head_size max_length = Ok h ->
  head_dims h (Z.to_nat dim_embed) (Z.to_nat head_size) (Z.to_nat max_length).
Proof.
  unfold AttentionHead.init. intros H.
  apply bind_ok in H as (k & Hk & H). apply bind_ok in H as (q & Hq & H).
  apply bind_ok in H as (v & Hv & H). apply bind_ok in H as (n & Hn & H).
  apply Linear_init_ok in Hk as (_ & _ & ? & ? & ?).
  apply Linear_init_ok in Hq as (_ & _ & ? & ? & ?).
  apply Linear_init_ok in Hv as (_ & _ & ? & ? & ?).
  apply check_dim_ok in Hn as [_ ->].
  inversion H; subst; constructor; simpl; auto.
Qed.

Lemma scores_value (h : AttentionHead.t) (input : Tensor R) (B T D hs L : nat) :
  head_dims h D hs L -> shape input = [B; T; D] -> (0 < D)%nat ->
  exists w, AttentionHead.scores h input = Ok w
    /\ shape w = [B; T; T]
    /\ forall b i j, elem w [b; i; j] = affinity h input b i j / sqrt (INR D).
Proof.
  intros Hd Hs HD. destruct Hd.
  unfold AttentionHead.scores, Linear.forward. rewrite Hs. cbn [lst last].
  rewrite hd_key_in0, hd_query_in0, Nat.eqb_refl. cbn.
  rewrite hd_key_out0, hd_query_out0, list_nat_eqb_refl, Nat.eqb_refl.
  rewrite pow_neg_half_sqrt by exact HD. cbn.
  eexists; split; [reflexivity|]. split; [reflexivity|].
  intros b i j. cbn. unfold affinity, projected.
  rewrite hd_key_bias0, hd_query_bias0, hd_key_in0, hd_query_in0, hd_query_out0.
  unfold Rdiv. f_equal. apply Rsum_ext. intros k _. lra.
Qed.

(** The causal mask, sliced to the sequence length and broadcast over the
    batch, hides exactly the later positions. *)
Lemma mask_entry (L T b i k : nat) :
  (i < T)%nat -> (k < T)%nat ->
  elem (eq_zero (slice2 (tril_ones L) T)) (bidx [T; T] [b; i; k])
  = Nat.ltb i k.
Proof.
  intros Hi Hk. cbn -[Nat.ltb Nat.leb].
  assert (E : (if Nat.eqb T 1 then 0%nat else k) = k
              /\ (if Nat.eqb T 1 then 0%nat else i) = i).
  { destruct (Nat.eqb_spec T 1); split; lia. }
  destruct E as [-> ->].
  destruct (Nat.leb_spec k i), (Nat.ltb_spec i k); try lia;
    match goal with |- context [Req_dec_T ?x ?y] => destruct (Req_dec_T x y) end;
    try reflexivity; lra.
Qed.

Lemma attention_value (h : AttentionHead.t) (input : Tensor R)
    (B T D hs L : nat) :
  head_dims h D hs L -> shape input = [B; T; D] -> (0 < D)%nat ->
  (T <= L)%nat ->
  exists s w, AttentionHead.scores h input = Ok s
    /\ AttentionHead.attention h input = Ok w
    /\ shape w = [B; T; T]
    /\ forall b i j, (i < T)%nat -> (j < T)%nat ->
         elem w [b; i; j]
         = (if Nat.ltb i j then 0 else exp (elem s [b; i; j]))
           / Rsum (S i) (fun k => exp (elem s [b; i; k])).
Proof.
  intros Hd Hs HD HT.
  destruct (scores_value h input B T D hs L Hd Hs HD) as (s & Hsc & Hsh & _).
  exists s. unfold AttentionHead.attention. rewrite Hs, Hsc. cbn [bind].
  unfold masked_fill. rewrite (hd_tril _ _ _ _ Hd), Hsh. cbn [shape eq_zero tmap slice2 tril_ones map].
  rewrite (Nat.min_l T L HT).
  assert (Hb : broadcast_shapes [T; T] [B; T; T] = Some [B; T; T]).
  { unfold broadcast_shapes. cbn. rewrite Nat.eqb_refl. reflexivity. }
  rewrite Hb, list_nat_eqb_refl. cbn [bind].
  eexists; split; [reflexivity|]. split; [reflexivity|]. split; [reflexivity|].
  intros b i j Hi Hj. cbn [softmax elem shape lst last lead removelast app].
  assert (Hm : forall k, (k < T)%nat ->
            expE (if elem (eq_zero (slice2 (tril_ones L) T))
                       (bidx [T; T] [b; i; k])
                  then NegInf else Fin (elem s [b; i; k]))
            = if Nat.ltb i k then 0 else exp (elem s [b; i; k])).
  { intros k Hk. rewrite (mask_entry L T b i k Hi Hk).
    destruct (Nat.ltb i k); reflexivity. }
  rewrite Hm by exact Hj. f_equal.
  rewrite (Rsum_ext T _ (fun k => if Nat.ltb i k then 0
                                  else exp (elem s [b; i; k])) Hm).
  rewrite (Rsum_zero_tail T (S i)); try lia.
  - apply Rsum_ext. intros k Hk.
    destruct (Nat.ltb_spec i k); [lia | reflexivity].
  - intros k Hk. destruct (Nat.ltb_spec i k); [reflexivity | lia].
Qed.

End AttentionHeadFacts.

(** ** Module construction *)

Lemma mapM_ok {A B : Type} (f : A -> result B) (l : list A) (bs : list B) :
  mapM f l = Ok bs ->
  length bs = length l
  /\ forall b, In b bs -> exists a, In a l /\ f a = Ok b.
Proof.
  revert bs. induction l as [|a l IH]; simpl; intros bs H.
  - inversion H; subst. split; [reflexivity|]. intros b [].
  - apply bind_ok in H as (b0 & Hb0 & H). apply bind_ok in H as (bs0 & Hbs & H).
    inversion H; subst. destruct (IH _ Hbs) as [Hlen Hin].
    split; [simpl; lia|].
    intros b [<-|Hb]; [eauto|].
    destruct (Hin b Hb) as (a' & ? & ?). eauto.
Qed.

Lemma floordiv_ok (a b q : Z) :
  TranformerBlock.floordiv a b = Ok q -> b <> 0%Z /\ q = (a / b)%Z.
Proof.
  unfold TranformerBlock.floordiv.
  destruct (Z.eqb_spec b 0); intros H; inversion H. auto.
Qed.

Lemma MultiHeadAttention_init_heads ini dim_embed num_heads head_size
    max_length m :
  MultiHeadAttention.init ini dim_embed num_heads head_size max_length = Ok m ->
  length (MultiHeadAttention.heads m) = Z.to_nat num_heads
  /\ Linear.in_features (MultiHeadAttention.project m)
     = Z.to_nat (head_size * num_heads)
  /\ Linear.out_features (MultiHeadAttention.project m) = Z.to_nat dim_embed
  /\ forall h, In h (MultiHeadAttention.heads m) ->
       head_dims h (Z.to_nat dim_embed) (Z.to_nat head_size)
         (Z.to_nat max_length).
Proof.
  unfold MultiHeadAttention.init. intros H.
  apply bind_ok in H as (hs & Hhs & H). apply bind_ok in H as (p & Hp & H).
  inversion H; subst; simpl.
  apply mapM_ok in Hhs as [Hlen Hin]. rewrite length_seq in Hlen.
  apply Linear_init_ok in Hp as (_ & _ & ? & ? & _).
  split; [exact Hlen|]. split; [assumption|]. split; [assumption|].
  intros hd Hhd. destruct (Hin hd Hhd) as (i & _ & Hi).
  eapply AttentionHead_init_dims; eassumption.
Qed.

Lemma TranformerBlock_init_heads ini dim_embed num_heads max_length blk :
  TranformerBlock.init ini dim_embed num_heads max_length = Ok blk ->
  num_heads <> 0%Z
  /\ forall h,
       In h (MultiHeadAttention.heads (TranformerBlock.multi_head_attention blk)) ->
       head_dims h (Z.to_nat dim_embed) (Z.to_nat (dim_embed / num_heads))
         (Z.to_nat max_length).
Proof.
  unfold TranformerBlock.init. intros H.
  apply bind_ok in H as (hs & Hhs & H). apply bind_ok in H as (mha & Hm & H).
  apply bind_ok in H as (ff & _ & H). apply bind_ok in H as (l1 & _ & H).
  apply bind_ok in H as (l2 & _ & H). inversion H; subst; simpl.
  apply floordiv_ok in Hhs as [Hnz ->].
  apply MultiHeadAttention_init_heads in Hm as (_ & _ & _ & Hh).
  split; assumption.
Qed.

(** ** Shapes through the forward pass *)

Lemma broadcast_rev_same (a : list nat) : broadcast_rev a a = Some a.
Proof.
  induction a as [|x a IH]; simpl; [reflexivity|].
  rewrite IH, Nat.eqb_refl. reflexivity.
Qed.

Lemma broadcast_shapes_same (a : list nat) : broadcast_shapes a a = Some a.
Proof.
  unfold broadcast_shapes. rewrite broadcast_rev_same. simpl.
  rewrite rev_involutive. reflexivity.
Qed.

Lemma zip_same_shape {A B C : Type} (f : A -> B -> C) (a : Tensor A)
    (b : Tensor B) (s : list nat) :
  shape a = s -> shape b = s ->
  exists y, zip_broadcast f a b = Ok y /\ shape y = s.
Proof.
  intros Ha Hb. unfold zip_broadcast.
  rewrite Ha, Hb, broadcast_shapes_same. eexists; split; reflexivity.
Qed.

Lemma zip_batch_shape {A B C : Type} (f : A -> B -> C) (a : Tensor A)
    (b : Tensor B) (n T D : nat) :
  shape a = [n; T; D] -> shape b = [T; D] ->
  exists y, zip_broadcast f a b = Ok y /\ shape y = [n; T; D].
Proof.
  intros Ha Hb. unfold zip_broadcast, broadcast_shapes.
  rewrite Ha, Hb. cbn. rewrite !Nat.eqb_refl. cbn.
  eexists; split; reflexivity.
Qed.

Lemma Linear_forward_shape (l : Linear.t) (x : Tensor R) (B T n : nat) :
  shape x = [B; T; n] -> Linear.in_features l = n ->
  exists y, Linear.forward l x = Ok y
    /\ shape y = [B; T; Linear.out_features l].
Proof.
  intros Hs Hn. unfold Linear.forward. rewrite Hs. cbn.
  rewrite Hn, Nat.eqb_refl. cbn. eexists; split; reflexivity.
Qed.

Lemma LayerNorm_forward_shape (l : LayerNorm.t) (x : Tensor R) (B T n : nat) :
  shape x = [B; T; n] -> LayerNorm.normalized_shape l = n ->
  exists y, LayerNorm.forward l x = Ok y /\ shape y = [B; T; n].
Proof.
  intros Hs Hn. unfold LayerNorm.forward. rewrite Hs. cbn.
  rewrite Hn, Nat.eqb_refl. cbn. eexists; split; reflexivity.
Qed.

Lemma AttentionHead_forward_shape (h : AttentionHead.t) (x : Tensor R)
    (B T D hs L : nat) :
  head_dims h D hs L -> shape x = [B; T; D] -> (0 < D)%nat -> (T <= L)%nat ->
  exists y, AttentionHead.forward h x = Ok y /\ shape y = [B; T; hs].
Proof.
  intros Hd Hs HD HT. unfold AttentionHead.forward. rewrite Hs.
  destruct (Linear_forward_shape _ _ _ _ _ Hs (hd_value_in _ _ _ _ Hd))
    as (v & Hv & Hvs).
  rewrite Hv. cbn [bind]. rewrite (hd_value_out _ _ _ _ Hd) in Hvs.
  destruct (attention_value _ _ _ _ _ _ _ Hd Hs HD HT)
    as (_ & w & _ & Hw & Hws & _).
  rewrite Hw. cbn [bind]. unfold matmul. rewrite Hws, Hvs. cbn.
  rewrite list_nat_eqb_refl, Nat.eqb_refl. cbn.
  eexists; split; reflexivity.
Qed.

Lemma mapM_all {A B : Type} (f : A -> result B) (P : B -> Prop) (l : list A) :
  (forall a, In a l -> exists b, f a = Ok b /\ P b) ->
  exists bs, mapM f l = Ok bs /\ length bs = length l /\ Forall P bs.
Proof.
  induction l as [|a l IH]; intros H.
  - exists []. repeat split. constructor.
  - destruct (H a (or_introl eq_refl)) as (b & Hb & HP).
    destruct IH as (bs & Hbs & Hlen & Hall).
    { intros a' Ha'. apply H. right. exact Ha'. }
    exists (b :: bs). simpl. rewrite Hb, Hbs. simpl.
    repeat split; [lia | constructor; assumption].
Qed.

Lemma cat_last_shape {A : Type} (ts : list (Tensor A)) (B T n : nat) :
  ts <> [] -> Forall (fun y => shape y = [B; T; n]) ts ->
  exists y, cat_last ts = Ok y /\ shape y = [B; T; length ts * n].
Proof.
  intros Hne Hall. destruct ts as [|x ts]; [congruence|].
  unfold cat_last.
  assert (Hx : shape x = [B; T; n]) by (inversion Hall; assumption).
  assert (Hf : forallb (fun y => negb (Nat.eqb (length (shape y)) 0)
                         && list_nat_eqb (lead (shape y)) (lead (shape x)))
                 (x :: ts) = true).
  { apply forallb_forall. intros y Hy.
    rewrite Forall_forall in Hall. rewrite (Hall y Hy), Hx. cbn.
    apply list_nat_eqb_refl. }
  rewrite Hf. eexists; split; [reflexivity|]. cbn [shape]. rewrite Hx.
  cbn [lead removelast app]. do 2 f_equal. f_equal.
  clear Hf Hne Hx. induction Hall as [|y l Hy _ IH]; [reflexivity|].
  cbn [map fold_right length Nat.mul]. rewrite IH, Hy. reflexivity.
Qed.

Lemma MultiHeadAttention_forward_shape (m : MultiHeadAttention.t)
    (x : Tensor R) (B T D hs L : nat) :
  MultiHeadAttention.heads m <> [] ->
  Forall (fun h => head_dims h D hs L) (MultiHeadAttention.heads m) ->
  Linear.in_features (MultiHeadAttention.project m)
    = length (MultiHeadAttention.heads m) * hs ->
  shape x = [B; T; D] -> (0 < D)%nat -> (T <= L)%nat ->
  exists y, MultiHeadAttention.forward m x = Ok y
    /\ shape y = [B; T; Linear.out_features (MultiHeadAttention.project m)].
Proof.
  intros Hne Hall Hin Hs HD HT. unfold MultiHeadAttention.forward.
  destruct (mapM_all (fun head => AttentionHead.forward head x)
              (fun y => shape y = [B; T; hs]) (MultiHeadAttention.heads m))
    as (outs & Houts & Hlen & Hsh).
  { intros h Hh. rewrite Forall_forall in Hall.
    exact (AttentionHead_forward_shape h x B T D hs L (Hall h Hh) Hs HD HT). }
  rewrite Houts. cbn [bind].
  destruct (cat_last_shape outs B T hs) as (c & Hc & Hcs); [|exact Hsh|].
  { intros ->. destruct (MultiHeadAttention.heads m); [congruence|discriminate]. }
  rewrite Hc. cbn [bind]. rewrite Hlen in Hcs.
  apply (Linear_forward_shape _ _ _ _ _ Hcs). exact Hin.
Qed.

Lemma FeedForward_forward_shape (f : FeedForward.t) (x : Tensor R)
    (B T D : nat) :
  Linear.in_features (FeedForward.expand f) = D ->
  Linear.in_features (FeedForward.contract f)
    = Linear.out_features (FeedForward.expand f) ->
  shape x = [B; T; D] ->
  exists y, FeedForward.forward f x = Ok y
    /\ shape y = [B; T; Linear.out_features (FeedForward.contract f)].
Proof.
  intros H1 H2 Hs. unfold FeedForward.forward.
  destruct (Linear_forward_shape _ _ _ _ _ Hs H1) as (h & Hh & Hhs).
  rewrite Hh. cbn [bind].
  apply (Linear_forward_shape (FeedForward.contract f)
           (tmap FeedForward.relu h) B T _ Hhs H2).
Qed.

Lemma TranformerBlock_forward_shape (blk : TranformerBlock.t) (x : Tensor R)
    (B T D hs L : nat) :
  block_dims blk D hs L -> shape x = [B; T; D] -> (0 < D)%nat ->
  (T <= L)%nat ->
  exists y, TranformerBlock.forward blk x = Ok y /\ shape y = [B; T; D].
Proof.
  intros Hb Hs HD HT. destruct Hb. unfold TranformerBlock.forward.
  destruct (LayerNorm_forward_shape _ _ _ _ _ Hs bd_ln3) as (n1 & Hn1 & Hn1s).
  rewrite Hn1. cbn [bind].
  destruct (MultiHeadAttention_forward_shape _ n1 B T D hs L
              bd_heads_nonempty0 bd_heads0 bd_project_in0 Hn1s HD HT)
    as (a & Ha & Has).
  rewrite Ha. cbn [bind]. rewrite bd_project_out0 in Has.
  destruct (zip_same_shape Rplus x a _ Hs Has) as (o & Ho & Hos).
  rewrite Ho. cbn [bind].
  destruct (LayerNorm_forward_shape _ _ _ _ _ Hos bd_ln4) as (n2 & Hn2 & Hn2s).
  rewrite Hn2. cbn [bind].
  destruct (FeedForward_forward_shape _ n2 B T D bd_expand_in0 bd_contract_in0
              Hn2s) as (f & Hf & Hfs).
  rewrite Hf. cbn [bind]. rewrite bd_contract_out0 in Hfs.
  exact (zip_same_shape Rplus o f _ Hos Hfs).
Qed.

Lemma sequential_shape (blocks : list TranformerBlock.t) (x : Tensor R)
    (B T D hs L : nat) :
  Forall (fun b => block_dims b D hs L) blocks -> shape x = [B; T; D] ->
  (0 < D)%nat -> (T <= L)%nat ->
  exists y, TutorialLLM.sequential blocks x = Ok y /\ shape y = [B; T; D].
Proof.
  intros Hall. revert x. induction Hall as [|b l Hb _ IH]; intros x Hs HD HT.
  - exists x. split; [reflexivity | exact Hs].
  - cbn [TutorialLLM.sequential].
    destruct (TranformerBlock_forward_shape b x B T D hs L Hb Hs HD HT)
      as (y & Hy & Hys).
    rewrite Hy. cbn [bind]. apply IH; assumption.
Qed.

Lemma In_indices (s idx : list nat) :
  In idx (indices s) -> Forall2 lt idx s.
Proof.
  revert idx. induction s as [|d s IH]; intros idx H.
  - destruct H as [<-|[]]. constructor.
  - cbn [indices] in H. apply in_flat_map in H as (i & Hi & H).
    apply in_map_iff in H as (idx' & <- & Hidx').
    apply in_seq in Hi. constructor; [lia | apply IH; exact Hidx'].
Qed.

Lemma Embedding_forward_shape (e : Embedding.t) (ids : Tensor Z) :
  (forall idx, Forall2 lt idx (shape ids) ->
     (0 <= elem ids idx < Z.of_nat (Embedding.num_embeddings e))%Z) ->
  exists y, Embedding.forward e ids = Ok y
    /\ shape y = shape ids ++ [Embedding.embedding_dim e].
Proof.
  intros H. unfold Embedding.forward.
  assert (E : forallb (fun idx => Embedding.in_range e (elem ids idx))
                (indices (shape ids)) = true).
  { apply forallb_forall. intros idx Hidx. apply In_indices in Hidx.
    specialize (H idx Hidx). unfold Embedding.in_range.
    apply andb_true_iff. split; [apply Z.leb_le | apply Z.ltb_lt]; lia. }
  rewrite E. eexists; split; reflexivity.
Qed.

Lemma logits_of_shape (m : TutorialLLM.t) (ids : Tensor Z)
    (V D hs L B T : nat) :
  model_dims m V D hs L -> (0 < D)%nat -> shape ids = [B; T] ->
  (T <= L)%nat -> ids_in_vocab ids B T V ->
  exists lg, TutorialLLM.logits_of m ids = Ok lg /\ shape lg = [B; T; V].
Proof.
  intros Hm HD Hs HT Hv. destruct Hm. unfold TutorialLLM.logits_of.
  rewrite Hs.
  destruct (Embedding_forward_shape (TutorialLLM.token_embedding_table m) ids)
    as (te & Hte & Htes).
  { rewrite Hs, md_tok_num0. intros idx Hidx.
    inversion Hidx as [|b B' idx' s' Hb Hrest]; subst.
    inversion Hrest as [|t T' idx'' s'' Ht Hnil]; subst.
    inversion Hnil; subst. apply Hv; assumption. }
  rewrite Hte. cbn [bind]. rewrite Hs, md_tok_dim0 in Htes. cbn in Htes.
  destruct (Embedding_forward_shape (TutorialLLM.position_embedding_table m)
              (arange T)) as (pe & Hpe & Hpes).
  { rewrite md_pos_num0. cbn [arange shape elem]. intros idx Hidx.
    inversion Hidx as [|t T' idx' s' Ht Hnil]; subst.
    inversion Hnil; subst. cbn. lia. }
  rewrite Hpe. cbn [bind]. rewrite md_pos_dim0 in Hpes. cbn in Hpes.
  destruct (zip_batch_shape Rplus te pe B T D Htes Hpes) as (e & He & Hes).
  rewrite He. cbn [bind].
  destruct (sequential_shape _ e B T D hs L md_blocks0 Hes HD HT)
    as (e2 & He2 & He2s).
  rewrite He2. cbn [bind].
  destruct (LayerNorm_forward_shape _ _ _ _ _ He2s md_ln0) as (e3 & He3 & He3s).
  rewrite He3. cbn [bind].
  rewrite <- md_project_out0.
  exact (Linear_forward_shape _ _ _ _ _ He3s md_project_in0).
Qed.

(** ** The loss *)

Lemma cross_entropy_value (input : Tensor R) (target : Tensor Z)
    (N C : nat) (reduce : bool) :
  shape input = [N; C] -> shape target = [N] ->
  (forall i, (i < N)%nat -> target_ok C (elem target [i]) = true) ->
  cross_entropy input target reduce
  = Ok (if reduce
        then mkTensor []
               (fun _ => (Rsum N (example_loss input target C)
                          / INR (counted target N))%R)
        else mkTensor [N]
               (fun idx => example_loss input target C (lst idx))).
Proof.
  intros Hi Ht Hok. unfold cross_entropy. rewrite Hi, Ht, Nat.eqb_refl.
  cbn [negb].
  assert (E : forallb (fun i => target_ok C (elem target [i])) (seq 0 N)
              = true).
  { apply forallb_forall. intros i Hin. apply in_seq in Hin.
    apply Hok. lia. }
  rewrite E. destruct reduce; reflexivity.
Qed.

Lemma filter_all {A : Type} (l : list A) : filter (fun _ => true) l = l.
Proof. induction l as [|a l IH]; simpl; congruence. Qed.

Lemma counted_all (target : Tensor Z) (N : nat) :
  (forall i, (i < N)%nat -> elem target [i] <> ignore_index) ->
  counted target N = N.
Proof.
  intros H. unfold counted.
  rewrite (proj2 (filter_ext_in_iff _ (fun _ => true) (seq 0 N))).
  - rewrite filter_all. apply length_seq.
  - intros i Hin. apply in_seq in Hin.
    destruct (Z.eqb_spec (elem target [i]) ignore_index) as [E|_];
      [|reflexivity].
    exfalso. apply (H i); [lia | exact E].
Qed.

Lemma indices_vector (N : nat) : indices [N] = map (fun i => [i]) (seq 0 N).
Proof.
  cbn [indices]. induction (seq 0 N) as [|a l IH]; simpl in *; congruence.
Qed.

Lemma tsum_vector (x : Tensor R) (N : nat) :
  shape x = [N] -> tsum x = Rsum N (fun i => elem x [i]).
Proof.
  intros Hs. unfold tsum, Rsum. rewrite Hs, indices_vector, map_map.
  reflexivity.
Qed.

(** Row-major flattening of (b, t) in a (B, T) batch. *)
Lemma unravel_matrix (B T b t : nat) :
  (t < T)%nat -> unravel [B; T] (ravel [B * T] [b * T + t]) = [b; t].
Proof.
  intros Ht. cbn [ravel unravel numel fold_right].
  rewrite !Nat.mul_1_r, Nat.add_0_r, Nat.div_1_r.
  assert (E1 : ((b * T + t) / T = b)%nat).
  { symmetry. apply Nat.div_unique with t; lia. }
  assert (E2 : ((b * T + t) mod T = t)%nat).
  { symmetry. apply Nat.mod_unique with b; lia. }
  rewrite E1, E2. reflexivity.
Qed.

Lemma unravel_matrix_lt (B T i : nat) :
  (i < B * T)%nat ->
  exists b t, (b < B)%nat /\ (t < T)%nat
    /\ unravel [B; T] (ravel [B * T] [i]) = [b; t].
Proof.
  intros Hi. assert (HT : (0 < T)%nat) by nia.
  exists (i / T)%nat, (i mod T)%nat.
  split; [apply Nat.Div0.div_lt_upper_bound; lia|].
  split; [apply Nat.mod_upper_bound; lia|].
  rewrite (Nat.div_mod_eq i T) at 1.
  rewrite (Nat.mul_comm T). apply unravel_matrix.
  apply Nat.mod_upper_bound. lia.
Qed.

Lemma unravel_cube (B T V b t v : nat) :
  (t < T)%nat -> (v < V)%nat ->
  unravel [B; T; V] (ravel [B * T; V] [b * T + t; v]) = [b; t; v].
Proof.
  intros Ht Hv. cbn [ravel unravel numel fold_right].
  rewrite !Nat.mul_1_r, Nat.add_0_r, Nat.div_1_r.
  assert (E1 : (((b * T + t) * V + v) / (T * V) = b)%nat).
  { symmetry. apply Nat.div_unique with (t * V + v)%nat; nia. }
  assert (E2 : (((b * T + t) * V + v) mod (T * V) = t * V + v)%nat).
  { symmetry. apply Nat.mod_unique with b; nia. }
  rewrite E1, E2.
  assert (E3 : ((t * V + v) / V = t)%nat).
  { symmetry. apply Nat.div_unique with v; lia. }
  assert (E4 : ((t * V + v) mod V = v)%nat).
  { symmetry. apply Nat.mod_unique with t; lia. }
  rewrite E3, E4. reflexivity.
Qed.

Lemma view_value {A : Type} (x : Tensor A) (s : list nat) :
  numel (shape x) = numel s -> view x s = Ok (flat_view x s).
Proof.
  intros H. unfold view. rewrite H, Nat.eqb_refl. reflexivity.
Qed.

Lemma forward_labels (m : TutorialLLM.t) (ids labels : Tensor Z)
    (lg : Tensor R) (B T V : nat) (reduce : bool) :
  TutorialLLM.logits_of m ids = Ok lg -> shape lg = [B; T; V] ->
  shape labels = [B; T] ->
  (forall b t, (b < B)%nat -> (t < T)%nat ->
     target_ok V (elem labels [b; t]) = true) ->
  TutorialLLM.forward m ids (Some labels) reduce
  = Ok (flat_view lg [B * T; V],
        Some (loss_tensor (flat_view lg [B * T; V])
                (flat_view labels [B * T]) (B * T) V reduce)).
Proof.
  intros Hlg Hs Hl Hok. unfold TutorialLLM.forward.
  rewrite Hlg. cbn [bind]. rewrite Hs.
  rewrite (view_value lg [B * T; V])
    by (rewrite Hs; cbn [numel fold_right]; lia).
  cbn [bind].
  rewrite (view_value labels [B * T])
    by (rewrite Hl; cbn [numel fold_right]; lia).
  cbn [bind].
  rewrite (cross_entropy_value _ _ (B * T) V reduce); try reflexivity.
  intros i Hi. cbn [flat_view elem]. rewrite Hl.
  destruct (unravel_matrix_lt B T i Hi) as (b & t & Hb & Ht & ->).
  apply Hok; assumption.
Qed.

Lemma labels_in_vocab_ok (labels : Tensor Z) (B T V b t : nat) :
  labels_in_vocab labels B T V -> (b < B)%nat -> (t < T)%nat ->
  target_ok V (elem labels [b; t]) = true.
Proof.
  intros H Hb Ht. specialize (H b t Hb Ht). unfold target_ok.
  apply orb_true_iff. right.
  apply andb_true_iff. split; [apply Z.leb_le | apply Z.ltb_lt]; lia.
Qed.

(** ** What the constructors build *)

Lemma LayerNorm_init_ok (dim : Z) (l : LayerNorm.t) :
  LayerNorm.init dim = Ok l ->
  LayerNorm.normalized_shape l = Z.to_nat dim.
Proof.
  unfold LayerNorm.init. intros H. apply bind_ok in H as (d & Hd & H).
  apply check_dim_ok in Hd as [_ ->]. inversion H; reflexivity.
Qed.

Lemma Embedding_init_ok ini (num dim : Z) (e : Embedding.t) :
  Embedding.init ini num dim = Ok e ->
  (0 <= num)%Z /\ (0 <= dim)%Z
  /\ Embedding.num_embeddings e = Z.to_nat num
  /\ Embedding.embedding_dim e = Z.to_nat dim.
Proof.
  unfold Embedding.init. intros H.
  apply bind_ok in H as (n & Hn & H). apply bind_ok in H as (d & Hd & H).
  apply check_dim_ok in Hn as [? ->]. apply check_dim_ok in Hd as [? ->].
  inversion H; subst; simpl. auto.
Qed.

Lemma TranformerBlock_init_dims ini dim_embed num_heads max_length blk :
  TranformerBlock.init ini dim_embed num_heads max_length = Ok blk ->
  (0 < num_heads)%Z ->
  block_dims blk (Z.to_nat dim_embed) (Z.to_nat (dim_embed / num_heads))
    (Z.to_nat max_length).
Proof.
  intros H Hnh. pose proof (TranformerBlock_init_heads _ _ _ _ _ H) as [_ Hh].
  unfold TranformerBlock.init in H.
  apply bind_ok in H as (hs & Hhs & H). apply bind_ok in H as (mha & Hm & H).
  apply bind_ok in H as (ff & Hff & H). apply bind_ok in H as (l1 & Hl1 & H).
  apply bind_ok in H as (l2 & Hl2 & H). inversion H; subst; clear H.
  cbn [TranformerBlock.multi_head_attention TranformerBlock.feed_forward
       TranformerBlock.layer_norm1 TranformerBlock.layer_norm2] in *.
  apply floordiv_ok in Hhs as [_ ->].
  apply MultiHeadAttention_init_heads in Hm as (Hlen & Hpin & Hpout & _).
  apply LayerNorm_init_ok in Hl1, Hl2.
  unfold FeedForward.init in Hff.
  apply bind_ok in Hff as (a & Ha & Hff). apply bind_ok in Hff as (b & Hb & Hff).
  inversion Hff; subst; clear Hff. cbn [FeedForward.expand FeedForward.contract].
  apply Linear_init_ok in Ha as (HD & _ & Hain & Haout & _).
  apply Linear_init_ok in Hb as (_ & _ & Hbin & Hbout & _).
  assert (Hq : (0 <= dim_embed / num_heads)%Z) by (apply Z.div_pos; lia).
  constructor;
    cbn [TranformerBlock.multi_head_attention TranformerBlock.feed_forward
         TranformerBlock.layer_norm1 TranformerBlock.layer_norm2
         FeedForward.expand FeedForward.contract] in *;
    try assumption.
  - intros E. rewrite E in Hlen. cbn in Hlen. lia.
  - apply Forall_forall. exact Hh.
  - rewrite Hpin, Hlen, Z2Nat.inj_mul by lia. lia.
  - congruence.
Qed.

Lemma TutorialLLM_init_dims ini vocabulary_size dim_embed max_length num_head
    num_layer m :
  TutorialLLM.init ini vocabulary_size dim_embed max_length num_head num_layer
    = Ok m ->
  (0 < num_head)%Z ->
  model_dims m (Z.to_nat vocabulary_size) (Z.to_nat dim_embed)
    (Z.to_nat (dim_embed / num_head)) (Z.to_nat max_length).
Proof.
  unfold TutorialLLM.init. intros H Hnh.
  apply bind_ok in H as (tok & Htok & H). apply bind_ok in H as (pos & Hpos & H).
  apply bind_ok in H as (bl & Hbl & H). apply bind_ok in H as (ln & Hln & H).
  apply bind_ok in H as (p & Hp & H). inversion H; subst; clear H.
  apply Embedding_init_ok in Htok as (_ & _ & ? & ?).
  apply Embedding_init_ok in Hpos as (_ & _ & ? & ?).
  apply LayerNorm_init_ok in Hln.
  apply Linear_init_ok in Hp as (_ & _ & ? & ? & _).
  apply mapM_ok in Hbl as [_ Hbl].
  constructor; cbn; try assumption; try reflexivity.
  apply Forall_forall. intros b Hb. destruct (Hbl b Hb) as (i & _ & Hi).
  eapply TranformerBlock_init_dims; eassumption.
Qed.

(** ** Per-example losses and their combination *)

Lemma loss_of_shape (m : TutorialLLM.t) (ids labels : Tensor Z)
    (V D hs L B T : nat) :
  model_dims m V D hs L -> (0 < D)%nat -> shape ids = [B; T] ->
  (T <= L)%nat -> ids_in_vocab ids B T V ->
  shape labels = [B; T] -> labels_in_vocab labels B T V ->
  exists l, DpoWrapper.loss_of m ids labels = Ok l /\ shape l = [B * T].
Proof.
  intros Hm HD Hs HT Hv Hl Hlv.
  destruct (logits_of_shape m ids V D hs L B T Hm HD Hs HT Hv)
    as (lg & Hlg & Hlgs).
  unfold DpoWrapper.loss_of.
  rewrite (forward_labels m ids labels lg B T V false Hlg Hlgs Hl).
  - cbn. eexists; split; reflexivity.
  - intros b t Hb Ht. apply (labels_in_vocab_ok labels B T V); assumption.
Qed.

Lemma bidx_vector (N i : nat) : (i < N)%nat -> bidx [N] [i] = [i].
Proof.
  intros Hi. cbn. destruct (Nat.eqb_spec N 1); [|reflexivity].
  f_equal. lia.
Qed.

Lemma mean_vector (x : Tensor R) (N : nat) :
  shape x = [N] ->
  elem (mean x) [] = (Rsum N (fun i => elem x [i]) / INR N)%R.
Proof.
  intros Hs. cbn [mean elem]. rewrite (tsum_vector x N Hs), Hs.
  cbn [numel fold_right]. rewrite Nat.mul_1_r. reflexivity.
Qed.

Lemma combine_losses_value (w : DpoWrapper.t) (l : DpoWrapper.Losses)
    (N : nat) :
  shape (DpoWrapper.positive_loss l) = [N] ->
  shape (DpoWrapper.negative_loss l) = [N] ->
  shape (DpoWrapper.reference_positive_loss l) = [N] ->
  shape (DpoWrapper.reference_negative_loss l) = [N] ->
  DpoWrapper.negative_weight w = (1 - DpoWrapper.positive_weight w)%R ->
  exists loss margin,
    DpoWrapper.combine_losses w l = Ok (loss, margin)
    /\ shape loss = [] /\ shape margin = []
    /\ elem loss []
       = (- (Rsum N (fun i =>
               logsigmoid (DpoWrapper.beta w
                           * reward_margin_at (DpoWrapper.positive_weight w) l i))
             / INR N))%R
    /\ elem margin []
       = (Rsum N (reward_margin_at (DpoWrapper.positive_weight w) l)
          / INR N)%R.
Proof.
  intros Hp Hn Hrp Hrn Hw. unfold DpoWrapper.combine_losses, zip_broadcast.
  rewrite Hp, Hn, Hrp, Hrn. cbn [shape tmap].
  rewrite !broadcast_shapes_same. cbn [bind shape tmap].
  rewrite broadcast_shapes_same. cbn [bind].
  eexists; eexists. split; [reflexivity|].
  split; [reflexivity|]. split; [reflexivity|].
  split.
  - cbn [tmap elem shape]. rewrite (mean_vector _ N) by reflexivity.
    cbn [elem]. do 2 f_equal. apply Rsum_ext. intros i Hi.
    unfold reward_margin_at, positive_reward_at, negative_reward_at.
    cbn [shape elem tmap].
    rewrite !bidx_vector by exact Hi. rewrite Hw. reflexivity.
  - rewrite (mean_vector _ N) by reflexivity. f_equal. apply Rsum_ext.
    intros i Hi. unfold reward_margin_at, positive_reward_at, negative_reward_at.
    cbn [shape elem tmap].
    rewrite !bidx_vector by exact Hi. rewrite Hw. reflexivity.
Qed.

(** ** Construction succeeds on non-negative sizes *)

Lemma check_dim_nonneg (z : Z) : (0 <= z)%Z -> check_dim z = Ok (Z.to_nat z).
Proof.
  intros H. unfold check_dim. destruct (Z.ltb_spec z 0); [lia | reflexivity].
Qed.

Lemma Linear_init_succeeds ini (n_in n_out : Z) (wb : bool) :
  (0 <= n_in)%Z -> (0 <= n_out)%Z ->
  exists l, Linear.init ini n_in n_out wb = Ok l.
Proof.
  intros Hi Ho. unfold Linear.init.
  rewrite (check_dim_nonneg _ Hi), (check_dim_nonneg _ Ho). cbn [bind].
  eexists; reflexivity.
Qed.

Lemma AttentionHead_init_succeeds ini (dim_embed head_size max_length : Z) :
  (0 <= dim_embed)%Z -> (0 <= head_size)%Z -> (0 <= max_length)%Z ->
  exists h, AttentionHead.init ini dim_embed head_size max_length = Ok h.
Proof.
  intros HD Hh HL. unfold AttentionHead.init.
  destruct (Linear_init_succeeds (sub ini 0) _ _ false HD Hh) as (k & ->).
  destruct (Linear_init_succeeds (sub ini 1) _ _ false HD Hh) as (q & ->).
  destruct (Linear_init_succeeds (sub ini 2) _ _ false HD Hh) as (v & ->).
  cbn [bind]. rewrite (check_dim_nonneg _ HL). cbn [bind].
  eexists; reflexivity.
Qed.

Lemma LayerNorm_init_succeeds (dim : Z) :
  (0 <= dim)%Z -> exists l, LayerNorm.init dim = Ok l.
Proof.
  intros H. unfold LayerNorm.init. rewrite (check_dim_nonneg _ H).
  cbn [bind]. eexists; reflexivity.
Qed.

Lemma TranformerBlock_init_succeeds ini (dim_embed num_heads max_length : Z) :
  (0 <= dim_embed)%Z -> (0 < num_heads)%Z -> (0 <= max_length)%Z ->
  exists blk, TranformerBlock.init ini dim_embed num_heads max_length = Ok blk.
Proof.
  intros HD Hnh HL. unfold TranformerBlock.init, TranformerBlock.floordiv.
  destruct (Z.eqb_spec num_heads 0) as [E|_]; [lia|]. cbn [bind].
  assert (Hq : (0 <= dim_embed / num_heads)%Z) by (apply Z.div_pos; lia).
  unfold MultiHeadAttention.init.
  destruct (mapM_all
              (fun i => AttentionHead.init (sub (sub (sub ini 0) 0) i)
                          dim_embed (dim_embed / num_heads) max_length)
              (fun _ => True) (seq 0 (Z.to_nat num_heads)))
    as (hs & Hhs & _ & _).
  { intros i _.
    destruct (AttentionHead_init_succeeds (sub (sub (sub ini 0) 0) i)
                _ _ _ HD Hq HL) as (h & Hh).
    exists h. split; [exact Hh | exact I]. }
  rewrite Hhs. cbn [bind].
  destruct (Linear_init_succeeds (sub (sub ini 0) 1)
              (dim_embed / num_heads * num_heads) dim_embed true)
    as (p & ->); [nia | lia |].
  cbn [bind]. unfold FeedForward.init.
  destruct (Linear_init_succeeds (sub (sub ini 1) 0) dim_embed
              (4 * dim_embed) true) as (a & ->); [lia | lia |].
  destruct (Linear_init_succeeds (sub (sub ini 1) 2) (4 * dim_embed)
              dim_embed true) as (b & ->); [lia | lia |].
  cbn [bind].
  destruct (LayerNorm_init_succeeds dim_embed HD) as (l & ->).
  cbn [bind]. eexists; reflexivity.
Qed.

Lemma losses_shape (w : DpoWrapper.t) (V D hs L B Tp Tn : nat)
    (pi pl ni nl : Tensor Z) :
  model_dims (DpoWrapper.aligned_model w) V D hs L ->
  model_dims (DpoWrapper.reference_model w) V D hs L ->
  (0 < D)%nat ->
  shape pi = [B; Tp] -> (Tp <= L)%nat -> ids_in_vocab pi B Tp V ->
  shape pl = [B; Tp] -> labels_in_vocab pl B Tp V ->
  shape ni = [B; Tn] -> (Tn <= L)%nat -> ids_in_vocab ni B Tn V ->
  shape nl = [B; Tn] -> labels_in_vocab nl B Tn V ->
  exists l, DpoWrapper.losses w pi pl ni nl = Ok l
    /\ shape (DpoWrapper.positive_loss l) = [B * Tp]
    /\ shape (DpoWrapper.negative_loss l) = [B * Tn]
    /\ shape (DpoWrapper.reference_positive_loss l) = [B * Tp]
    /\ shape (DpoWrapper.reference_negative_loss l) = [B * Tn].
Proof.
  intros Ha Hr HD Hpi HTp Hpv Hpl Hplv Hni HTn Hnv Hnl Hnlv.
  unfold DpoWrapper.losses.
  destruct (loss_of_shape _ pi pl V D hs L B Tp Ha HD Hpi HTp Hpv Hpl Hplv)
    as (l1 & -> & H1).
  destruct (loss_of_shape _ ni nl V D hs L B Tn Ha HD Hni HTn Hnv Hnl Hnlv)
    as (l2 & -> & H2).
  destruct (loss_of_shape _ pi pl V D hs L B Tp Hr HD Hpi HTp Hpv Hpl Hplv)
    as (l3 & -> & H3).
  destruct (loss_of_shape _ ni nl V D hs L B Tn Hr HD Hni HTn Hnv Hnl Hnlv)
    as (l4 & -> & H4).
  cbn [bind]. eexists. split; [reflexivity|]. cbn. auto.
Qed.

(** ** Generation *)

Lemma crop_last_value {A : Type} (x : Tensor A) (B T n : nat) :
  shape x = [B; T] -> (0 < n)%nat ->
  exists c, crop_last x n = Ok c
    /\ shape c = [B; Nat.min T n]
    /\ forall b t, elem c [b; t] = elem x [b; t + (T - n)].
Proof.
  intros Hs Hn. unfold crop_last. rewrite Hs.
  destruct (Nat.eqb_spec n 0) as [E|_]; [lia|].
  eexists. split; [reflexivity|]. split.
  - cbn [shape]. do 2 f_equal. lia.
  - intros b t. reflexivity.
Qed.

Lemma draw_rows_spec (smp : Sampler) (probs : Tensor R) (V : nat)
    (rows : list nat) (g : rng smp) :
  sampler_ok smp -> (0 < V)%nat ->
  length (fst (draw_rows smp g probs V rows)) = length rows
  /\ Forall (fun x => x < V) (fst (draw_rows smp g probs V rows)).
Proof.
  intros Hok HV. revert g.
  induction rows as [|b rows IH]; intros g; cbn [draw_rows].
  - split; [reflexivity | constructor].
  - pose proof (Hok g (fun v => elem probs [b; v]) V HV) as Hx.
    destruct (draw smp g (fun v => elem probs [b; v]) V) as [x g1].
    specialize (IH g1).
    destruct (draw_rows smp g1 probs V rows) as [xs g2].
    cbn [fst] in *. destruct IH as [Hlen Hall].
    split; [simpl; lia | constructor; assumption].
Qed.

Lemma multinomial_value (smp : Sampler) (g : rng smp) (probs : Tensor R)
    (B V : nat) :
  sampler_ok smp -> shape probs = [B; V] -> (0 < V)%nat ->
  exists idx g', multinomial smp g probs = Ok (idx, g')
    /\ shape idx = [B; 1]
    /\ forall b t, (b < B)%nat ->
         (0 <= elem idx [b; t] < Z.of_nat V)%Z.
Proof.
  intros Hok Hs HV. unfold multinomial. rewrite Hs.
  destruct (Nat.eqb_spec V 0) as [E|_]; [lia|].
  destruct (draw_rows_spec smp probs V (seq 0 B) g Hok HV) as [Hlen Hall].
  destruct (draw_rows smp g probs V (seq 0 B)) as [xs g'].
  cbn [fst] in *. rewrite length_seq in Hlen.
  eexists; eexists. split; [reflexivity|]. split; [reflexivity|].
  intros b t Hb. cbn [elem pen last removelast].
  rewrite Forall_forall in Hall.
  assert (nth b xs 0 < V)%nat by (apply Hall, nth_In; lia). lia.
Qed.

Lemma select_last_shape {A : Type} (x : Tensor A) (B T V : nat) :
  shape x = [B; T; V] -> (0 < T)%nat ->
  exists y, select_last x = Ok y /\ shape y = [B; V].
Proof.
  intros Hs HT. unfold select_last. rewrite Hs.
  destruct (Nat.eqb_spec T 0) as [E|_]; [lia|].
  eexists; split; reflexivity.
Qed.

Lemma cat_column (ids idx : Tensor Z) (B T : nat) :
  shape ids = [B; T] -> shape idx = [B; 1] ->
  exists y, cat_last [ids; idx] = Ok y
    /\ shape y = [B; S T]
    /\ (forall b t, (t < T)%nat -> elem y [b; t] = elem ids [b; t])
    /\ (forall b, elem y [b; T] = elem idx [b; 0]).
Proof.
  intros Hs Hi. unfold cat_last. cbn [forallb]. rewrite Hs, Hi.
  cbn [length Nat.eqb negb andb lead removelast].
  rewrite list_nat_eqb_refl. cbn [andb].
  eexists. split; [reflexivity|]. split.
  - cbn. rewrite Hs, Hi. cbn. do 2 f_equal. lia.
  - split.
    + intros b t Ht. cbn -[Nat.ltb]. rewrite Hs. cbn -[Nat.ltb].
      destruct (Nat.ltb_spec t T); [reflexivity | lia].
    + intros b. cbn -[Nat.ltb]. rewrite Hs, Hi. cbn -[Nat.ltb].
      destruct (Nat.ltb_spec T T); [lia|].
      rewrite Nat.sub_diag. reflexivity.
Qed.

Lemma item_column {A : Type} (x : Tensor A) (B : nat) :
  shape x = [B; 1] ->
  item x = if Nat.eqb B 1 then Ok (elem x [0; 0]) else Raise RuntimeError.
Proof.
  intros Hs. unfold item. rewrite Hs. cbn [numel fold_right map].
  rewrite !Nat.mul_1_r. reflexivity.
Qed.

Section GenerationFacts.

(** A generator that samples existing categories and a model with at least
    one class, one embedding coordinate and one context position. *)
Variable smp : Sampler.
Variable m : TutorialLLM.t.
Variables V D hs L : nat.
Hypothesis Hok : sampler_ok smp.
Hypothesis Hm : model_dims m V D hs L.
Hypothesis HD : 0 < D.
Hypothesis HL : 0 < L.
Hypothesis HV : 0 < V.

Lemma sample_next_value (ids : Tensor Z) (g : rng smp) (B T : nat) :
  shape ids = [B; T] -> (0 < T)%nat -> ids_in_vocab ids B T V ->
  exists c lg ids' idx g',
    crop_last ids (TutorialLLM.max_length m) = Ok c
    /\ shape c = [B; Nat.min T L]
    /\ (forall b t, elem c [b; t] = elem ids [b; t + (T - L)])
    /\ TutorialLLM.forward m c None true = Ok (lg, None)
    /\ shape lg = [B; Nat.min T L; V]
    /\ TutorialLLM.sample_next smp m ids g = Ok (ids', idx, g')
    /\ shape ids' = [B; S T]
    /\ shape idx = [B; 1]
    /\ ids_in_vocab ids' B (S T) V
    /\ (forall b t, (t < T)%nat -> elem ids' [b; t] = elem ids [b; t])
    /\ (forall b, elem ids' [b; T] = elem idx [b; 0]).
Proof.
  intros Hs HT Hv.
  pose proof (md_max_length _ _ _ _ _ Hm) as Hmax.
  destruct (crop_last_value ids B T L Hs HL) as (c & Hc & Hcs & Hce).
  destruct (logits_of_shape m c V D hs L B (Nat.min T L) Hm HD Hcs)
    as (lg & Hlg & Hlgs).
  { lia. }
  { intros b t Hb Ht. rewrite Hce. apply Hv; lia. }
  destruct (select_last_shape lg B (Nat.min T L) V Hlgs) as (y & Hy & Hys).
  { lia. }
  destruct (multinomial_value smp g (softmax (tmap Fin y)) B V Hok Hys HV)
    as (idx & g' & Hmul & His & Hiv).
  destruct (cat_column ids idx B T Hs His) as (ids' & Hcat & Hcs' & Hpre & Hnew).
  exists c, lg, ids', idx, g'.
  assert (Hf : TutorialLLM.forward m c None true = Ok (lg, None)).
  { unfold TutorialLLM.forward. rewrite Hlg. reflexivity. }
  split; [rewrite Hmax; exact Hc|]. split; [exact Hcs|]. split; [exact Hce|].
  split; [exact Hf|]. split; [exact Hlgs|].
  split.
  { unfold TutorialLLM.sample_next. rewrite Hmax, Hc. cbn [bind].
    rewrite Hf. cbn [bind]. rewrite Hy. cbn [bind]. rewrite Hmul. cbn [bind].
    rewrite Hcat. reflexivity. }
  split; [exact Hcs'|]. split; [exact His|].
  split; [|split; assumption].
  intros b t Hb Ht. destruct (Nat.eq_dec t T) as [->|Hne].
  - rewrite Hnew. apply Hiv. exact Hb.
  - rewrite Hpre by lia. apply Hv; lia.
Qed.

(** One step, with what it computes on the way: the window, its logits,
    the logits of the last position and the sampled column. *)
Lemma sample_next_window (ids : Tensor Z) (g : rng smp) (B T : nat) :
  shape ids = [B; T] -> (0 < T)%nat -> ids_in_vocab ids B T V ->
  exists c lg y ids' idx g',
    crop_last ids (TutorialLLM.max_length m) = Ok c
    /\ shape c = [B; Nat.min T L]
    /\ (forall b t, elem c [b; t] = elem ids [b; t + (T - L)])
    /\ TutorialLLM.forward m c None true = Ok (lg, None)
    /\ shape lg = [B; Nat.min T L; V]
    /\ select_last lg = Ok y
    /\ (forall b v, elem y [b; v] = elem lg [b; Nat.min T L - 1; v])
    /\ multinomial smp g (softmax (tmap Fin y)) = Ok (idx, g')
    /\ TutorialLLM.sample_next smp m ids g = Ok (ids', idx, g')
    /\ shape ids' = [B; S T]
    /\ shape idx = [B; 1]
    /\ ids_in_vocab ids' B (S T) V
    /\ (forall b t, (t < T)%nat -> elem ids' [b; t] = elem ids [b; t])
    /\ (forall b, elem ids' [b; T] = elem idx [b; 0]).
Proof.
  intros Hs HT Hv.
  pose proof (md_max_length _ _ _ _ _ Hm) as Hmax.
  destruct (crop_last_value ids B T L Hs HL) as (c & Hc & Hcs & Hce).
  destruct (logits_of_shape m c V D hs L B (Nat.min T L) Hm HD Hcs)
    as (lg & Hlg & Hlgs).
  { lia. }
  { intros b t Hb Ht. rewrite Hce. apply Hv; lia. }
  destruct (select_last_shape lg B (Nat.min T L) V Hlgs) as (y & Hy & Hys).
  { lia. }
  assert (Hye : forall b v, elem y [b; v] = elem lg [b; Nat.min T L - 1; v]).
  { unfold select_last in Hy. rewrite Hlgs in Hy.
    destruct (Nat.eqb (Nat.min T L) 0); [discriminate|].
    inversion Hy; subst y. intros b v. reflexivity. }
  destruct (multinomial_value smp g (softmax (tmap Fin y)) B V Hok Hys HV)
    as (idx & g' & Hmul & His & Hiv).
  destruct (cat_column ids idx B T Hs His) as (ids' & Hcat & Hcs' & Hpre & Hnew).
  exists c, lg, y, ids', idx, g'.
  assert (Hf : TutorialLLM.forward m c None true = Ok (lg, None)).
  { unfold TutorialLLM.forward. rewrite Hlg. reflexivity. }
  split; [rewrite Hmax; exact Hc|]. split; [exact Hcs|]. split; [exact Hce|].
  split; [exact Hf|]. split; [exact Hlgs|]. split; [exact Hy|].
  split; [exact Hye|]. split; [exact Hmul|].
  split.
  { unfold TutorialLLM.sample_next. rewrite Hmax, Hc. cbn [bind].
    rewrite Hf. cbn [bind]. rewrite Hy. cbn [bind]. rewrite Hmul. cbn [bind].
    rewrite Hcat. reflexivity. }
  split; [exact Hcs'|]. split; [exact His|].
  split; [|split; assumption].
  intros b t Hb Ht. destruct (Nat.eq_dec t T) as [->|Hne].
  - rewrite Hnew. apply Hiv. exact Hb.
  - rewrite Hpre by lia. apply Hv; lia.
Qed.

Lemma row_cat (ids ids' : Tensor Z) (B T b : nat) :
  shape ids = [B; T] -> shape ids' = [B; S T] ->
  (forall t, (t < T)%nat -> elem ids' [b; t] = elem ids [b; t]) ->
  row ids' b = row ids b ++ [elem ids' [b; T]].
Proof.
  clear Hok Hm HD HL HV.
  intros Hs Hs' Hpre. unfold row. rewrite Hs, Hs'. cbn [lst last].
  rewrite seq_S, map_app. cbn [map Nat.add]. f_equal.
  apply map_ext_in. intros t Ht. apply in_seq in Ht. apply Hpre. lia.
Qed.

Lemma generate_value :
  forall (n : nat) (ids : Tensor Z) (T : nat) (g : rng smp),
    shape ids = [1; T] -> (0 < T)%nat -> ids_in_vocab ids 1 T V ->
    exists out g' gen,
      TutorialLLM.generate smp m ids n g = Ok (out, g')
      /\ shape out = [1; T + length gen]
      /\ length gen <= n
      /\ row out 0 = row ids 0 ++ gen
      /\ Forall (fun x => x <> 0%Z) (removelast gen)
      /\ (length gen < n -> last gen 1%Z = 0%Z)
      /\ ids_in_vocab out 1 (T + length gen) V.
Proof.
  induction n as [|n IH]; intros ids T g Hs HT Hv.
  - exists ids, g, []. cbn [TutorialLLM.generate length].
    rewrite Nat.add_0_r, app_nil_r.
    split; [reflexivity|]. split; [exact Hs|]. split; [lia|].
    split; [reflexivity|]. split; [constructor|]. split; [lia | exact Hv].
  - destruct (sample_next_value ids g 1 T Hs HT Hv)
      as (_ & _ & ids' & idx & g1 & _ & _ & _ & _ & _ & Hsn & Hs' & His & Hv'
          & Hpre & Hnew).
    cbn [TutorialLLM.generate]. rewrite Hsn. cbn [bind].
    rewrite (item_column idx 1 His). cbn [Nat.eqb bind].
    pose proof (row_cat ids ids' 1 T 0 Hs Hs' (Hpre 0)) as Hrow.
    rewrite (Hnew 0) in Hrow.
    destruct (Z.eqb_spec (elem idx [0; 0]) 0) as [E|E].
    + exists ids', g1, [elem idx [0; 0]]. cbn [length removelast last].
      replace (T + 1) with (S T) by lia.
      split; [reflexivity|]. split; [exact Hs'|]. split; [lia|].
      split; [exact Hrow|]. split; [constructor|].
      split; [intros _; exact E | exact Hv'].
    + destruct (IH ids' (S T) g1 Hs' ltac:(lia) Hv')
        as (out & g' & gen & Hgen & Hos & Hlen & Hor & Hnz & Hlast & Hov).
      exists out, g', (elem idx [0; 0] :: gen).
      cbn [length]. replace (T + S (length gen)) with (S T + length gen) by lia.
      split; [exact Hgen|]. split; [exact Hos|]. split; [lia|].
      split; [rewrite Hor, Hrow, <- app_assoc; reflexivity|].
      split.
      { destruct gen as [|x gen]; [constructor|].
        change (removelast (elem idx [0; 0] :: x :: gen))
          with (elem idx [0; 0] :: removelast (x :: gen)).
        constructor; assumption. }
      split; [|exact Hov].
      intros Hlt. specialize (Hlast ltac:(lia)).
      destruct gen as [|x gen]; [cbn in Hlast; lia | exact Hlast].
Qed.

End GenerationFacts.

Lemma map_seq_shift {A : Type} (f : nat -> A) (k len : nat) :
  map f (seq k len) = map (fun t => f (t + k)) (seq 0 len).
Proof.
  revert k. induction len as [|len IH]; intros k; [reflexivity|].
  cbn [seq map]. f_equal. rewrite (IH (S k)), <- seq_shift, map_map.
  apply map_ext. intros t. f_equal. lia.
Qed.

Lemma row_crop (ids c : Tensor Z) (B T L b : nat) :
  shape ids = [B; T] -> shape c = [B; Nat.min T L] ->
  (forall t, elem c [b; t] = elem ids [b; t + (T - L)]) ->
  row c b = skipn (T - L) (row ids b).
Proof.
  intros Hs Hc He. unfold row. rewrite Hs, Hc. cbn [lst last].
  rewrite skipn_map, skipn_seq. cbn [Nat.add].
  replace (T - (T - L)) with (Nat.min T L) by lia.
  rewrite (map_seq_shift _ (T - L)).
  apply map_ext. intros t. apply He.
Qed.

Lemma multinomial_shape (smp : Sampler) (g g' : rng smp) (probs : Tensor R)
    (idx : Tensor Z) :
  multinomial smp g probs = Ok (idx, g') -> exists B, shape idx = [B; 1].
Proof.
  unfold multinomial.
  destruct (shape probs) as [|B [|V [|? ?]]]; try discriminate.
  destruct (Nat.eqb V 0); [discriminate|].
  destruct (draw_rows smp g probs V (seq 0 B)) as [xs g2].
  intros H. inversion H; subst. exists B. reflexivity.
Qed.

(** Whatever the model, a successful call with at least one step has a
    batch of exactly one sequence. *)
Lemma generate_needs_single_sequence (smp : Sampler) (m : TutorialLLM.t)
    (ids : Tensor Z) (B T n : nat) (g : rng smp) :
  shape ids = [B; T] -> (0 < n)%nat ->
  is_ok (TutorialLLM.generate smp m ids n g) = true -> B = 1.
Proof.
  intros Hs Hn. destruct n as [|n]; [lia|]. cbn [TutorialLLM.generate].
  destruct (TutorialLLM.sample_next smp m ids g) as [[[ids' idx] g']|e] eqn:Hsn;
    [|discriminate].
  cbn [bind]. unfold TutorialLLM.sample_next in Hsn.
  apply bind_ok in Hsn as (c & _ & Hsn).
  apply bind_ok in Hsn as ([lg o] & _ & Hsn).
  apply bind_ok in Hsn as (y & _ & Hsn).
  apply bind_ok in Hsn as ([idx0 g0] & Hmul & Hsn).
  apply bind_ok in Hsn as (ids0 & Hcat & Hsn).
  inversion Hsn; subst; clear Hsn.
  apply multinomial_shape in Hmul as (B' & His).
  unfold cat_last in Hcat.
  destruct (forallb _ [ids; idx]) eqn:Hf; [|discriminate].
  cbn [forallb] in Hf. rewrite His, Hs in Hf. cbn in Hf.
  rewrite !andb_true_r in Hf. apply andb_true_iff in Hf as [_ Hf].
  apply list_nat_eqb_eq in Hf. inversion Hf; subst.
  rewrite (item_column idx B His).
  destruct (Nat.eqb_spec B 1); [auto | discriminate].
Qed.

(** ** Concrete runs *)

Example broadcast_over_batch :
  broadcast_shapes [1; 4; 8] [4; 8] = Some [1; 4; 8].
Proof. reflexivity. Qed.

Example broadcast_mismatch : broadcast_shapes [4] [3] = None.
Proof. reflexivity. Qed.

Example block_without_heads :
  TranformerBlock.init zero_init 8 0 4 = Raise ZeroDivisionError.
Proof. reflexivity. Qed.

Example run_until_sentinel :
  run_generate always_eos tt (const_ids 1 2 3) 5 = Ok [3; 3; 0]%Z.
Proof. reflexivity. Qed.

Example run_long_prompt :
  run_generate always_last tt (const_ids 1 6 3) 3
  = Ok [3; 3; 3; 3; 3; 3; 4; 4; 4]%Z.
Proof. reflexivity. Qed.

Example run_two_sequences :
  run_generate always_last tt (const_ids 2 2 3) 3 = Raise RuntimeError.
Proof. reflexivity. Qed.

Example run_two_sequences_no_step :
  run_generate always_last tt (const_ids 2 2 3) 0 = Ok [3; 3]%Z.
Proof. reflexivity. Qed.

Example run_empty_prompt :
  run_generate always_last tt (const_ids 1 0 3) 1 = Raise IndexError.
Proof. reflexivity. Qed.

Example run_unknown_token :
  run_generate always_last tt (const_ids 1 2 7) 1 = Raise IndexError.
Proof. reflexivity. Qed.

(** The mean reduction of [F.cross_entropy] divides by the number of targets
    that are not ignored: with a target equal to [ignore_index] it is not the
    mean of the per-example losses. *)
Lemma mean_reduction_skips_ignored_targets :
  let logits := mkTensor [2; 2] (fun _ => 0%R) in
  let target :=
    mkTensor [2] (fun idx => if Nat.eqb (lst idx) 0 then ignore_index else 0%Z)
  in
  exists l1 lN,
    cross_entropy logits target true = Ok l1
    /\ cross_entropy logits target false = Ok lN
    /\ elem l1 [] = ln 2
    /\ elem (mean lN) [] = (ln 2 / 2)%R
    /\ elem l1 [] <> elem (mean lN) [].
Proof.
  intros logits target.
  assert (H1 : elem (loss_tensor logits target 2 2 true) [] = ln 2).
  { cbn. rewrite !Rsum_S, Rsum_0. unfold example_loss. cbn.
    rewrite !Rsum_S, Rsum_0, exp_0.
    replace (0 + 1 + 1)%R with 2%R by lra. lra. }
  assert (HN : elem (mean (loss_tensor logits target 2 2 false)) []
               = (ln 2 / 2)%R).
  { rewrite (mean_vector _ 2) by reflexivity.
    rewrite !Rsum_S, Rsum_0. unfold example_loss. cbn.
    rewrite !Rsum_S, Rsum_0, exp_0.
    replace (0 + 1 + 1)%R with 2%R by lra. lra. }
  exists (loss_tensor logits target 2 2 true),
         (loss_tensor logits target 2 2 false).
  split; [reflexivity|]. split; [reflexivity|].
  split; [exact H1|]. split; [exact HN|].
  rewrite H1, HN. pose proof ln_lt_2. lra.
Qed.

(** * The claims *)

(** C1. For an input of shape (batch, seq_len, dim_embed) with
    seq_len <= max_length, the attention weight matrix computed inside
    [AttentionHead.forward] gives weight exactly zero to every key position
    j after the query position i, and for each query position the weights
    over the positions j <= i sum to 1. *)
Theorem attention_weights_causal
    (ini : Initializer) (dim_embed head_size max_length : Z)
    (h : AttentionHead.t) (input : Tensor R) (B T : nat) :
  AttentionHead.init ini dim_embed head_size max_length = Ok h ->
  shape input = [B; T; Z.to_nat dim_embed] ->
  (0 < dim_embed)%Z ->
  (Z.of_nat T <= max_length)%Z ->
  exists w, AttentionHead.attention h input = Ok w
    /\ shape w = [B; T; T]
    /\ forall b i, (b < B) -> (i < T) ->
         (forall j, (i < j) -> (j < T) -> elem w [b; i; j] = 0%R)
         /\ Rsum (S i) (fun j => elem w [b; i; j]) = 1%R.
Proof.
  intros Hini Hs HD HT.
  apply AttentionHead_init_dims in Hini.
  destruct (@attention_value h input B T _ _ _ Hini Hs) as (s & w & _ & Hw & Hsh & Hel);
    [lia | lia |].
  exists w. split; [exact Hw|]. split; [exact Hsh|].
  intros b i _ Hi. split.
  - intros j Hij Hj. rewrite Hel by assumption.
    destruct (Nat.ltb_spec i j); [|lia]. unfold Rdiv. apply Rmult_0_l.
  - rewrite (Rsum_ext (S i) _ (fun j => (exp (elem s [b; i; j])
                           * / Rsum (S i) (fun k => exp (elem s [b; i; k])))%R)).
    + rewrite Rsum_scal. apply Rinv_r.
      apply Rgt_not_eq, Rsum_pos; [lia|]. intros k _. apply exp_pos.
    + intros j Hj. rewrite Hel by lia.
      destruct (Nat.ltb_spec i j); [lia | reflexivity].
Qed.

Lemma attention_weights_causal_witness :
  exists h,
    AttentionHead.init zero_init 8 4 4 = Ok h
    /\ exists w,
         AttentionHead.attention h (ones [1; 4; 8]) = Ok w
         /\ shape w = [1; 4; 4]
         /\ forall b i, b < 1 -> i < 4 ->
              (forall j, i < j -> j < 4 -> elem w [b; i; j] = 0%R)
              /\ Rsum (S i) (fun j => elem w [b; i; j]) = 1%R.
Proof.
  eexists. split; [reflexivity|].
  eapply (attention_weights_causal zero_init 8 4 4).
  - reflexivity.
  - reflexivity.
  - lia.
  - simpl; lia.
Defined.

(** C2. For paired positive and negative batches, [DpoWrapper.forward]
    takes positive_reward = reference_positive_loss - aligned_positive_loss,
    negative_reward = aligned_negative_loss - reference_negative_loss,
    reward_margin = positive_weight * positive_reward
                    + (1 - positive_weight) * negative_reward,
    and returns (- mean(log_sigmoid(beta * reward_margin)),
    mean(reward_margin)). *)
Theorem dpo_forward_value
    (ini ini' : Initializer)
    (vocabulary_size dim_embed max_length num_head num_layer : Z)
    (model aligned : TutorialLLM.t) (beta positive_weight : R)
    (pi pl ni nl : Tensor Z) (B T : nat) :
  TutorialLLM.init ini vocabulary_size dim_embed max_length num_head num_layer
    = Ok model ->
  TutorialLLM.init ini' vocabulary_size dim_embed max_length num_head num_layer
    = Ok aligned ->
  (0 < num_head)%Z -> (0 < dim_embed)%Z ->
  (Z.of_nat T <= max_length)%Z ->
  shape pi = [B; T] -> ids_in_vocab pi B T (Z.to_nat vocabulary_size) ->
  shape pl = [B; T] -> labels_in_vocab pl B T (Z.to_nat vocabulary_size) ->
  shape ni = [B; T] -> ids_in_vocab ni B T (Z.to_nat vocabulary_size) ->
  shape nl = [B; T] -> labels_in_vocab nl B T (Z.to_nat vocabulary_size) ->
  let w := trained (DpoWrapper.init model beta positive_weight) aligned in
  exists l loss margin,
    DpoWrapper.losses w pi pl ni nl = Ok l
    /\ DpoWrapper.forward w pi pl ni nl = Ok (loss, margin)
    /\ shape loss = [] /\ shape margin = []
    /\ elem loss []
       = Ropp (Rdiv (Rsum (B * T) (fun i =>
                       logsigmoid
                         (Rmult beta (reward_margin_at positive_weight l i))))
                    (INR (B * T)))
    /\ elem margin []
       = Rdiv (Rsum (B * T) (reward_margin_at positive_weight l))
              (INR (B * T)).
Proof.
  intros Hm Ha Hnh HD HT Hpi Hpv Hpl Hplv Hni Hnv Hnl Hnlv w.
  destruct (losses_shape w (Z.to_nat vocabulary_size) (Z.to_nat dim_embed)
              (Z.to_nat (dim_embed / num_head)) (Z.to_nat max_length)
              B T T pi pl ni nl)
    as (l & Hl & H1 & H2 & H3 & H4); try assumption; try lia.
  - apply (TutorialLLM_init_dims _ _ _ _ _ _ _ Ha Hnh).
  - apply (TutorialLLM_init_dims _ _ _ _ _ _ _ Hm Hnh).
  - destruct (combine_losses_value w l (B * T) H1 H2 H3 H4 eq_refl)
      as (loss & margin & Hc & Hls & Hms & Hlv & Hmv).
    exists l, loss, margin. split; [exact Hl|].
    split; [unfold DpoWrapper.forward; rewrite Hl; exact Hc|].
    split; [exact Hls|]. split; [exact Hms|].
    split; [exact Hlv | exact Hmv].
Qed.

Lemma dpo_forward_value_witness :
  exists m,
    TutorialLLM.init zero_init 5 8 4 2 1 = Ok m
    /\ let w := trained (DpoWrapper.init m (1 / 10) (4 / 5)) m in
       exists l loss margin,
         DpoWrapper.losses w (const_ids 1 4 1) (const_ids 1 4 2)
           (const_ids 1 4 1) (const_ids 1 4 3) = Ok l
         /\ DpoWrapper.forward w (const_ids 1 4 1) (const_ids 1 4 2)
              (const_ids 1 4 1) (const_ids 1 4 3) = Ok (loss, margin)
         /\ shape loss = [] /\ shape margin = []
         /\ elem loss []
            = Ropp (Rdiv (Rsum (1 * 4) (fun i =>
                            logsigmoid
                              (Rmult (1 / 10)
                                 (reward_margin_at (4 / 5) l i))))
                         (INR (1 * 4)))
         /\ elem margin []
            = Rdiv (Rsum (1 * 4) (reward_margin_at (4 / 5) l))
                   (INR (1 * 4)).
Proof.
  eexists. split; [reflexivity|].
  eapply (dpo_forward_value zero_init zero_init 5 8 4 2 1).
  - reflexivity.
  - reflexivity.
  - lia.
  - lia.
  - simpl; lia.
  - reflexivity.
  - intros b t _ _. simpl. lia.
  - reflexivity.
  - intros b t _ _. simpl. lia.
  - reflexivity.
  - intros b t _ _. simpl. lia.
  - reflexivity.
  - intros b t _ _. simpl. lia.
Defined.



(** C4, amended.  Without targets [forward] returns logits of shape
    (batch, seq_len, vocab_size).  With targets of the same shape it
    returns the same logits flattened to (batch * seq_len, vocab_size),
    together with the loss. *)
Theorem forward_logits_shape
    (ini : Initializer)
    (vocabulary_size dim_embed max_length num_head num_layer : Z)
    (m : TutorialLLM.t) (ids : Tensor Z) (B T : nat) (reduce : bool) :
  TutorialLLM.init ini vocabulary_size dim_embed max_length num_head num_layer
    = Ok m ->
  (0 < num_head)%Z -> (0 < dim_embed)%Z ->
  shape ids = [B; T] -> (Z.of_nat T <= max_length)%Z ->
  ids_in_vocab ids B T (Z.to_nat vocabulary_size) ->
  exists lg,
    TutorialLLM.forward m ids None reduce = Ok (lg, None)
    /\ shape lg = [B; T; Z.to_nat vocabulary_size]
    /\ forall labels,
         shape labels = [B; T] ->
         labels_in_vocab labels B T (Z.to_nat vocabulary_size) ->
         exists flat loss,
           TutorialLLM.forward m ids (Some labels) reduce
           = Ok (flat, Some loss)
           /\ shape flat = [(B * T); Z.to_nat vocabulary_size]
           /\ forall b t v,
                (b < B) -> (t < T) ->
                (v < Z.to_nat vocabulary_size) ->
                elem flat [(b * T + t); v] = elem lg [b; t; v].
Proof.
  intros Hini Hnh HD Hs HT Hv.
  pose proof (TutorialLLM_init_dims _ _ _ _ _ _ _ Hini Hnh) as Hm.
  destruct (logits_of_shape m ids _ _ _ _ B T Hm ltac:(lia) Hs ltac:(lia) Hv)
    as (lg & Hlg & Hlgs).
  exists lg. split; [unfold TutorialLLM.forward; rewrite Hlg; reflexivity|].
  split; [exact Hlgs|].
  intros labels Hl Hlv. do 2 eexists.
  split.
  - apply (forward_labels m ids labels lg B T _ reduce Hlg Hlgs Hl).
    intros b t Hb Ht. apply (labels_in_vocab_ok labels B T); assumption.
  - split; [reflexivity|].
    intros b t v Hb Ht Hvv. cbn [flat_view elem]. rewrite Hlgs.
    rewrite unravel_cube by assumption. reflexivity.
Qed.

Lemma forward_logits_shape_witness :
  exists m,
    TutorialLLM.init zero_init 5 8 4 2 1 = Ok m
    /\ exists lg,
         TutorialLLM.forward m (const_ids 1 4 1) None true = Ok (lg, None)
         /\ shape lg = [1; 4; Z.to_nat 5]
         /\ forall labels,
              shape labels = [1; 4] ->
              labels_in_vocab labels 1 4 (Z.to_nat 5) ->
              exists flat loss,
                TutorialLLM.forward m (const_ids 1 4 1) (Some labels) true
                = Ok (flat, Some loss)
                /\ shape flat = [(1 * 4); Z.to_nat 5]
                /\ forall b t v,
                     (b < 1) -> (t < 4) -> (v < Z.to_nat 5) ->
                     elem flat [(b * 4 + t); v] = elem lg [b; t; v].
Proof.
  eexists. split; [reflexivity|].
  eapply (forward_logits_shape zero_init 5 8 4 2 1).
  - reflexivity.
  - lia.
  - lia.
  - reflexivity.
  - simpl; lia.
  - intros b t _ _. simpl. lia.
Defined.

(** C4 as stated fails: with targets, the logits returned for a (1, 4)
    batch over a vocabulary of 5 have shape (4, 5), not (1, 4, 5). *)
Lemma forward_with_targets_returns_flat_logits :
  exists m logits loss,
    TutorialLLM.init zero_init 5 8 4 2 1 = Ok m
    /\ TutorialLLM.forward m (const_ids 1 4 1) (Some (const_ids 1 4 2)) true
       = Ok (logits, loss)
    /\ shape logits = [4; 5]
    /\ shape logits <> [1; 4; 5].
Proof.
  assert (Hex : exists m, TutorialLLM.init zero_init 5 8 4 2 1 = Ok m)
    by (eexists; reflexivity).
  destruct Hex as (m & Hini).
  pose proof (TutorialLLM_init_dims _ _ _ _ _ _ _ Hini ltac:(lia)) as Hm.
  destruct (logits_of_shape m (const_ids 1 4 1) _ _ _ _ 1 4 Hm)
    as (lg & Hlg & Hlgs);
    [simpl; lia | reflexivity | simpl; lia | intros b t _ _; simpl; lia |].
  exists m. do 2 eexists. split; [exact Hini|]. split.
  - apply (forward_labels _ _ (const_ids 1 4 2) lg 1 4 _ true Hlg Hlgs);
      [reflexivity|].
    intros b t _ _. reflexivity.
  - split; [reflexivity | discriminate].
Qed.

(** C5, amended.  The four loss vectors hold one value per token position:
    batch * seq_len values each, for the positive and the negative pair
    under the aligned and under the reference model. *)
Theorem dpo_losses_per_token
    (ini ini' : Initializer)
    (vocabulary_size dim_embed max_length num_head num_layer : Z)
    (model aligned : TutorialLLM.t) (beta positive_weight : R)
    (pi pl ni nl : Tensor Z) (B Tp Tn : nat) :
  TutorialLLM.init ini vocabulary_size dim_embed max_length num_head num_layer
    = Ok model ->
  TutorialLLM.init ini' vocabulary_size dim_embed max_length num_head num_layer
    = Ok aligned ->
  (0 < num_head)%Z -> (0 < dim_embed)%Z ->
  shape pi = [B; Tp] -> (Z.of_nat Tp <= max_length)%Z ->
  ids_in_vocab pi B Tp (Z.to_nat vocabulary_size) ->
  shape pl = [B; Tp] -> labels_in_vocab pl B Tp (Z.to_nat vocabulary_size) ->
  shape ni = [B; Tn] -> (Z.of_nat Tn <= max_length)%Z ->
  ids_in_vocab ni B Tn (Z.to_nat vocabulary_size) ->
  shape nl = [B; Tn] -> labels_in_vocab nl B Tn (Z.to_nat vocabulary_size) ->
  exists l,
    DpoWrapper.losses
      (trained (DpoWrapper.init model beta positive_weight) aligned)
      pi pl ni nl = Ok l
    /\ shape (DpoWrapper.positive_loss l) = [B * Tp]
    /\ shape (DpoWrapper.negative_loss l) = [B * Tn]
    /\ shape (DpoWrapper.reference_positive_loss l) = [B * Tp]
    /\ shape (DpoWrapper.reference_negative_loss l) = [B * Tn].
Proof.
  intros Hm Ha Hnh HD Hpi HTp Hpv Hpl Hplv Hni HTn Hnv Hnl Hnlv.
  apply (losses_shape _ (Z.to_nat vocabulary_size) (Z.to_nat dim_embed)
           (Z.to_nat (dim_embed / num_head)) (Z.to_nat max_length));
    try assumption; try lia.
  - apply (TutorialLLM_init_dims _ _ _ _ _ _ _ Ha Hnh).
  - apply (TutorialLLM_init_dims _ _ _ _ _ _ _ Hm Hnh).
Qed.

Lemma dpo_losses_per_token_witness :
  exists m,
    TutorialLLM.init zero_init 5 8 4 2 1 = Ok m
    /\ exists l,
         DpoWrapper.losses
           (trained (DpoWrapper.init m (1 / 10) (4 / 5)) m)
           (const_ids 1 4 1) (const_ids 1 4 2)
           (const_ids 1 4 1) (const_ids 1 4 3) = Ok l
         /\ shape (DpoWrapper.positive_loss l) = [1 * 4]
         /\ shape (DpoWrapper.negative_loss l) = [1 * 4]
         /\ shape (DpoWrapper.reference_positive_loss l) = [1 * 4]
         /\ shape (DpoWrapper.reference_negative_loss l) = [1 * 4].
Proof.
  eexists. split; [reflexivity|].
  eapply (dpo_losses_per_token zero_init zero_init 5 8 4 2 1).
  - reflexivity.
  - reflexivity.
  - lia.
  - lia.
  - reflexivity.
  - simpl; lia.
  - intros b t _ _. simpl. lia.
  - reflexivity.
  - intros b t _ _. simpl. lia.
  - reflexivity.
  - simpl; lia.
  - intros b t _ _. simpl. lia.
  - reflexivity.
  - intros b t _ _. simpl. lia.
Defined.

(** C5 as stated fails: for one sequence of four tokens (B = 1) the
    aligned-model loss on the positive pair has four values, not one. *)
Lemma dpo_losses_not_per_sequence :
  exists m l,
    TutorialLLM.init zero_init 5 8 4 2 1 = Ok m
    /\ DpoWrapper.losses (DpoWrapper.init m (1 / 10) (4 / 5))
         (const_ids 1 4 1) (const_ids 1 4 2)
         (const_ids 1 4 1) (const_ids 1 4 3) = Ok l
    /\ shape (DpoWrapper.positive_loss l) = [4]
    /\ shape (DpoWrapper.positive_loss l) <> [1].
Proof.
  assert (Hex : exists m, TutorialLLM.init zero_init 5 8 4 2 1 = Ok m)
    by (eexists; reflexivity).
  destruct Hex as (m & Hini).
  pose proof (TutorialLLM_init_dims _ _ _ _ _ _ _ Hini ltac:(lia)) as Hm.
  destruct (losses_shape (DpoWrapper.init m (1 / 10) (4 / 5)) _ _ _ _ 1 4 4
              (const_ids 1 4 1) (const_ids 1 4 2)
              (const_ids 1 4 1) (const_ids 1 4 3) Hm Hm)
    as (l & Hl & H1 & _);
    try reflexivity; try (simpl; lia); try (intros b t _ _; simpl; lia).
  exists m, l. split; [exact Hini|]. split; [exact Hl|].
  rewrite H1. split; [reflexivity | discriminate].
Qed.

(** C6. With targets of the shape of the token ids, the loss returned with
    the reduction flag set equals the mean of the per-example losses
    returned with the flag cleared, on the same batch. *)
Theorem reduced_loss_is_mean_of_examples
    (ini : Initializer)
    (vocabulary_size dim_embed max_length num_head num_layer : Z)
    (m : TutorialLLM.t) (ids labels : Tensor Z) (B T : nat) :
  TutorialLLM.init ini vocabulary_size dim_embed max_length num_head num_layer
    = Ok m ->
  (0 < num_head)%Z -> (0 < dim_embed)%Z ->
  shape ids = [B; T] -> (Z.of_nat T <= max_length)%Z ->
  ids_in_vocab ids B T (Z.to_nat vocabulary_size) ->
  shape labels = [B; T] ->
  labels_in_vocab labels B T (Z.to_nat vocabulary_size) ->
  exists lg l1 lN,
    TutorialLLM.forward m ids (Some labels) true = Ok (lg, Some l1)
    /\ TutorialLLM.forward m ids (Some labels) false = Ok (lg, Some lN)
    /\ shape l1 = [] /\ shape lN = [(B * T)]
    /\ elem l1 [] = elem (mean lN) [].
Proof.
  intros Hini Hnh HD Hs HT Hv Hl Hlv.
  pose proof (TutorialLLM_init_dims _ _ _ _ _ _ _ Hini Hnh) as Hm.
  destruct (logits_of_shape m ids _ _ _ _ B T Hm ltac:(lia) Hs ltac:(lia) Hv)
    as (lg & Hlg & Hlgs).
  assert (Hok : forall b t, (b < B) -> (t < T) ->
            target_ok (Z.to_nat vocabulary_size) (elem labels [b; t]) = true).
  { intros b t Hb Ht. apply (labels_in_vocab_ok labels B T); assumption. }
  do 3 eexists.
  split; [apply (forward_labels m ids labels lg B T _ true Hlg Hlgs Hl Hok)|].
  split; [apply (forward_labels m ids labels lg B T _ false Hlg Hlgs Hl Hok)|].
  split; [reflexivity|]. split; [reflexivity|].
  rewrite (mean_vector _ (B * T)) by reflexivity.
  cbn [loss_tensor elem lst last]. rewrite counted_all; [reflexivity|].
  intros i Hi. cbn [flat_view elem]. rewrite Hl.
  destruct (unravel_matrix_lt B T i Hi) as (b & t & Hb & Ht & ->).
  specialize (Hlv b t Hb Ht). unfold ignore_index. lia.
Qed.

Lemma reduced_loss_is_mean_of_examples_witness :
  exists m,
    TutorialLLM.init zero_init 5 8 4 2 1 = Ok m
    /\ exists lg l1 lN,
         TutorialLLM.forward m (const_ids 1 4 1) (Some (const_ids 1 4 2)) true
         = Ok (lg, Some l1)
         /\ TutorialLLM.forward m (const_ids 1 4 1) (Some (const_ids 1 4 2))
              false
            = Ok (lg, Some lN)
         /\ shape l1 = [] /\ shape lN = [(1 * 4)]
         /\ elem l1 [] = elem (mean lN) [].
Proof.
  eexists. split; [reflexivity|].
  eapply (reduced_loss_is_mean_of_examples zero_init 5 8 4 2 1).
  - reflexivity.
  - lia.
  - lia.
  - reflexivity.
  - simpl; lia.
  - intros b t _ _. simpl. lia.
  - reflexivity.
  - intros b t _ _. simpl. lia.
Defined.

(** C7. In a block built for any number of heads, every head scales the raw
    affinity scores query . key^T by 1/sqrt(dim_embed), the full embedding
    dimension, while the size of the head is dim_embed // num_heads. *)
Theorem scores_scaled_by_embedding_dimension
    (ini : Initializer) (dim_embed num_heads max_length : Z)
    (blk : TranformerBlock.t) (head : AttentionHead.t) (input : Tensor R)
    (B T : nat) :
  TranformerBlock.init ini dim_embed num_heads max_length = Ok blk ->
  In head (MultiHeadAttention.heads (TranformerBlock.multi_head_attention blk)) ->
  shape input = [B; T; Z.to_nat dim_embed] ->
  (0 < dim_embed)%Z ->
  Linear.out_features (AttentionHead.project_to_query head)
    = Z.to_nat (dim_embed / num_heads)
  /\ exists w, AttentionHead.scores head input = Ok w
       /\ shape w = [B; T; T]
       /\ forall b i j,
            elem w [b; i; j]
            = (affinity head input b i j / sqrt (IZR dim_embed))%R.
Proof.
  intros Hini Hin Hs HD.
  apply TranformerBlock_init_heads in Hini as [_ Hh].
  specialize (Hh head Hin). split; [apply (hd_query_out _ _ _ _ Hh)|].
  destruct (@scores_value head input B T _ _ _ Hh Hs) as (w & Hw & Hsh & Hel);
    [lia|].
  exists w. repeat split; try assumption.
  intros b i j. rewrite Hel, INR_IZR_INZ, Z2Nat.id by lia. reflexivity.
Qed.

Lemma scores_scaled_by_embedding_dimension_witness :
  exists blk head,
    TranformerBlock.init zero_init 8 2 4 = Ok blk
    /\ In head
         (MultiHeadAttention.heads (TranformerBlock.multi_head_attention blk))
    /\ Linear.out_features (AttentionHead.project_to_query head)
       = Z.to_nat (8 / 2)
    /\ exists w,
         AttentionHead.scores head (ones [1; 4; 8]) = Ok w
         /\ shape w = [1; 4; 4]
         /\ forall b i j,
              elem w [b; i; j]
              = Rdiv (affinity head (ones [1; 4; 8]) b i j) (sqrt (IZR 8)).
Proof.
  eexists. eexists. split; [reflexivity|]. split; [left; reflexivity|].
  eapply (scores_scaled_by_embedding_dimension zero_init 8 2 4).
  - reflexivity.
  - left; reflexivity.
  - reflexivity.
  - lia.
Defined.

(** C8. For a running sequence of any length, longer than
    max_context_length included, a generation step cuts the sequence to its
    last max_context_length tokens, runs the forward pass on that window,
    which succeeds, and appends to the whole sequence the token sampled from
    the logits of the last position of the window.  The extended sequence
    is again a valid input and the loop goes on with it, unless the token
    is 0: every step of the loop is such a step, and neither a step nor the
    whole generation raises an error. *)
Theorem generation_truncates_to_context
    (smp : Sampler) (ini : Initializer)
    (vocabulary_size dim_embed max_length num_head num_layer : Z)
    (m : TutorialLLM.t) (ids : Tensor Z) (T n : nat) (g : rng smp) :
  sampler_ok smp ->
  TutorialLLM.init ini vocabulary_size dim_embed max_length num_head num_layer
    = Ok m ->
  (0 < num_head)%Z -> (0 < dim_embed)%Z -> (0 < max_length)%Z ->
  shape ids = [1; T] -> 0 < T ->
  ids_in_vocab ids 1 T (Z.to_nat vocabulary_size) ->
  (exists c lg,
     crop_last ids (TutorialLLM.max_length m) = Ok c
     /\ shape c = [1; Nat.min T (Z.to_nat max_length)]
     /\ row c 0 = skipn (T - Z.to_nat max_length) (row ids 0)
     /\ TutorialLLM.forward m c None true = Ok (lg, None)
     /\ shape lg
        = [1; Nat.min T (Z.to_nat max_length); Z.to_nat vocabulary_size]
     /\ exists y ids' idx g',
          select_last lg = Ok y
          /\ (forall v,
                elem y [0; v]
                = elem lg [0; Nat.min T (Z.to_nat max_length) - 1; v])
          /\ multinomial smp g (softmax (tmap Fin y)) = Ok (idx, g')
          /\ TutorialLLM.sample_next smp m ids g = Ok (ids', idx, g')
          /\ row ids' 0 = row ids 0 ++ [elem idx [0; 0]]
          /\ shape ids' = [1; S T]
          /\ ids_in_vocab ids' 1 (S T) (Z.to_nat vocabulary_size)
          /\ TutorialLLM.generate smp m ids (S n) g
             = if Z.eqb (elem idx [0; 0]) 0 then Ok (ids', g')
               else TutorialLLM.generate smp m ids' n g')
  /\ is_ok (TutorialLLM.sample_next smp m ids g) = true
  /\ is_ok (TutorialLLM.generate smp m ids n g) = true.
Proof.
  intros Hok Hini Hnh HD HL Hs HT Hv.
  pose proof (TutorialLLM_init_dims _ _ _ _ _ _ _ Hini Hnh) as Hm.
  assert (HV : 0 < Z.to_nat vocabulary_size)
    by (specialize (Hv 0 0 ltac:(lia) HT); lia).
  destruct (sample_next_window smp m _ _ _ _ Hok Hm ltac:(lia) ltac:(lia) HV
              ids g 1 T Hs HT Hv)
    as (c & lg & y & ids' & idx & g1 & Hc & Hcs & Hce & Hf & Hlgs & Hy & Hye
        & Hmul & Hsn & Hs' & His & Hv' & Hpre & Hnew).
  split; [|split].
  - exists c, lg. split; [exact Hc|]. split; [exact Hcs|].
    split; [apply (row_crop ids c 1 T _ 0 Hs Hcs); intros t; apply Hce|].
    split; [exact Hf|]. split; [exact Hlgs|].
    exists y, ids', idx, g1.
    split; [exact Hy|]. split; [intros v; apply Hye|].
    split; [exact Hmul|]. split; [exact Hsn|].
    split.
    { rewrite <- (Hnew 0). apply (row_cat ids ids' 1 T 0 Hs Hs' (Hpre 0)). }
    split; [exact Hs'|]. split; [exact Hv'|].
    cbn [TutorialLLM.generate]. rewrite Hsn. cbn [bind].
    rewrite (item_column idx 1 His). reflexivity.
  - rewrite Hsn. reflexivity.
  - destruct (generate_value smp m _ _ _ _ Hok Hm ltac:(lia) ltac:(lia) HV
                n ids T g Hs HT Hv) as (out & g' & gen & H1 & _).
    rewrite H1. reflexivity.
Qed.

Lemma generation_truncates_to_context_witness :
  exists m,
    TutorialLLM.init zero_init 5 8 4 2 1 = Ok m
    /\ (exists c lg,
          crop_last (const_ids 1 6 1) (TutorialLLM.max_length m) = Ok c
          /\ shape c = [1; Nat.min 6 (Z.to_nat 4)]
          /\ row c 0 = skipn (6 - Z.to_nat 4) (row (const_ids 1 6 1) 0)
          /\ TutorialLLM.forward m c None true = Ok (lg, None)
          /\ shape lg = [1; Nat.min 6 (Z.to_nat 4); Z.to_nat 5]
          /\ exists y ids' idx g',
               select_last lg = Ok y
               /\ (forall v,
                     elem y [0; v]
                     = elem lg [0; Nat.min 6 (Z.to_nat 4) - 1; v])
               /\ multinomial always_last tt (softmax (tmap Fin y))
                  = Ok (idx, g')
               /\ TutorialLLM.sample_next always_last m (const_ids 1 6 1) tt
                  = Ok (ids', idx, g')
               /\ row ids' 0 = row (const_ids 1 6 1) 0 ++ [elem idx [0; 0]]
               /\ shape ids' = [1; 7]
               /\ ids_in_vocab ids' 1 7 (Z.to_nat 5)
               /\ TutorialLLM.generate always_last m (const_ids 1 6 1) 4 tt
                  = if Z.eqb (elem idx [0; 0]) 0 then Ok (ids', g')
                    else TutorialLLM.generate always_last m ids' 3 g')
    /\ is_ok (TutorialLLM.sample_next always_last m (const_ids 1 6 1) tt) = true
    /\ is_ok (TutorialLLM.generate always_last m (const_ids 1 6 1) 3 tt) = true.
Proof.
  eexists. split; [reflexivity|].
  eapply (generation_truncates_to_context always_last zero_init 5 8 4 2 1
            _ _ 6 3).
  - intros g p V HV. simpl. lia.
  - reflexivity.
  - lia.
  - lia.
  - lia.
  - reflexivity.
  - lia.
  - intros b t _ _. simpl. lia.
Defined.

(** C9, amended.  Construction validates neither divisibility nor the range
    of positive_weight.  A transformer block is built for every
    dim_embed >= 0, max_length >= 0 and num_heads >= 1, divisible or not,
    with heads of size dim_embed // num_heads; only num_heads = 0 raises,
    a ZeroDivisionError.  [DpoWrapper] is built for every positive_weight
    and stores negative_weight = 1 - positive_weight. *)
Theorem construction_without_validation
    (ini : Initializer) (dim_embed num_heads max_length : Z)
    (model : TutorialLLM.t) (beta positive_weight : R) :
  (0 <= dim_embed)%Z -> (0 < num_heads)%Z -> (0 <= max_length)%Z ->
  (exists blk,
     TranformerBlock.init ini dim_embed num_heads max_length = Ok blk
     /\ block_dims blk (Z.to_nat dim_embed)
          (Z.to_nat (dim_embed / num_heads)) (Z.to_nat max_length))
  /\ TranformerBlock.init ini dim_embed 0 max_length = Raise ZeroDivisionError
  /\ DpoWrapper.positive_weight (DpoWrapper.init model beta positive_weight)
     = positive_weight
  /\ DpoWrapper.negative_weight (DpoWrapper.init model beta positive_weight)
     = Rminus 1 positive_weight
  /\ DpoWrapper.aligned_model (DpoWrapper.init model beta positive_weight)
     = model
  /\ DpoWrapper.reference_model (DpoWrapper.init model beta positive_weight)
     = model.
Proof.
  intros HD Hnh HL. split.
  - destruct (TranformerBlock_init_succeeds ini dim_embed num_heads max_length
                HD Hnh HL) as (blk & Hblk).
    exists blk. split; [exact Hblk|].
    apply (TranformerBlock_init_dims ini _ _ _ blk Hblk Hnh).
  - repeat split.
Qed.

Lemma construction_without_validation_witness :
  (exists blk,
     TranformerBlock.init zero_init 8 3 4 = Ok blk
     /\ block_dims blk (Z.to_nat 8) (Z.to_nat (8 / 3)) (Z.to_nat 4))
  /\ TranformerBlock.init zero_init 8 0 4 = Raise ZeroDivisionError
  /\ DpoWrapper.positive_weight
       (DpoWrapper.init empty_model
          (1 / 10) (3 / 2))
     = (3 / 2)%R
  /\ DpoWrapper.negative_weight
       (DpoWrapper.init empty_model
          (1 / 10) (3 / 2))
     = Rminus 1 (3 / 2)
  /\ DpoWrapper.aligned_model
       (DpoWrapper.init empty_model
          (1 / 10) (3 / 2))
     = empty_model
  /\ DpoWrapper.reference_model
       (DpoWrapper.init empty_model
          (1 / 10) (3 / 2))
     = empty_model.
Proof.
  apply (construction_without_validation zero_init 8 3 4); lia.
Defined.

(** C9 as stated fails: a block with dim_embed = 8 and num_heads = 3 is
    built although 3 does not divide 8, and a wrapper with
    positive_weight = 3/2 is built although 3/2 is outside [0, 1]. *)
Lemma construction_signals_no_configuration_error :
  is_ok (TranformerBlock.init zero_init 8 3 4) = true
  /\ (8 mod 3 <> 0)%Z
  /\ (exists m,
        TutorialLLM.init zero_init 5 8 4 3 1 = Ok m
        /\ DpoWrapper.positive_weight (DpoWrapper.init m (1 / 10) (3 / 2))
           = (3 / 2)%R)
  /\ ~ (0 <= 3 / 2 <= 1)%R.
Proof.
  split; [reflexivity|]. split; [discriminate|].
  split; [eexists; split; reflexivity|]. lra.
Qed.

(** C10. For a prompt batch of more than one sequence and at least one
    step, the first generation step samples its column of tokens and the
    end-of-sequence check, which reads that column as one scalar, raises:
    [generate] fails. *)
Theorem generate_rejects_batches
    (smp : Sampler) (ini : Initializer)
    (vocabulary_size dim_embed max_length num_head num_layer : Z)
    (m : TutorialLLM.t) (ids : Tensor Z) (B T n : nat) (g : rng smp) :
  sampler_ok smp ->
  TutorialLLM.init ini vocabulary_size dim_embed max_length num_head num_layer
    = Ok m ->
  (0 < num_head)%Z -> (0 < dim_embed)%Z -> (0 < max_length)%Z ->
  shape ids = [B; T] -> 0 < T ->
  ids_in_vocab ids B T (Z.to_nat vocabulary_size) ->
  1 < B -> 0 < n ->
  exists ids' idx g',
    TutorialLLM.sample_next smp m ids g = Ok (ids', idx, g')
    /\ shape idx = [B; 1]
    /\ item idx = Raise RuntimeError
    /\ TutorialLLM.generate smp m ids n g = Raise RuntimeError.
Proof.
  intros Hok Hini Hnh HD HL Hs HT Hv HB Hn.
  pose proof (TutorialLLM_init_dims _ _ _ _ _ _ _ Hini Hnh) as Hm.
  assert (HV : 0 < Z.to_nat vocabulary_size)
    by (specialize (Hv 0 0 ltac:(lia) HT); lia).
  destruct (sample_next_value smp m _ _ _ _ Hok Hm ltac:(lia) ltac:(lia) HV
              ids g B T Hs HT Hv)
    as (_ & _ & ids' & idx & g1 & _ & _ & _ & _ & _ & Hsn & _ & His & _).
  assert (Hitem : item idx = Raise RuntimeError).
  { rewrite (item_column idx B His).
    destruct (Nat.eqb_spec B 1); [lia | reflexivity]. }
  exists ids', idx, g1. split; [exact Hsn|]. split; [exact His|].
  split; [exact Hitem|].
  destruct n as [|n]; [lia|]. cbn [TutorialLLM.generate].
  rewrite Hsn. cbn [bind]. rewrite Hitem. reflexivity.
Qed.

Lemma generate_rejects_batches_witness :
  exists m,
    TutorialLLM.init zero_init 5 8 4 2 1 = Ok m
    /\ exists ids' idx g',
         TutorialLLM.sample_next always_last m (const_ids 2 3 1) tt
         = Ok (ids', idx, g')
         /\ shape idx = [2; 1]
         /\ item idx = Raise RuntimeError
         /\ TutorialLLM.generate always_last m (const_ids 2 3 1) 5 tt
            = Raise RuntimeError.
Proof.
  eexists. split; [reflexivity|].
  eapply (generate_rejects_batches always_last zero_init 5 8 4 2 1).
  - intros g p V HV. simpl. lia.
  - reflexivity.
  - lia.
  - lia.
  - lia.
  - reflexivity.
  - lia.
  - intros b t _ _. simpl. lia.
  - lia.
  - lia.
Defined.


(** * Further properties of [model.py] *)

(** ** Errors of the forward pass *)

Lemma indices_in (s idx : list nat) :
  Forall2 lt idx s -> In idx (indices s).
Proof.
  intros H. induction H as [|i d idx s Hi _ IH]; [left; reflexivity|].
  cbn [indices]. apply in_flat_map. exists i.
  split; [apply in_seq; lia | apply in_map; exact IH].
Qed.

Lemma Embedding_table_not_empty (e : Embedding.t) :
  0 < Embedding.num_embeddings e -> 0 < Embedding.embedding_dim e ->
  Nat.eqb (Embedding.num_embeddings e) 0
  || Nat.eqb (Embedding.embedding_dim e) 0 = false.
Proof.
  intros Hn Hd. apply orb_false_iff. split; apply Nat.eqb_neq; lia.
Qed.

Lemma Embedding_forward_out_of_range (e : Embedding.t) (ids : Tensor Z)
    (idx : list nat) :
  0 < Embedding.num_embeddings e -> 0 < Embedding.embedding_dim e ->
  Forall2 lt idx (shape ids) ->
  Embedding.in_range e (elem ids idx) = false ->
  Embedding.forward e ids = Raise IndexError.
Proof.
  intros Hn Hd Hidx Hr. unfold Embedding.forward.
  rewrite (Embedding_table_not_empty e Hn Hd).
  destruct (forallb _ (indices (shape ids))) eqn:E; [|reflexivity].
  rewrite forallb_forall in E.
  rewrite (E idx (indices_in _ _ Hidx)) in Hr. discriminate.
Qed.

Lemma Embedding_forward_cases (e : Embedding.t) (ids : Tensor Z) :
  0 < Embedding.num_embeddings e -> 0 < Embedding.embedding_dim e ->
  (exists y, Embedding.forward e ids = Ok y)
  \/ Embedding.forward e ids = Raise IndexError.
Proof.
  intros Hn Hd. unfold Embedding.forward.
  rewrite (Embedding_table_not_empty e Hn Hd).
  destruct (forallb _ _); eauto.
Qed.

Lemma TutorialLLM_init_tables ini vocabulary_size dim_embed max_length
    num_head num_layer m :
  TutorialLLM.init ini vocabulary_size dim_embed max_length num_head num_layer
    = Ok m ->
  (0 <= vocabulary_size)%Z /\ (0 <= dim_embed)%Z /\ (0 <= max_length)%Z
  /\ Embedding.num_embeddings (TutorialLLM.token_embedding_table m)
     = Z.to_nat vocabulary_size
  /\ Embedding.num_embeddings (TutorialLLM.position_embedding_table m)
     = Z.to_nat max_length
  /\ TutorialLLM.max_length m = Z.to_nat max_length
  /\ Embedding.embedding_dim (TutorialLLM.token_embedding_table m)
     = Z.to_nat dim_embed
  /\ Embedding.embedding_dim (TutorialLLM.position_embedding_table m)
     = Z.to_nat dim_embed.
Proof.
  unfold TutorialLLM.init. intros H.
  apply bind_ok in H as (tok & Htok & H). apply bind_ok in H as (pos & Hpos & H).
  apply bind_ok in H as (bl & _ & H). apply bind_ok in H as (ln & _ & H).
  apply bind_ok in H as (p & _ & H). inversion H; subst; clear H.
  apply Embedding_init_ok in Htok as (? & ? & ? & ?).
  apply Embedding_init_ok in Hpos as (? & _ & ? & ?).
  cbn. auto 10.
Qed.

Lemma logits_of_too_long (m : TutorialLLM.t) (ids : Tensor Z) (B T : nat) :
  0 < Embedding.num_embeddings (TutorialLLM.token_embedding_table m) ->
  0 < Embedding.embedding_dim (TutorialLLM.token_embedding_table m) ->
  0 < Embedding.num_embeddings (TutorialLLM.position_embedding_table m) ->
  0 < Embedding.embedding_dim (TutorialLLM.position_embedding_table m) ->
  shape ids = [B; T] ->
  Embedding.num_embeddings (TutorialLLM.position_embedding_table m) < T ->
  TutorialLLM.logits_of m ids = Raise IndexError.
Proof.
  intros Htn Htd Hpn Hpd Hs HT. unfold TutorialLLM.logits_of. rewrite Hs.
  destruct (Embedding_forward_cases (TutorialLLM.token_embedding_table m) ids
              Htn Htd)
    as [(y & ->) | ->]; [|reflexivity].
  cbn [bind].
  rewrite (Embedding_forward_out_of_range _ (arange T)
             [Embedding.num_embeddings
                (TutorialLLM.position_embedding_table m)] Hpn Hpd);
    [reflexivity | |].
  - cbn [arange shape]. constructor; [exact HT | constructor].
  - unfold Embedding.in_range. cbn [arange elem lst last].
    apply andb_false_iff. right. apply Z.ltb_ge. lia.
Qed.

Lemma logits_of_unknown_token (m : TutorialLLM.t) (ids : Tensor Z)
    (B T b t : nat) :
  0 < Embedding.num_embeddings (TutorialLLM.token_embedding_table m) ->
  0 < Embedding.embedding_dim (TutorialLLM.token_embedding_table m) ->
  shape ids = [B; T] -> b < B -> t < T ->
  Embedding.in_range (TutorialLLM.token_embedding_table m) (elem ids [b; t])
    = false ->
  TutorialLLM.logits_of m ids = Raise IndexError.
Proof.
  intros Htn Htd Hs Hb Ht Hr. unfold TutorialLLM.logits_of. rewrite Hs.
  rewrite (Embedding_forward_out_of_range _ ids [b; t] Htn Htd);
    [reflexivity | | exact Hr].
  rewrite Hs. repeat constructor; assumption.
Qed.

(** X1. For a model with at least one class, one embedding coordinate and
    one context position, a batch whose sequences are longer than max_length
    is rejected by the forward pass with an IndexError (the lookup of the
    positions, or before it the lookup of an unknown token), with or without
    targets. *)
Theorem forward_rejects_long_sequences
    (ini : Initializer)
    (vocabulary_size dim_embed max_length num_head num_layer : Z)
    (m : TutorialLLM.t) (ids : Tensor Z) (labels : option (Tensor Z))
    (B T : nat) (reduce : bool) :
  TutorialLLM.init ini vocabulary_size dim_embed max_length num_head num_layer
    = Ok m ->
  (0 < vocabulary_size)%Z -> (0 < dim_embed)%Z -> (0 < max_length)%Z ->
  shape ids = [B; T] -> (max_length < Z.of_nat T)%Z ->
  TutorialLLM.forward m ids labels reduce = Raise IndexError.
Proof.
  intros Hini HV HD HL Hs HT.
  apply TutorialLLM_init_tables in Hini
    as (_ & _ & _ & Htok & Hpos & _ & Htd & Hpd).
  unfold TutorialLLM.forward.
  rewrite (logits_of_too_long m ids B T); [reflexivity | | | | | exact Hs |].
  - rewrite Htok. lia.
  - rewrite Htd. lia.
  - rewrite Hpos. lia.
  - rewrite Hpd. lia.
  - rewrite Hpos. lia.
Qed.

Lemma forward_rejects_long_sequences_witness :
  exists m,
    TutorialLLM.init zero_init 5 8 4 2 1 = Ok m
    /\ TutorialLLM.forward m (const_ids 1 5 1) None true = Raise IndexError.
Proof.
  eexists. split; [reflexivity|].
  eapply (forward_rejects_long_sequences zero_init 5 8 4 2 1).
  - reflexivity.
  - lia.
  - lia.
  - lia.
  - reflexivity.
  - simpl; lia.
Defined.

(** X2. For a model with at least one class and one embedding coordinate,
    a batch holding a token id outside [0, vocabulary_size) is rejected by
    the forward pass with an IndexError, with or without targets. *)
Theorem forward_rejects_unknown_tokens
    (ini : Initializer)
    (vocabulary_size dim_embed max_length num_head num_layer : Z)
    (m : TutorialLLM.t) (ids : Tensor Z) (labels : option (Tensor Z))
    (B T b t : nat) (reduce : bool) :
  TutorialLLM.init ini vocabulary_size dim_embed max_length num_head num_layer
    = Ok m ->
  (0 < vocabulary_size)%Z -> (0 < dim_embed)%Z ->
  shape ids = [B; T] -> b < B -> t < T ->
  (elem ids [b; t] < 0 \/ vocabulary_size <= elem ids [b; t])%Z ->
  TutorialLLM.forward m ids labels reduce = Raise IndexError.
Proof.
  intros Hini HV HD Hs Hb Ht Hid.
  apply TutorialLLM_init_tables in Hini
    as (_ & _ & _ & Htok & _ & _ & Htd & _).
  unfold TutorialLLM.forward.
  rewrite (logits_of_unknown_token m ids B T b t); [reflexivity | | | | | |];
    [rewrite Htok; lia | rewrite Htd; lia | exact Hs | exact Hb | exact Ht |].
  unfold Embedding.in_range. rewrite Htok.
  destruct Hid as [Hneg | Hbig].
  - apply andb_false_iff. left. apply Z.leb_gt. exact Hneg.
  - apply andb_false_iff. right. apply Z.ltb_ge. lia.
Qed.

Lemma forward_rejects_unknown_tokens_witness :
  exists m,
    TutorialLLM.init zero_init 5 8 4 2 1 = Ok m
    /\ TutorialLLM.forward m (const_ids 1 3 5) None true = Raise IndexError.
Proof.
  eexists. split; [reflexivity|].
  eapply (forward_rejects_unknown_tokens zero_init 5 8 4 2 1 _ _ _ 1 3 0 2).
  - reflexivity.
  - lia.
  - lia.
  - reflexivity.
  - lia.
  - lia.
  - right. simpl. lia.
Defined.

Lemma cross_entropy_bad_target (input : Tensor R) (target : Tensor Z)
    (N C i : nat) (reduce : bool) :
  shape input = [N; C] -> shape target = [N] -> i < N ->
  target_ok C (elem target [i]) = false ->
  cross_entropy input target reduce = Raise IndexError.
Proof.
  intros Hi Ht Hlt Hbad. unfold cross_entropy.
  rewrite Hi, Ht, Nat.eqb_refl. cbn [negb].
  destruct (forallb _ (seq 0 N)) eqn:E; [|reflexivity].
  rewrite forallb_forall in E.
  rewrite (E i) in Hbad; [discriminate | apply in_seq; lia].
Qed.

(** X3. The targets are checked after the logits are computed: a target
    tensor whose number of entries is not batch * seq_len raises a
    RuntimeError (the view), and a target that is neither a class of the
    vocabulary nor the ignored value -100 raises an IndexError. *)
Theorem forward_checks_targets
    (ini : Initializer)
    (vocabulary_size dim_embed max_length num_head num_layer : Z)
    (m : TutorialLLM.t) (ids : Tensor Z) (B T : nat) (reduce : bool) :
  TutorialLLM.init ini vocabulary_size dim_embed max_length num_head num_layer
    = Ok m ->
  (0 < num_head)%Z -> (0 < dim_embed)%Z ->
  shape ids = [B; T] -> (Z.of_nat T <= max_length)%Z ->
  ids_in_vocab ids B T (Z.to_nat vocabulary_size) ->
  (forall labels,
     numel (shape labels) <> B * T ->
     TutorialLLM.forward m ids (Some labels) reduce = Raise RuntimeError)
  /\ (forall labels b t,
        shape labels = [B; T] -> b < B -> t < T ->
        elem labels [b; t] <> ignore_index ->
        (elem labels [b; t] < 0 \/ vocabulary_size <= elem labels [b; t])%Z ->
        TutorialLLM.forward m ids (Some labels) reduce = Raise IndexError).
Proof.
  intros Hini Hnh HD Hs HT Hv.
  pose proof (TutorialLLM_init_dims _ _ _ _ _ _ _ Hini Hnh) as Hm.
  pose proof (TutorialLLM_init_tables _ _ _ _ _ _ _ Hini) as (HV & _).
  destruct (logits_of_shape m ids _ _ _ _ B T Hm ltac:(lia) Hs ltac:(lia) Hv)
    as (lg & Hlg & Hlgs).
  split.
  - intros labels Hn. unfold TutorialLLM.forward.
    rewrite Hlg. cbn [bind]. rewrite Hlgs.
    rewrite (view_value lg [B * T; Z.to_nat vocabulary_size])
      by (rewrite Hlgs; cbn [numel fold_right]; lia).
    cbn [bind]. unfold view.
    destruct (Nat.eqb_spec (numel (shape labels)) (numel [B * T])) as [E|_];
      [|reflexivity].
    cbn [numel fold_right] in E. lia.
  - intros labels b t Hl Hb Ht Hni Hout. unfold TutorialLLM.forward.
    rewrite Hlg. cbn [bind]. rewrite Hlgs.
    rewrite (view_value lg [B * T; Z.to_nat vocabulary_size])
      by (rewrite Hlgs; cbn [numel fold_right]; lia).
    cbn [bind].
    rewrite (view_value labels [B * T])
      by (rewrite Hl; cbn [numel fold_right]; lia).
    cbn [bind].
    rewrite (cross_entropy_bad_target _ _ (B * T) (Z.to_nat vocabulary_size)
               (b * T + t) reduce); try reflexivity.
    + nia.
    + cbn [flat_view elem]. rewrite Hl, unravel_matrix by exact Ht.
      unfold target_ok. apply orb_false_iff. split.
      * apply Z.eqb_neq. exact Hni.
      * apply andb_false_iff. destruct Hout as [Hneg | Hbig].
        -- left. apply Z.leb_gt. exact Hneg.
        -- right. apply Z.ltb_ge. lia.
Qed.

Lemma forward_checks_targets_witness :
  exists m,
    TutorialLLM.init zero_init 5 8 4 2 1 = Ok m
    /\ (forall labels,
          numel (shape labels) <> 1 * 4 ->
          TutorialLLM.forward m (const_ids 1 4 1) (Some labels) true
          = Raise RuntimeError)
    /\ (forall labels b t,
          shape labels = [1; 4] -> b < 1 -> t < 4 ->
          elem labels [b; t] <> ignore_index ->
          (elem labels [b; t] < 0 \/ 5 <= elem labels [b; t])%Z ->
          TutorialLLM.forward m (const_ids 1 4 1) (Some labels) true
          = Raise IndexError).
Proof.
  eexists. split; [reflexivity|].
  eapply (forward_checks_targets zero_init 5 8 4 2 1).
  - reflexivity.
  - lia.
  - lia.
  - reflexivity.
  - simpl; lia.
  - intros b t _ _. simpl. lia.
Defined.

(** X4. [generate] on an empty prompt with at least one step raises an
    IndexError: the forward pass returns logits with no position, and the
    logits of the last position are read. *)
Theorem generate_rejects_empty_prompt
    (smp : Sampler) (ini : Initializer)
    (vocabulary_size dim_embed max_length num_head num_layer : Z)
    (m : TutorialLLM.t) (ids : Tensor Z) (B n : nat) (g : rng smp) :
  TutorialLLM.init ini vocabulary_size dim_embed max_length num_head num_layer
    = Ok m ->
  (0 < num_head)%Z -> (0 < dim_embed)%Z ->
  shape ids = [B; 0] -> 0 < n ->
  TutorialLLM.generate smp m ids n g = Raise IndexError.
Proof.
  intros Hini Hnh HD Hs Hn.
  pose proof (TutorialLLM_init_dims _ _ _ _ _ _ _ Hini Hnh) as Hm.
  pose proof (TutorialLLM_init_tables _ _ _ _ _ _ _ Hini) as (_ & _ & HL & _).
  destruct n as [|n]; [lia|].
  cbn [TutorialLLM.generate]. unfold TutorialLLM.sample_next, crop_last.
  rewrite Hs. cbn [bind].
  set (c := mkTensor [B; 0 - _] _).
  assert (Hc : shape c = [B; 0]) by (subst c; cbn [shape]; f_equal).
  destruct (logits_of_shape m c _ _ _ _ B 0 Hm ltac:(lia) Hc ltac:(lia))
    as (lg & Hlg & Hlgs).
  { intros b t _ Ht. lia. }
  unfold TutorialLLM.forward. rewrite Hlg. cbn [bind].
  unfold select_last. rewrite Hlgs. reflexivity.
Qed.

Lemma generate_rejects_empty_prompt_witness :
  exists m,
    TutorialLLM.init zero_init 5 8 4 2 1 = Ok m
    /\ TutorialLLM.generate always_last m (const_ids 1 0 1) 3 tt
       = Raise IndexError.
Proof.
  eexists. split; [reflexivity|].
  eapply (generate_rejects_empty_prompt always_last zero_init 5 8 4 2 1).
  - reflexivity.
  - lia.
  - lia.
  - reflexivity.
  - lia.
Defined.

(** ** Edges of the causal mask *)

Lemma masked_fill_short_mask (s : Tensor R) (L B T : nat) (v : ExtR) :
  shape s = [B; T; T] -> L < T -> L <> 1 -> T <> 1 ->
  masked_fill s (eq_zero (slice2 (tril_ones L) T)) v = Raise RuntimeError.
Proof.
  intros Hs HLT HL1 HT1. unfold masked_fill.
  cbn [shape eq_zero tmap slice2 tril_ones map]. rewrite Hs.
  rewrite (Nat.min_r T L) by lia.
  unfold broadcast_shapes. cbn [rev app broadcast_rev].
  destruct (Nat.eqb_spec L T) as [E|_]; [lia|].
  destruct (Nat.eqb_spec L 1) as [E|_]; [lia|].
  destruct (Nat.eqb_spec T 1) as [E|_]; [lia|reflexivity].
Qed.

(** Without a mask entry the single score is broadcast to the empty mask. *)
Lemma masked_fill_empty_mask (s : Tensor R) (B : nat) (v : ExtR) :
  shape s = [B; 1; 1] ->
  exists w, masked_fill s (eq_zero (slice2 (tril_ones 0) 1)) v = Ok w
    /\ shape w = [B; 0; 0].
Proof.
  intros Hs. unfold masked_fill.
  cbn [shape eq_zero tmap slice2 tril_ones map]. rewrite Hs.
  change (broadcast_shapes [Nat.min 1 0; Nat.min 1 0] [B; 1; 1])
    with (Some [B; 0; 0]).
  unfold list_nat_eqb.
  destruct (list_eq_dec Nat.eq_dec [B; 0; 0] [B; 1; 1]) as [E|_];
    [discriminate E|].
  eexists. split; reflexivity.
Qed.

(** X5. With a mask buffer for max_length <> 1 positions, a head rejects
    every input longer than max_length with a RuntimeError: the sliced mask
    is smaller than the score matrix and does not broadcast to it (without
    any mask entry, a single score is broadcast to the empty mask instead,
    and the product of the weights and the values fails). *)
Theorem attention_rejects_long_sequences
    (ini : Initializer) (dim_embed head_size max_length : Z)
    (h : AttentionHead.t) (input : Tensor R) (B T : nat) :
  AttentionHead.init ini dim_embed head_size max_length = Ok h ->
  shape input = [B; T; Z.to_nat dim_embed] ->
  (0 < dim_embed)%Z ->
  (max_length < Z.of_nat T)%Z -> max_length <> 1%Z ->
  AttentionHead.forward h input = Raise RuntimeError.
Proof.
  intros Hini Hs HD HT HL.
  assert (HL0 : (0 <= max_length)%Z).
  { unfold AttentionHead.init in Hini.
    apply bind_ok in Hini as (k & _ & Hini).
    apply bind_ok in Hini as (q & _ & Hini).
    apply bind_ok in Hini as (v & _ & Hini).
    apply bind_ok in Hini as (n & Hn & _).
    apply check_dim_ok in Hn as [Hn _]. exact Hn. }
  apply AttentionHead_init_dims in Hini as Hd.
  unfold AttentionHead.forward. rewrite Hs.
  destruct (Linear_forward_shape _ _ _ _ _ Hs (hd_value_in _ _ _ _ Hd))
    as (v & Hv & Hvs).
  rewrite Hv. cbn [bind]. unfold AttentionHead.attention. rewrite Hs.
  destruct (scores_value h input B T _ _ _ Hd Hs ltac:(lia))
    as (s & Hsc & Hss & _).
  rewrite Hsc. cbn [bind]. rewrite (hd_tril _ _ _ _ Hd).
  destruct (Nat.eq_dec T 1) as [->|HT1].
  - replace (Z.to_nat max_length) with 0 by lia.
    destruct (masked_fill_empty_mask s B NegInf Hss) as (w & -> & Hws).
    cbn [bind]. unfold matmul. cbn [softmax shape]. rewrite Hws, Hvs.
    cbn. rewrite list_nat_eqb_refl. reflexivity.
  - rewrite (masked_fill_short_mask s (Z.to_nat max_length) B T NegInf Hss);
      [reflexivity | lia | lia | exact HT1].
Qed.

Lemma attention_rejects_long_sequences_witness :
  exists h,
    AttentionHead.init zero_init 8 4 4 = Ok h
    /\ AttentionHead.forward h (ones [1; 5; 8]) = Raise RuntimeError.
Proof.
  eexists. split; [reflexivity|].
  eapply (attention_rejects_long_sequences zero_init 8 4 4).
  - reflexivity.
  - reflexivity.
  - lia.
  - simpl; lia.
  - lia.
Defined.



(** ** Heads, blocks and construction *)

Lemma AttentionHead_init_sizes ini dim_embed head_size max_length h :
  AttentionHead.init ini dim_embed head_size max_length = Ok h ->
  (0 <= dim_embed)%Z /\ (0 <= head_size)%Z /\ (0 <= max_length)%Z.
Proof.
  unfold AttentionHead.init. intros H.
  apply bind_ok in H as (k & Hk & H). apply bind_ok in H as (q & _ & H).
  apply bind_ok in H as (v & _ & H). apply bind_ok in H as (n & Hn & _).
  apply Linear_init_ok in Hk as (? & ? & _).
  apply check_dim_ok in Hn as [? _]. auto.
Qed.

Lemma MultiHeadAttention_init_head_size ini dim_embed num_heads head_size
    max_length m :
  MultiHeadAttention.init ini dim_embed num_heads head_size max_length = Ok m ->
  (0 < num_heads)%Z -> (0 <= head_size)%Z.
Proof.
  unfold MultiHeadAttention.init. intros H Hnh.
  apply bind_ok in H as (hs & Hhs & _).
  apply mapM_ok in Hhs as [Hlen Hin]. rewrite length_seq in Hlen.
  destruct hs as [|h hs]; [cbn in Hlen; lia|].
  destruct (Hin h (or_introl eq_refl)) as (i & _ & Hi).
  apply AttentionHead_init_sizes in Hi. lia.
Qed.

(** X7. Multi-head attention built for any number of heads >= 1 maps
    (batch, seq_len, dim_embed) to (batch, seq_len, dim_embed), also when
    head_size * num_heads differs from dim_embed: the projection is sized
    after the concatenation. *)
Theorem multi_head_attention_shape
    (ini : Initializer) (dim_embed num_heads head_size max_length : Z)
    (m : MultiHeadAttention.t) (input : Tensor R) (B T : nat) :
  MultiHeadAttention.init ini dim_embed num_heads head_size max_length = Ok m ->
  (0 < num_heads)%Z -> (0 < dim_embed)%Z ->
  shape input = [B; T; Z.to_nat dim_embed] ->
  (Z.of_nat T <= max_length)%Z ->
  exists y, MultiHeadAttention.forward m input = Ok y
    /\ shape y = [B; T; Z.to_nat dim_embed].
Proof.
  intros Hini Hnh HD Hs HT.
  pose proof (MultiHeadAttention_init_head_size _ _ _ _ _ _ Hini Hnh) as Hhs.
  apply MultiHeadAttention_init_heads in Hini as (Hlen & Hpin & Hpout & Hh).
  rewrite <- Hpout.
  assert (Hne : MultiHeadAttention.heads m <> []).
  { intros E. rewrite E in Hlen. cbn in Hlen. lia. }
  assert (Hall : Forall (fun h => head_dims h (Z.to_nat dim_embed)
                                    (Z.to_nat head_size) (Z.to_nat max_length))
                   (MultiHeadAttention.heads m)).
  { apply Forall_forall. exact Hh. }
  assert (Hin : Linear.in_features (MultiHeadAttention.project m)
                = length (MultiHeadAttention.heads m) * Z.to_nat head_size).
  { rewrite Hpin, Hlen, Z2Nat.inj_mul by lia. lia. }
  apply (MultiHeadAttention_forward_shape m input B T (Z.to_nat dim_embed)
           (Z.to_nat head_size) (Z.to_nat max_length) Hne Hall Hin Hs);
    lia.
Qed.

Lemma multi_head_attention_shape_witness :
  exists m,
    MultiHeadAttention.init zero_init 8 3 5 4 = Ok m
    /\ exists y, MultiHeadAttention.forward m (ones [2; 4; 8]) = Ok y
         /\ shape y = [2; 4; Z.to_nat 8].
Proof.
  eexists. split; [reflexivity|].
  eapply (multi_head_attention_shape zero_init 8 3 5 4).
  - reflexivity.
  - lia.
  - lia.
  - reflexivity.
  - simpl; lia.
Defined.

Lemma LayerNorm_forward_cases (l : LayerNorm.t) (x : Tensor R) :
  (exists y, LayerNorm.forward l x = Ok y)
  \/ LayerNorm.forward l x = Raise RuntimeError.
Proof.
  unfold LayerNorm.forward. destruct (shape x); [auto|].
  destruct (negb _); eauto.
Qed.

(** X8. A negative head count passes construction (the list of heads is
    empty) but the block, here of width dim_embed >= 1, can never run.  On
    an input of the documented shape (batch, seq_len, dim_embed) the layer
    normalisation succeeds and the concatenation of the empty list of head
    outputs raises a ValueError; on any input the forward pass raises that
    ValueError or the RuntimeError of the layer normalisation. *)
Theorem block_without_heads_never_runs
    (ini : Initializer) (dim_embed num_heads max_length : Z)
    (blk : TranformerBlock.t) (input : Tensor R) :
  TranformerBlock.init ini dim_embed num_heads max_length = Ok blk ->
  (num_heads < 0)%Z -> (0 < dim_embed)%Z ->
  MultiHeadAttention.heads (TranformerBlock.multi_head_attention blk) = []
  /\ (TranformerBlock.forward blk input = Raise ValueError
      \/ TranformerBlock.forward blk input = Raise RuntimeError)
  /\ (forall B T, shape input = [B; T; Z.to_nat dim_embed] ->
        TranformerBlock.forward blk input = Raise ValueError).
Proof.
  intros Hini Hnh _.
  assert (H : MultiHeadAttention.heads
                (TranformerBlock.multi_head_attention blk) = []
              /\ LayerNorm.normalized_shape (TranformerBlock.layer_norm1 blk)
                 = Z.to_nat dim_embed).
  { unfold TranformerBlock.init in Hini.
    apply bind_ok in Hini as (hs & _ & H). apply bind_ok in H as (mha & Hm & H).
    apply bind_ok in H as (ff & _ & H). apply bind_ok in H as (l1 & Hl1 & H).
    apply bind_ok in H as (l2 & _ & H). inversion H; subst; clear H.
    cbn [TranformerBlock.multi_head_attention TranformerBlock.layer_norm1].
    split; [|apply LayerNorm_init_ok; exact Hl1].
    apply MultiHeadAttention_init_heads in Hm as (Hlen & _).
    destruct (MultiHeadAttention.heads mha); [reflexivity|].
    cbn in Hlen. lia. }
  destruct H as [Hheads Hln].
  assert (Hcat : forall y,
            LayerNorm.forward (TranformerBlock.layer_norm1 blk) input = Ok y ->
            TranformerBlock.forward blk input = Raise ValueError).
  { intros y Hy. unfold TranformerBlock.forward. rewrite Hy. cbn [bind].
    unfold MultiHeadAttention.forward. rewrite Hheads. reflexivity. }
  split; [exact Hheads|]. split.
  - destruct (LayerNorm_forward_cases (TranformerBlock.layer_norm1 blk) input)
      as [(y & Hy) | Hy].
    + left. exact (Hcat y Hy).
    + right. unfold TranformerBlock.forward. rewrite Hy. reflexivity.
  - intros B T Hs.
    destruct (LayerNorm_forward_shape (TranformerBlock.layer_norm1 blk) input
                B T _ Hs Hln) as (y & Hy & _).
    exact (Hcat y Hy).
Qed.

Lemma block_without_heads_never_runs_witness :
  exists blk,
    TranformerBlock.init zero_init 8 (-2) 4 = Ok blk
    /\ MultiHeadAttention.heads (TranformerBlock.multi_head_attention blk) = []
    /\ (TranformerBlock.forward blk (ones [1; 4; 8]) = Raise ValueError
        \/ TranformerBlock.forward blk (ones [1; 4; 8]) = Raise RuntimeError)
    /\ TranformerBlock.forward blk (ones [1; 4; 8]) = Raise ValueError.
Proof.
  eexists. split; [reflexivity|].
  destruct (block_without_heads_never_runs zero_init 8 (-2) 4 _
              (ones [1; 4; 8]) eq_refl ltac:(lia) ltac:(lia))
    as (H1 & H2 & H3).
  split; [exact H1|]. split; [exact H2|].
  apply (H3 1 4). reflexivity.
Defined.

Lemma Embedding_init_succeeds ini (num dim : Z) :
  (0 <= num)%Z -> (0 <= dim)%Z -> exists e, Embedding.init ini num dim = Ok e.
Proof.
  intros Hn Hd. unfold Embedding.init.
  rewrite (check_dim_nonneg _ Hn), (check_dim_nonneg _ Hd). cbn [bind].
  eexists; reflexivity.
Qed.

(** X9. Construction of the language model, for non-negative
    vocabulary_size, dim_embed and max_length: with num_head >= 1 it
    succeeds and stacks max(num_layer, 0) blocks; with num_head = 0 it
    raises a ZeroDivisionError as soon as one block is requested, and
    succeeds without blocks otherwise. *)
Theorem language_model_construction
    (ini : Initializer)
    (vocabulary_size dim_embed max_length num_head num_layer : Z) :
  (0 <= vocabulary_size)%Z -> (0 <= dim_embed)%Z -> (0 <= max_length)%Z ->
  ((0 < num_head)%Z ->
   exists m,
     TutorialLLM.init ini vocabulary_size dim_embed max_length num_head
       num_layer = Ok m
     /\ length (TutorialLLM.transformer_blocks m) = Z.to_nat num_layer
     /\ model_dims m (Z.to_nat vocabulary_size) (Z.to_nat dim_embed)
          (Z.to_nat (dim_embed / num_head)) (Z.to_nat max_length))
  /\ ((0 < num_layer)%Z ->
      TutorialLLM.init ini vocabulary_size dim_embed max_length 0 num_layer
      = Raise ZeroDivisionError)
  /\ ((num_layer <= 0)%Z ->
      exists m,
        TutorialLLM.init ini vocabulary_size dim_embed max_length 0 num_layer
        = Ok m
        /\ TutorialLLM.transformer_blocks m = []).
Proof.
  intros HV HD HL.
  destruct (Embedding_init_succeeds (sub ini 0) _ _ HV HD) as (tok & Htok).
  destruct (Embedding_init_succeeds (sub ini 1) _ _ HL HD) as (pos & Hpos).
  destruct (LayerNorm_init_succeeds dim_embed HD) as (ln & Hln).
  destruct (Linear_init_succeeds (sub ini 4) dim_embed vocabulary_size true
              HD HV) as (p & Hp).
  split; [|split].
  - intros Hnh.
    destruct (mapM_all
                (fun i => TranformerBlock.init (sub (sub ini 2) i) dim_embed
                            num_head max_length)
                (fun _ => True) (seq 0 (Z.to_nat num_layer)))
      as (bl & Hbl & Hlen & _).
    { intros i _.
      destruct (TranformerBlock_init_succeeds (sub (sub ini 2) i) dim_embed
                  num_head max_length HD Hnh HL) as (blk & Hblk).
      exists blk. split; [exact Hblk | exact I]. }
    assert (Hini : TutorialLLM.init ini vocabulary_size dim_embed max_length
                     num_head num_layer
                   = Ok (TutorialLLM.mk (Z.to_nat max_length) tok pos bl ln p)).
    { unfold TutorialLLM.init. rewrite Htok, Hpos. cbn [bind].
      rewrite Hbl. cbn [bind]. rewrite Hln, Hp. reflexivity. }
    eexists. split; [exact Hini|]. split.
    + cbn. rewrite Hlen. apply length_seq.
    + apply (TutorialLLM_init_dims _ _ _ _ _ _ _ Hini Hnh).
  - intros Hnl. unfold TutorialLLM.init. rewrite Htok, Hpos. cbn [bind].
    destruct (Z.to_nat num_layer) as [|k] eqn:E; [lia|].
    cbn [seq mapM]. reflexivity.
  - intros Hnl. unfold TutorialLLM.init. rewrite Htok, Hpos. cbn [bind].
    replace (Z.to_nat num_layer) with 0 by lia. cbn [seq mapM bind].
    rewrite Hln, Hp. cbn [bind]. eexists. split; reflexivity.
Qed.

Lemma language_model_construction_witness :
  ((0 < 2)%Z ->
   exists m,
     TutorialLLM.init zero_init 5 8 4 2 3 = Ok m
     /\ length (TutorialLLM.transformer_blocks m) = Z.to_nat 3
     /\ model_dims m (Z.to_nat 5) (Z.to_nat 8) (Z.to_nat (8 / 2))
          (Z.to_nat 4))
  /\ ((0 < 3)%Z ->
      TutorialLLM.init zero_init 5 8 4 0 3 = Raise ZeroDivisionError)
  /\ ((3 <= 0)%Z ->
      exists m,
        TutorialLLM.init zero_init 5 8 4 0 3 = Ok m
        /\ TutorialLLM.transformer_blocks m = []).
Proof.
  apply (language_model_construction zero_init 5 8 4 2 3); lia.
Defined.

(** ** The cross-entropy loss *)

Lemma Rsum_term_le (n k : nat) (f : nat -> R) :
  k < n -> (forall j, j < n -> (0 <= f j)%R) -> (f k <= Rsum n f)%R.
Proof.
  induction n as [|n IH]; intros Hk Hf; [lia|].
  rewrite Rsum_S.
  assert (0 <= Rsum n f)%R by (apply Rsum_nonneg; intros; apply Hf; lia).
  assert (0 <= f n)%R by (apply Hf; lia).
  destruct (Nat.eq_dec k n) as [->|Hne]; [lra|].
  assert (f k <= Rsum n f)%R by (apply IH; [lia | intros; apply Hf; lia]).
  lra.
Qed.

Lemma Rsum_const (n : nat) (c : R) :
  Rsum n (fun _ => c) = (INR n * c)%R.
Proof.
  induction n as [|n IH].
  - rewrite Rsum_0. cbn. lra.
  - rewrite Rsum_S, IH, S_INR. lra.
Qed.

Lemma example_loss_nonneg (input : Tensor R) (target : Tensor Z) (C i : nat) :
  target_ok C (elem target [i]) = true ->
  (0 <= example_loss input target C i)%R.
Proof.
  intros Hok. unfold example_loss.
  destruct (Z.eqb_spec (elem target [i]) ignore_index) as [E|E]; [lra|].
  unfold target_ok in Hok. apply orb_true_iff in Hok as [Hok|Hok].
  { apply Z.eqb_eq in Hok. contradiction. }
  apply andb_true_iff in Hok as [H0 H1].
  apply Z.leb_le in H0. apply Z.ltb_lt in H1.
  set (y := Z.to_nat (elem target [i])).
  assert (Hy : y < C) by (subst y; lia).
  set (f := fun c => exp (elem input [i; c])).
  assert (Hle : (f y <= Rsum C f)%R).
  { apply Rsum_term_le; [exact Hy|]. intros j _. apply Rlt_le, exp_pos. }
  assert (Hln : (elem input [i; y] <= ln (Rsum C f))%R).
  { rewrite <- (ln_exp (elem input [i; y])).
    destruct Hle as [Hlt|Heq].
    - apply Rlt_le, ln_increasing; [apply exp_pos | exact Hlt].
    - subst f. cbv beta in Heq. rewrite Heq. lra. }
  lra.
Qed.

Lemma counted_pos (target : Tensor Z) (N i : nat) :
  i < N -> elem target [i] <> ignore_index -> 0 < counted target N.
Proof.
  intros Hi Hne. unfold counted.
  assert (Hin : In i (filter (fun i => negb (Z.eqb (elem target [i])
                                                 ignore_index)) (seq 0 N))).
  { apply filter_In. split; [apply in_seq; lia|].
    apply negb_true_iff, Z.eqb_neq. exact Hne. }
  destruct (filter _ (seq 0 N)); [destruct Hin | cbn; lia].
Qed.

(** X10. For targets that are classes of the vocabulary or the ignored
    value -100, the per-example losses (flag cleared) are never negative
    and are exactly zero at the ignored targets.  When at least one target
    is a class, the reduced loss (flag set) is their sum divided by the
    number of targets that are not ignored, a positive number, and it is
    not negative either. *)
Theorem loss_over_kept_targets
    (ini : Initializer)
    (vocabulary_size dim_embed max_length num_head num_layer : Z)
    (m : TutorialLLM.t) (ids labels : Tensor Z) (B T b0 t0 : nat) :
  TutorialLLM.init ini vocabulary_size dim_embed max_length num_head num_layer
    = Ok m ->
  (0 < num_head)%Z -> (0 < dim_embed)%Z ->
  shape ids = [B; T] -> (Z.of_nat T <= max_length)%Z ->
  ids_in_vocab ids B T (Z.to_nat vocabulary_size) ->
  shape labels = [B; T] ->
  (forall b t, b < B -> t < T ->
     elem labels [b; t] = ignore_index
     \/ (0 <= elem labels [b; t] < vocabulary_size)%Z) ->
  b0 < B -> t0 < T -> (0 <= elem labels [b0; t0] < vocabulary_size)%Z ->
  exists lg l1 lN,
    TutorialLLM.forward m ids (Some labels) true = Ok (lg, Some l1)
    /\ TutorialLLM.forward m ids (Some labels) false = Ok (lg, Some lN)
    /\ (forall b t, b < B -> t < T ->
          Rle 0 (elem lN [b * T + t])
          /\ (elem labels [b; t] = ignore_index ->
              elem lN [b * T + t] = 0%R))
    /\ 0 < counted (flat_view labels [B * T]) (B * T)
    /\ elem l1 []
       = Rdiv (Rsum (B * T) (fun i => elem lN [i]))
              (INR (counted (flat_view labels [B * T]) (B * T)))
    /\ (0 <= elem l1 [])%R.
Proof.
  intros Hini Hnh HD Hs HT Hv Hl Hlv Hb0 Ht0 Hkept.
  pose proof (TutorialLLM_init_dims _ _ _ _ _ _ _ Hini Hnh) as Hm.
  destruct (logits_of_shape m ids _ _ _ _ B T Hm ltac:(lia) Hs ltac:(lia) Hv)
    as (lg & Hlg & Hlgs).
  assert (Hok : forall b t, b < B -> t < T ->
            target_ok (Z.to_nat vocabulary_size) (elem labels [b; t]) = true).
  { intros b t Hb Ht. unfold target_ok. apply orb_true_iff.
    destruct (Hlv b t Hb Ht) as [E|E].
    - left. apply Z.eqb_eq. exact E.
    - right. apply andb_true_iff.
      split; [apply Z.leb_le | apply Z.ltb_lt]; lia. }
  assert (Hflat : forall i, i < B * T ->
            target_ok (Z.to_nat vocabulary_size)
              (elem (flat_view labels [B * T]) [i]) = true).
  { intros i Hi. cbn [flat_view elem]. rewrite Hl.
    destruct (unravel_matrix_lt B T i Hi) as (b & t & Hb & Ht & ->).
    apply Hok; assumption. }
  assert (Hcount : 0 < counted (flat_view labels [B * T]) (B * T)).
  { apply (counted_pos _ _ (b0 * T + t0)); [nia|].
    cbn [flat_view elem]. rewrite Hl, unravel_matrix by exact Ht0.
    unfold ignore_index. lia. }
  do 3 eexists.
  split; [apply (forward_labels m ids labels lg B T _ true Hlg Hlgs Hl Hok)|].
  split; [apply (forward_labels m ids labels lg B T _ false Hlg Hlgs Hl Hok)|].
  split; [|split; [exact Hcount|split]].
  - intros b t Hb Ht. cbn [loss_tensor elem lst last]. split.
    + apply example_loss_nonneg. apply Hflat. nia.
    + intros E. unfold example_loss. cbn [flat_view elem].
      rewrite Hl, unravel_matrix by exact Ht. rewrite E. reflexivity.
  - reflexivity.
  - cbn [loss_tensor elem]. unfold Rdiv.
    assert (Hsum : Rle 0 (Rsum (B * T)
                            (example_loss
                               (flat_view lg [B * T; Z.to_nat vocabulary_size])
                               (flat_view labels [B * T])
                               (Z.to_nat vocabulary_size)))).
    { apply Rsum_nonneg. intros i Hi. apply example_loss_nonneg, Hflat, Hi. }
    apply Rle_mult_inv_pos; [exact Hsum|]. apply lt_0_INR. exact Hcount.
Qed.

Lemma loss_over_kept_targets_witness :
  exists m,
    TutorialLLM.init zero_init 5 8 4 2 1 = Ok m
    /\ exists lg l1 lN,
         TutorialLLM.forward m (const_ids 1 4 1) (Some (labels_from 1 4 2 3))
           true = Ok (lg, Some l1)
         /\ TutorialLLM.forward m (const_ids 1 4 1)
              (Some (labels_from 1 4 2 3)) false = Ok (lg, Some lN)
         /\ (forall b t, b < 1 -> t < 4 ->
               Rle 0 (elem lN [b * 4 + t])
               /\ (elem (labels_from 1 4 2 3) [b; t] = ignore_index ->
                   elem lN [b * 4 + t] = 0%R))
         /\ 0 < counted (flat_view (labels_from 1 4 2 3) [1 * 4]) (1 * 4)
         /\ elem l1 []
            = Rdiv (Rsum (1 * 4) (fun i => elem lN [i]))
                   (INR (counted (flat_view (labels_from 1 4 2 3) [1 * 4])
                           (1 * 4)))
         /\ (0 <= elem l1 [])%R.
Proof.
  eexists. split; [reflexivity|].
  eapply (loss_over_kept_targets zero_init 5 8 4 2 1 _ _ _ 1 4 0 2).
  - reflexivity.
  - lia.
  - lia.
  - reflexivity.
  - simpl; lia.
  - intros b t _ _. simpl. lia.
  - reflexivity.
  - intros b t _ _. unfold labels_from. cbn [elem lst last].
    destruct (Nat.ltb t 2); [left; reflexivity | right; lia].
  - lia.
  - lia.
  - simpl. lia.
Defined.

(** ** The preference loss *)

Lemma losses_same_model (w : DpoWrapper.t) (pi pl ni nl : Tensor Z)
    (a c : Tensor R) :
  DpoWrapper.reference_model w = DpoWrapper.aligned_model w ->
  DpoWrapper.loss_of (DpoWrapper.aligned_model w) pi pl = Ok a ->
  DpoWrapper.loss_of (DpoWrapper.aligned_model w) ni nl = Ok c ->
  DpoWrapper.losses w pi pl ni nl = Ok (DpoWrapper.mkLosses a c a c).
Proof.
  intros Hr Ha Hc. unfold DpoWrapper.losses. rewrite Hr, Ha, Hc. reflexivity.
Qed.

Lemma logsigmoid_neg (x : R) : (logsigmoid x < 0)%R.
Proof.
  unfold logsigmoid.
  assert (0 < ln (1 + exp (- x)))%R; [|lra].
  rewrite <- ln_1. apply ln_increasing; [lra|].
  pose proof (exp_pos (- x)). lra.
Qed.

Lemma logsigmoid_0 : logsigmoid 0 = (- ln 2)%R.
Proof.
  unfold logsigmoid. rewrite Ropp_0, exp_0.
  replace (1 + 1)%R with 2%R by lra. reflexivity.
Qed.

Lemma Rsum_neg (n : nat) (f : nat -> R) :
  0 < n -> (forall k, k < n -> (f k < 0)%R) -> (Rsum n f < 0)%R.
Proof.
  intros Hn H.
  assert (Hp : (0 < Rsum n (fun k => - f k))%R).
  { apply Rsum_pos; [exact Hn|]. intros k Hk. specialize (H k Hk). lra. }
  assert (E : Rsum n (fun k => (- f k)%R) = (- Rsum n f)%R).
  { clear. induction n as [|n IH].
    - rewrite !Rsum_0. lra.
    - rewrite !Rsum_S, IH. lra. }
  rewrite E in Hp. lra.
Qed.

(** X11. Right after construction the reference model is the aligned model,
    so on every pair of batches with at least one token the mean reward
    margin is 0 and the loss is ln 2, whatever beta and positive_weight. *)
Theorem dpo_fresh_wrapper_loss
    (ini : Initializer)
    (vocabulary_size dim_embed max_length num_head num_layer : Z)
    (model : TutorialLLM.t) (beta positive_weight : R)
    (pi pl ni nl : Tensor Z) (B T : nat) :
  TutorialLLM.init ini vocabulary_size dim_embed max_length num_head num_layer
    = Ok model ->
  (0 < num_head)%Z -> (0 < dim_embed)%Z ->
  (Z.of_nat T <= max_length)%Z -> 0 < B * T ->
  shape pi = [B; T] -> ids_in_vocab pi B T (Z.to_nat vocabulary_size) ->
  shape pl = [B; T] -> labels_in_vocab pl B T (Z.to_nat vocabulary_size) ->
  shape ni = [B; T] -> ids_in_vocab ni B T (Z.to_nat vocabulary_size) ->
  shape nl = [B; T] -> labels_in_vocab nl B T (Z.to_nat vocabulary_size) ->
  exists loss margin,
    DpoWrapper.forward (DpoWrapper.init model beta positive_weight)
      pi pl ni nl = Ok (loss, margin)
    /\ elem margin [] = 0%R
    /\ elem loss [] = ln 2.
Proof.
  intros Hini Hnh HD HT HN Hpi Hpv Hpl Hplv Hni Hnv Hnl Hnlv.
  pose proof (TutorialLLM_init_dims _ _ _ _ _ _ _ Hini Hnh) as Hm.
  set (w := DpoWrapper.init model beta positive_weight).
  destruct (loss_of_shape model pi pl _ _ _ _ B T Hm ltac:(lia) Hpi ltac:(lia)
              Hpv Hpl Hplv) as (a & Ha & Has).
  destruct (loss_of_shape model ni nl _ _ _ _ B T Hm ltac:(lia) Hni ltac:(lia)
              Hnv Hnl Hnlv) as (c & Hc & Hcs).
  pose proof (losses_same_model w pi pl ni nl a c eq_refl Ha Hc) as Hl.
  destruct (combine_losses_value w (DpoWrapper.mkLosses a c a c) (B * T)
              Has Hcs Has Hcs eq_refl)
    as (loss & margin & Hcomb & _ & _ & Hlv & Hmv).
  exists loss, margin.
  split; [unfold DpoWrapper.forward; rewrite Hl; exact Hcomb|].
  assert (Hz : forall i,
            reward_margin_at (DpoWrapper.positive_weight w)
              (DpoWrapper.mkLosses a c a c) i = 0%R).
  { intros i. unfold reward_margin_at, positive_reward_at, negative_reward_at.
    cbn. ring. }
  assert (HNR : INR (B * T) <> 0%R) by (apply not_0_INR; lia).
  split.
  - rewrite Hmv. rewrite (Rsum_ext _ _ (fun _ => 0%R)) by (intros; apply Hz).
    rewrite Rsum_const. field. exact HNR.
  - rewrite Hlv.
    rewrite (Rsum_ext _ _ (fun _ => (- ln 2)%R)).
    + rewrite Rsum_const. field. exact HNR.
    + intros i _. rewrite Hz, Rmult_0_r. apply logsigmoid_0.
Qed.

Lemma dpo_fresh_wrapper_loss_witness :
  exists m,
    TutorialLLM.init zero_init 5 8 4 2 1 = Ok m
    /\ exists loss margin,
         DpoWrapper.forward (DpoWrapper.init m (1 / 10) (4 / 5))
           (const_ids 1 4 1) (const_ids 1 4 2)
           (const_ids 1 4 1) (const_ids 1 4 3) = Ok (loss, margin)
         /\ elem margin [] = 0%R
         /\ elem loss [] = ln 2.
Proof.
  eexists. split; [reflexivity|].
  eapply (dpo_fresh_wrapper_loss zero_init 5 8 4 2 1 _ _ _ _ _ _ _ 1 4).
  - reflexivity.
  - lia.
  - lia.
  - simpl; lia.
  - simpl; lia.
  - reflexivity.
  - intros b t _ _. simpl. lia.
  - reflexivity.
  - intros b t _ _. simpl. lia.
  - reflexivity.
  - intros b t _ _. simpl. lia.
  - reflexivity.
  - intros b t _ _. simpl. lia.
Defined.

(** X12. Whatever the two models, the loss returned for batches with at
    least one token is not negative: it is minus a mean of log-sigmoid
    values, none of which is positive. *)
Theorem dpo_loss_not_negative
    (ini ini' : Initializer)
    (vocabulary_size dim_embed max_length num_head num_layer : Z)
    (model aligned : TutorialLLM.t) (beta positive_weight : R)
    (pi pl ni nl : Tensor Z) (B T : nat) :
  TutorialLLM.init ini vocabulary_size dim_embed max_length num_head num_layer
    = Ok model ->
  TutorialLLM.init ini' vocabulary_size dim_embed max_length num_head num_layer
    = Ok aligned ->
  (0 < num_head)%Z -> (0 < dim_embed)%Z ->
  (Z.of_nat T <= max_length)%Z -> 0 < B * T ->
  shape pi = [B; T] -> ids_in_vocab pi B T (Z.to_nat vocabulary_size) ->
  shape pl = [B; T] -> labels_in_vocab pl B T (Z.to_nat vocabulary_size) ->
  shape ni = [B; T] -> ids_in_vocab ni B T (Z.to_nat vocabulary_size) ->
  shape nl = [B; T] -> labels_in_vocab nl B T (Z.to_nat vocabulary_size) ->
  exists loss margin,
    DpoWrapper.forward
      (trained (DpoWrapper.init model beta positive_weight) aligned)
      pi pl ni nl = Ok (loss, margin)
    /\ (0 <= elem loss [])%R.
Proof.
  intros Hm Ha Hnh HD HT HN Hpi Hpv Hpl Hplv Hni Hnv Hnl Hnlv.
  set (w := trained (DpoWrapper.init model beta positive_weight) aligned).
  destruct (losses_shape w (Z.to_nat vocabulary_size) (Z.to_nat dim_embed)
              (Z.to_nat (dim_embed / num_head)) (Z.to_nat max_length)
              B T T pi pl ni nl)
    as (l & Hl & H1 & H2 & H3 & H4); try assumption; try lia.
  - apply (TutorialLLM_init_dims _ _ _ _ _ _ _ Ha Hnh).
  - apply (TutorialLLM_init_dims _ _ _ _ _ _ _ Hm Hnh).
  - destruct (combine_losses_value w l (B * T) H1 H2 H3 H4 eq_refl)
      as (loss & margin & Hc & _ & _ & Hlv & _).
    exists loss, margin.
    split; [unfold DpoWrapper.forward; rewrite Hl; exact Hc|].
    rewrite Hlv.
    assert (Hs : (Rsum (B * T) (fun i =>
                    logsigmoid (DpoWrapper.beta w
                      * reward_margin_at (DpoWrapper.positive_weight w) l i))
                  <= 0)%R).
    { apply Rlt_le, Rsum_neg; [exact HN|]. intros k _. apply logsigmoid_neg. }
    assert (Hi : (0 < / INR (B * T))%R)
      by (apply Rinv_0_lt_compat, lt_0_INR; exact HN).
    unfold Rdiv. nra.
Qed.

Lemma dpo_loss_not_negative_witness :
  exists m,
    TutorialLLM.init zero_init 5 8 4 2 1 = Ok m
    /\ exists loss margin,
         DpoWrapper.forward (trained (DpoWrapper.init m (1 / 10) (4 / 5)) m)
           (const_ids 1 4 1) (const_ids 1 4 2)
           (const_ids 1 4 1) (const_ids 1 4 3) = Ok (loss, margin)
         /\ (0 <= elem loss [])%R.
Proof.
  eexists. split; [reflexivity|].
  eapply (dpo_loss_not_negative zero_init zero_init 5 8 4 2 1 _ _ _ _ _ _ _ _ 1 4).
  - reflexivity.
  - reflexivity.
  - lia.
  - lia.
  - simpl; lia.
  - simpl; lia.
  - reflexivity.
  - intros b t _ _. simpl. lia.
  - reflexivity.
  - intros b t _ _. simpl. lia.
  - reflexivity.
  - intros b t _ _. simpl. lia.
  - reflexivity.
  - intros b t _ _. simpl. lia.
Defined.

Lemma broadcast_vectors_mismatch (a b : nat) :
  a <> b -> a <> 1 -> b <> 1 -> broadcast_shapes [a] [b] = None.
Proof.
  intros Hab Ha Hb. unfold broadcast_shapes. cbn.
  destruct (Nat.eqb_spec a b); [lia|].
  destruct (Nat.eqb_spec a 1); [lia|].
  destruct (Nat.eqb_spec b 1); [lia|]. reflexivity.
Qed.

(** X13. When the positive and the negative batch hold different numbers
    of tokens, neither of them a single token, the four losses are computed
    but the rewards cannot be combined: [DpoWrapper.forward] raises a
    RuntimeError. *)
Theorem dpo_rejects_unequal_batches
    (ini ini' : Initializer)
    (vocabulary_size dim_embed max_length num_head num_layer : Z)
    (model aligned : TutorialLLM.t) (beta positive_weight : R)
    (pi pl ni nl : Tensor Z) (B Tp Tn : nat) :
  TutorialLLM.init ini vocabulary_size dim_embed max_length num_head num_layer
    = Ok model ->
  TutorialLLM.init ini' vocabulary_size dim_embed max_length num_head num_layer
    = Ok aligned ->
  (0 < num_head)%Z -> (0 < dim_embed)%Z ->
  shape pi = [B; Tp] -> (Z.of_nat Tp <= max_length)%Z ->
  ids_in_vocab pi B Tp (Z.to_nat vocabulary_size) ->
  shape pl = [B; Tp] -> labels_in_vocab pl B Tp (Z.to_nat vocabulary_size) ->
  shape ni = [B; Tn] -> (Z.of_nat Tn <= max_length)%Z ->
  ids_in_vocab ni B Tn (Z.to_nat vocabulary_size) ->
  shape nl = [B; Tn] -> labels_in_vocab nl B Tn (Z.to_nat vocabulary_size) ->
  B * Tp <> B * Tn -> B * Tp <> 1 -> B * Tn <> 1 ->
  (exists l,
     DpoWrapper.losses
       (trained (DpoWrapper.init model beta positive_weight) aligned)
       pi pl ni nl = Ok l)
  /\ DpoWrapper.forward
       (trained (DpoWrapper.init model beta positive_weight) aligned)
       pi pl ni nl = Raise RuntimeError.
Proof.
  intros Hm Ha Hnh HD Hpi HTp Hpv Hpl Hplv Hni HTn Hnv Hnl Hnlv Hne Hp1 Hn1.
  set (w := trained (DpoWrapper.init model beta positive_weight) aligned).
  destruct (losses_shape w (Z.to_nat vocabulary_size) (Z.to_nat dim_embed)
              (Z.to_nat (dim_embed / num_head)) (Z.to_nat max_length)
              B Tp Tn pi pl ni nl)
    as (l & Hl & H1 & H2 & H3 & H4); try assumption; try lia.
  - apply (TutorialLLM_init_dims _ _ _ _ _ _ _ Ha Hnh).
  - apply (TutorialLLM_init_dims _ _ _ _ _ _ _ Hm Hnh).
  - split; [exists l; exact Hl|].
    unfold DpoWrapper.forward. rewrite Hl. cbn [bind].
    unfold DpoWrapper.combine_losses, zip_broadcast.
    rewrite H1, H2, H3, H4. rewrite !broadcast_shapes_same.
    cbn [bind shape tmap].
    rewrite (broadcast_vectors_mismatch _ _ Hne Hp1 Hn1). reflexivity.
Qed.

Lemma dpo_rejects_unequal_batches_witness :
  exists m,
    TutorialLLM.init zero_init 5 8 4 2 1 = Ok m
    /\ (exists l,
          DpoWrapper.losses (trained (DpoWrapper.init m (1 / 10) (4 / 5)) m)
            (const_ids 1 4 1) (const_ids 1 4 2)
            (const_ids 1 3 1) (const_ids 1 3 3) = Ok l)
    /\ DpoWrapper.forward (trained (DpoWrapper.init m (1 / 10) (4 / 5)) m)
         (const_ids 1 4 1) (const_ids 1 4 2)
         (const_ids 1 3 1) (const_ids 1 3 3) = Raise RuntimeError.
Proof.
  eexists. split; [reflexivity|].
  eapply (dpo_rejects_unequal_batches zero_init zero_init 5 8 4 2 1
            _ _ _ _ _ _ _ _ 1 4 3).
  - reflexivity.
  - reflexivity.
  - lia.
  - lia.
  - reflexivity.
  - simpl; lia.
  - intros b t _ _. simpl. lia.
  - reflexivity.
  - intros b t _ _. simpl. lia.
  - reflexivity.
  - simpl; lia.
  - intros b t _ _. simpl. lia.
  - reflexivity.
  - intros b t _ _. simpl. lia.
  - simpl; lia.
  - simpl; lia.
  - simpl; lia.
Defined.

(** ** Generated tokens *)

(** X14. Every token of the sequence [generate] returns for a prompt of
    valid ids is a valid id: what is generated can be fed back to the model
    or decoded. *)
Theorem generate_stays_in_vocabulary
    (smp : Sampler) (ini : Initializer)
    (vocabulary_size dim_embed max_length num_head num_layer : Z)
    (m : TutorialLLM.t) (prompt : Tensor Z) (T n : nat) (g : rng smp) :
  sampler_ok smp ->
  TutorialLLM.init ini vocabulary_size dim_embed max_length num_head num_layer
    = Ok m ->
  (0 < num_head)%Z -> (0 < dim_embed)%Z -> (0 < max_length)%Z ->
  shape prompt = [1; T] -> 0 < T ->
  ids_in_vocab prompt 1 T (Z.to_nat vocabulary_size) ->
  exists out g',
    TutorialLLM.generate smp m prompt n g = Ok (out, g')
    /\ Forall (fun x => (0 <= x < vocabulary_size)%Z) (row out 0).
Proof.
  intros Hok Hini Hnh HD HL Hs HT Hv.
  pose proof (TutorialLLM_init_dims _ _ _ _ _ _ _ Hini Hnh) as Hm.
  assert (HV : 0 < Z.to_nat vocabulary_size)
    by (specialize (Hv 0 0 ltac:(lia) HT); lia).
  destruct (generate_value smp m _ _ _ _ Hok Hm ltac:(lia) ltac:(lia) HV
              n prompt T g Hs HT Hv)
    as (out & g' & gen & H1 & H2 & _ & _ & _ & _ & Hov).
  exists out, g'. split; [exact H1|].
  unfold row. rewrite H2. cbn [lst last].
  apply Forall_forall. intros x Hx.
  apply in_map_iff in Hx as (t & <- & Ht). apply in_seq in Ht.
  specialize (Hov 0 t ltac:(lia) ltac:(lia)). lia.
Qed.

Lemma generate_stays_in_vocabulary_witness :
  exists m,
    TutorialLLM.init zero_init 5 8 4 2 1 = Ok m
    /\ exists out g',
         TutorialLLM.generate always_last m (const_ids 1 6 1) 3 tt
         = Ok (out, g')
         /\ Forall (fun x => (0 <= x < 5)%Z) (row out 0).
Proof.
  eexists. split; [reflexivity|].
  eapply (generate_stays_in_vocabulary always_last zero_init 5 8 4 2 1).
  - intros g p V HV. simpl. lia.
  - reflexivity.
  - lia.
  - lia.
  - lia.
  - reflexivity.
  - lia.
  - intros b t _ _. simpl. lia.
Defined.

(** ** What an output position reads *)

Lemma bidx_in_range (s idx : list nat) :
  Forall2 lt idx s -> bidx s idx = idx.
Proof.
  intros H. unfold bidx.
  rewrite (Forall2_length H), Nat.sub_diag. cbn [skipn].
  induction H as [|i d idx s Hi _ IH]; [reflexivity|].
  cbn [combine map fst snd]. rewrite IH. f_equal.
  destruct (Nat.eqb_spec d 1); lia.
Qed.

Lemma zip_same_elem {A B C : Type} (f : A -> B -> C) (a : Tensor A)
    (b : Tensor B) (y : Tensor C) (s idx : list nat) :
  shape a = s -> shape b = s -> zip_broadcast f a b = Ok y ->
  Forall2 lt idx s -> elem y idx = f (elem a idx) (elem b idx).
Proof.
  intros Ha Hb Hy Hidx. unfold zip_broadcast in Hy.
  rewrite Ha, Hb, broadcast_shapes_same in Hy. inversion Hy; subst y.
  cbn [elem]. rewrite (bidx_in_range s idx Hidx). reflexivity.
Qed.

Lemma Linear_forward_elem (l : Linear.t) (x y : Tensor R) :
  Linear.forward l x = Ok y ->
  forall b t o,
    elem y [b; t; o]
    = (Rsum (Linear.in_features l) (fun k =>
         elem x [b; t; k] * elem (Linear.weight l) [o; k])
       + match Linear.bias l with
         | Some bias => elem bias [o]
         | None => 0
         end)%R.
Proof.
  unfold Linear.forward. destruct (shape x); [discriminate|].
  destruct (negb _); [discriminate|].
  intros H. inversion H; subst y. intros b t o. reflexivity.
Qed.

Lemma causal_ext (L : nat) (f g : Tensor R -> result (Tensor R))
    (Din Dout : nat) :
  (forall x, f x = g x) -> causal_op L g Din Dout -> causal_op L f Din Dout.
Proof.
  intros E Hg x B T Hs HT.
  destruct (Hg x B T Hs HT) as (y & Hy & Hys & Hloc).
  exists y. split; [rewrite E; exact Hy|]. split; [exact Hys|].
  intros x' B' T' y' b i Hs' HT' Hy'. rewrite E in Hy'.
  apply (Hloc x' B' T' y' b i Hs' HT' Hy').
Qed.

Lemma causal_bind (L : nat) (f g : Tensor R -> result (Tensor R))
    (D1 D2 D3 : nat) :
  causal_op L f D1 D2 -> causal_op L g D2 D3 ->
  causal_op L (fun x => y <- f x ;; g y) D1 D3.
Proof.
  intros Hf Hg x B T Hs HT.
  destruct (Hf x B T Hs HT) as (y & Hy & Hys & Hloc).
  destruct (Hg y B T Hys HT) as (z & Hz & Hzs & Hloc2).
  exists z. split; [rewrite Hy; exact Hz|]. split; [exact Hzs|].
  intros x' B' T' z' b i Hs' HT' Hz' Hb Hb' Hi Hi' Hsame.
  destruct (Hf x' B' T' Hs' HT') as (y' & Hy' & Hys' & _).
  rewrite Hy' in Hz'. cbn [bind] in Hz'.
  apply (Hloc2 y' B' T' z' b i Hys' HT' Hz' Hb Hb' Hi Hi').
  apply (Hloc x' B' T' y' b i Hs' HT' Hy' Hb Hb' Hi Hi' Hsame).
Qed.

Lemma causal_residual (L : nat) (f : Tensor R -> result (Tensor R))
    (D : nat) :
  causal_op L f D D ->
  causal_op L (fun x => y <- f x ;; zip_broadcast Rplus x y) D D.
Proof.
  intros Hf x B T Hs HT.
  destruct (Hf x B T Hs HT) as (y & Hy & Hys & Hloc).
  destruct (zip_same_shape Rplus x y _ Hs Hys) as (z & Hz & Hzs).
  exists z. split; [rewrite Hy; exact Hz|]. split; [exact Hzs|].
  intros x' B' T' z' b i Hs' HT' Hz' Hb Hb' Hi Hi' Hsame.
  destruct (Hf x' B' T' Hs' HT') as (y' & Hy' & Hys' & _).
  rewrite Hy' in Hz'. cbn [bind] in Hz'.
  pose proof (Hloc x' B' T' y' b i Hs' HT' Hy' Hb Hb' Hi Hi' Hsame) as Hyy.
  intros t d Ht Hd.
  rewrite (zip_same_elem Rplus x y z _ [b; t; d] Hs Hys Hz)
    by (repeat constructor; lia).
  rewrite (zip_same_elem Rplus x' y' z' _ [b; t; d] Hs' Hys' Hz')
    by (repeat constructor; lia).
  rewrite (Hsame t d Ht Hd), (Hyy t d Ht Hd). reflexivity.
Qed.

Lemma causal_linear (L : nat) (l : Linear.t) :
  causal_op L (Linear.forward l) (Linear.in_features l)
    (Linear.out_features l).
Proof.
  intros x B T Hs HT.
  destruct (Linear_forward_shape l x B T _ Hs eq_refl) as (y & Hy & Hys).
  exists y. split; [exact Hy|]. split; [exact Hys|].
  intros x' B' T' y' b i Hs' HT' Hy' Hb Hb' Hi Hi' Hsame t d Ht Hd.
  rewrite (Linear_forward_elem l x y Hy), (Linear_forward_elem l x' y' Hy').
  f_equal. apply Rsum_ext. intros k Hk. rewrite (Hsame t k Ht Hk).
  reflexivity.
Qed.

Lemma causal_map (L D : nat) (g : R -> R) :
  causal_op L (fun x => Ok (tmap g x)) D D.
Proof.
  intros x B T Hs HT. exists (tmap g x).
  split; [reflexivity|]. split; [exact Hs|].
  intros x' B' T' y' b i _ _ Hy' _ _ _ _ Hsame t d Ht Hd.
  inversion Hy'; subst y'. cbn [tmap elem]. rewrite (Hsame t d Ht Hd).
  reflexivity.
Qed.

Lemma LayerNorm_forward_elem (l : LayerNorm.t) (x y : Tensor R) :
  LayerNorm.forward l x = Ok y ->
  forall b t d,
    let n := LayerNorm.normalized_shape l in
    let mu := (Rsum n (fun k => elem x [b; t; k]) / INR n)%R in
    let var := (Rsum n (fun k => (elem x [b; t; k] - mu) ^ 2) / INR n)%R in
    elem y [b; t; d]
    = ((elem x [b; t; d] - mu) / sqrt (var + LayerNorm.eps l)
       * elem (LayerNorm.weight l) [d] + elem (LayerNorm.bias l) [d])%R.
Proof.
  unfold LayerNorm.forward. destruct (shape x); [discriminate|].
  destruct (negb _); [discriminate|].
  intros H. inversion H; subst y. intros b t d. reflexivity.
Qed.

Lemma causal_layernorm (L : nat) (l : LayerNorm.t) :
  causal_op L (LayerNorm.forward l) (LayerNorm.normalized_shape l)
    (LayerNorm.normalized_shape l).
Proof.
  intros x B T Hs HT.
  destruct (LayerNorm_forward_shape l x B T _ Hs eq_refl) as (y & Hy & Hys).
  exists y. split; [exact Hy|]. split; [exact Hys|].
  intros x' B' T' y' b i Hs' HT' Hy' Hb Hb' Hi Hi' Hsame t d Ht Hd.
  rewrite (LayerNorm_forward_elem l x y Hy),
    (LayerNorm_forward_elem l x' y' Hy').
  cbv zeta.
  assert (Emu : Rsum (LayerNorm.normalized_shape l)
                  (fun k => elem x [b; t; k])
                = Rsum (LayerNorm.normalized_shape l)
                    (fun k => elem x' [b; t; k])).
  { apply Rsum_ext. intros k Hk. apply (Hsame t k Ht Hk). }
  rewrite Emu.
  assert (Evar : forall mu,
            Rsum (LayerNorm.normalized_shape l)
              (fun k => ((elem x [b; t; k] - mu) ^ 2)%R)
            = Rsum (LayerNorm.normalized_shape l)
                (fun k => ((elem x' [b; t; k] - mu) ^ 2)%R)).
  { intros mu. apply Rsum_ext. intros k Hk. rewrite (Hsame t k Ht Hk).
    reflexivity. }
  rewrite Evar, (Hsame t d Ht Hd). reflexivity.
Qed.

Lemma AttentionHead_forward_elem (h : AttentionHead.t) (x : Tensor R)
    (B T D hs L : nat) :
  head_dims h D hs L -> shape x = [B; T; D] -> 0 < D -> T <= L ->
  exists y, AttentionHead.forward h x = Ok y
    /\ shape y = [B; T; hs]
    /\ forall b t o, t < T -> elem y [b; t; o] = head_output h x D b t o.
Proof.
  intros Hd Hs HD HT.
  destruct (Linear_forward_shape _ _ _ _ _ Hs (hd_value_in _ _ _ _ Hd))
    as (v & Hv & Hvs).
  rewrite (hd_value_out _ _ _ _ Hd) in Hvs.
  destruct (attention_value _ _ _ _ _ _ _ Hd Hs HD HT)
    as (s & w & Hsc & Hw & Hws & Hwe).
  destruct (scores_value _ _ _ _ _ _ _ Hd Hs HD) as (s' & Hsc' & _ & Hse).
  rewrite Hsc in Hsc'. inversion Hsc'; subst s'. clear Hsc'.
  unfold AttentionHead.forward. rewrite Hs, Hv. cbn [bind]. rewrite Hw.
  cbn [bind]. unfold matmul. rewrite Hws, Hvs. cbn -[Rsum].
  rewrite list_nat_eqb_refl, Nat.eqb_refl. cbn -[Rsum].
  eexists. split; [reflexivity|]. split; [reflexivity|].
  intros b t o Ht. cbn -[Rsum]. unfold head_output.
  rewrite (Rsum_zero_tail T (S t)); [|lia|].
  - apply Rsum_ext. intros j Hj.
    rewrite (Hwe b t j Ht ltac:(lia)).
    destruct (Nat.ltb_spec t j); [lia|].
    rewrite (Linear_forward_elem _ _ _ Hv), (hd_value_bias _ _ _ _ Hd).
    unfold attention_weight, projected. rewrite Hse.
    f_equal; [|lra].
    f_equal. apply Rsum_ext. intros k _. rewrite Hse. reflexivity.
  - intros j Hj. rewrite (Hwe b t j Ht ltac:(lia)).
    destruct (Nat.ltb_spec t j); [|lia]. unfold Rdiv. lra.
Qed.

Lemma projected_local (l : Linear.t) (x x' : Tensor R) (b i t o : nat) :
  same_upto b i (Linear.in_features l) x x' -> t <= i ->
  projected l x b t o = projected l x' b t o.
Proof.
  intros Hsame Ht. unfold projected. apply Rsum_ext. intros d Hd.
  rewrite (Hsame t d Ht Hd). reflexivity.
Qed.

Lemma head_output_local (h : AttentionHead.t) (x x' : Tensor R)
    (D hs L b i t o : nat) :
  head_dims h D hs L -> same_upto b i D x x' -> t <= i ->
  head_output h x D b t o = head_output h x' D b t o.
Proof.
  intros Hd Hsame Ht.
  assert (Haff : forall j, j <= t ->
            affinity h x b t j = affinity h x' b t j).
  { intros j Hj. unfold affinity. apply Rsum_ext. intros k _.
    rewrite (projected_local (AttentionHead.project_to_query h) x x' b i t k),
      (projected_local (AttentionHead.project_to_key h) x x' b i j k);
      try reflexivity; try lia.
    - rewrite (hd_key_in _ _ _ _ Hd). exact Hsame.
    - rewrite (hd_query_in _ _ _ _ Hd). exact Hsame. }
  unfold head_output. apply Rsum_ext. intros j Hj.
  unfold attention_weight.
  rewrite (Haff j ltac:(lia)).
  rewrite (Rsum_ext (S t) _
             (fun k => exp (affinity h x' b t k / sqrt (INR D))))
    by (intros k Hk; rewrite (Haff k ltac:(lia)); reflexivity).
  rewrite (projected_local (AttentionHead.project_to_value h) x x' b i j o);
    [reflexivity | | lia].
  rewrite (hd_value_in _ _ _ _ Hd). exact Hsame.
Qed.

Lemma causal_head (h : AttentionHead.t) (D hs L : nat) :
  head_dims h D hs L -> 0 < D ->
  causal_op L (AttentionHead.forward h) D hs.
Proof.
  intros Hd HD x B T Hs HT.
  destruct (AttentionHead_forward_elem h x B T D hs L Hd Hs HD HT)
    as (y & Hy & Hys & Hye).
  exists y. split; [exact Hy|]. split; [exact Hys|].
  intros x' B' T' y' b i Hs' HT' Hy' Hb Hb' Hi Hi' Hsame t d Ht Hd'.
  destruct (AttentionHead_forward_elem h x' B' T' D hs L Hd Hs' HD HT')
    as (y0 & Hy0 & _ & Hye').
  rewrite Hy' in Hy0. inversion Hy0; subst y0.
  rewrite (Hye b t d ltac:(lia)), (Hye' b t d ltac:(lia)).
  apply (head_output_local h x x' D hs L b i t d Hd Hsame Ht).
Qed.

Lemma mapM_Forall2 {A B : Type} (f : A -> result B) (l : list A)
    (bs : list B) :
  mapM f l = Ok bs -> Forall2 (fun a b => f a = Ok b) l bs.
Proof.
  revert bs. induction l as [|a l IH]; cbn [mapM]; intros bs H.
  - inversion H. constructor.
  - apply bind_ok in H as (b & Hb & H). apply bind_ok in H as (bs0 & Hbs & H).
    inversion H; subst. constructor; [exact Hb | apply IH; exact Hbs].
Qed.

Lemma cat_last_elem {A : Type} (ts : list (Tensor A)) (y : Tensor A) :
  cat_last ts = Ok y ->
  forall b t d,
    exists dflt, elem y [b; t; d] = cat_elem ts dflt [b; t] d.
Proof.
  unfold cat_last. destruct ts as [|x ts]; [discriminate|].
  destruct (forallb _ _); [|discriminate].
  intros H. inversion H; subst y. intros b t d. eexists. reflexivity.
Qed.

(** The concatenation of per-head outputs that agree pairwise agrees. *)
Lemma cat_elem_local (outs outs' : list (Tensor R)) (hs b t : nat) :
  Forall2 (fun y y' =>
             lst (shape y) = hs /\ lst (shape y') = hs
             /\ forall d, d < hs -> elem y [b; t; d] = elem y' [b; t; d])
    outs outs' ->
  forall d dflt dflt', d < length outs * hs ->
    cat_elem outs dflt [b; t] d = cat_elem outs' dflt' [b; t] d.
Proof.
  induction 1 as [|y y' outs outs' (Hy & Hy' & Hyy) _ IH];
    intros d dflt dflt' Hd; [cbn in Hd; lia|].
  cbn [cat_elem]. rewrite Hy, Hy'.
  destruct (Nat.ltb_spec d hs) as [Hlt|Hge].
  - cbn [app]. apply Hyy. exact Hlt.
  - apply IH. cbn [length Nat.mul] in Hd. lia.
Qed.

Lemma causal_multi_head (m : MultiHeadAttention.t) (D hs L : nat) :
  MultiHeadAttention.heads m <> [] ->
  Forall (fun h => head_dims h D hs L) (MultiHeadAttention.heads m) ->
  Linear.in_features (MultiHeadAttention.project m)
    = length (MultiHeadAttention.heads m) * hs ->
  0 < D ->
  causal_op L (MultiHeadAttention.forward m) D
    (Linear.out_features (MultiHeadAttention.project m)).
Proof.
  intros Hne Hall Hin HD x B T Hs HT.
  destruct (MultiHeadAttention_forward_shape m x B T D hs L Hne Hall Hin Hs
              HD HT) as (y & Hy & Hys).
  exists y. split; [exact Hy|]. split; [exact Hys|].
  intros x' B' T' y' b i Hs' HT' Hy' Hb Hb' Hi Hi' Hsame.
  unfold MultiHeadAttention.forward in Hy, Hy'.
  apply bind_ok in Hy as (outs & Houts & Hy).
  apply bind_ok in Hy as (c & Hc & Hy).
  apply bind_ok in Hy' as (outs' & Houts' & Hy').
  apply bind_ok in Hy' as (c' & Hc' & Hy').
  apply mapM_Forall2 in Houts. apply mapM_Forall2 in Houts'.
  assert (Hlen : length outs = length (MultiHeadAttention.heads m))
    by (symmetry; apply (Forall2_length Houts)).
  assert (Hpair : Forall2 (fun o o' =>
            (shape o = [B; T; hs] /\ shape o' = [B'; T'; hs])
            /\ same_upto b i hs o o') outs outs').
  { clear Hc Hc' Hy Hy' Hlen Hne Hin. revert outs outs' Houts Houts'.
    induction Hall as [|h l Hh _ IH]; intros outs outs' Ho Ho'.
    - inversion Ho; inversion Ho'; constructor.
    - inversion Ho as [|? o ? os Hfo Hos]; subst.
      inversion Ho' as [|? o' ? os' Hfo' Hos']; subst.
      constructor; [|apply IH; assumption].
      destruct (causal_head h D hs L Hh HD x B T Hs HT)
        as (o0 & Ho0 & Ho0s & Hloc).
      rewrite Hfo in Ho0. inversion Ho0; subst o0.
      destruct (causal_head h D hs L Hh HD x' B' T' Hs' HT')
        as (o1 & Ho1 & Ho1s & _).
      rewrite Hfo' in Ho1. inversion Ho1; subst o1.
      split; [split; assumption|].
      apply (Hloc x' B' T' o' b i Hs' HT' Hfo' Hb Hb' Hi Hi' Hsame). }
  assert (Hcs : shape c = [B; T; length outs * hs]
                /\ shape c' = [B'; T'; length outs' * hs]).
  { assert (Hne1 : outs <> []).
    { intros E. rewrite E in Hlen. destruct (MultiHeadAttention.heads m);
        [congruence | discriminate]. }
    assert (Hne2 : outs' <> []).
    { intros E. rewrite E in Hpair. inversion Hpair. congruence. }
    destruct (cat_last_shape outs B T hs Hne1) as (c0 & Hc0 & Hc0s).
    { clear -Hpair. induction Hpair as [|? ? ? ? [[? ?] ?] _ IH];
        constructor; assumption. }
    destruct (cat_last_shape outs' B' T' hs Hne2) as (c1 & Hc1 & Hc1s).
    { clear -Hpair. induction Hpair as [|? ? ? ? [[? ?] ?] _ IH];
        constructor; assumption. }
    rewrite Hc in Hc0. inversion Hc0; subst c0.
    rewrite Hc' in Hc1. inversion Hc1; subst c1. split; assumption. }
  destruct Hcs as [Hcs Hcs'].
  assert (Hcc : same_upto b i (length outs * hs) c c').
  { intros t d Ht Hd.
    destruct (cat_last_elem outs c Hc b t d) as (d1 & ->).
    destruct (cat_last_elem outs' c' Hc' b t d) as (d2 & ->).
    apply (cat_elem_local outs outs' hs b t); [|exact Hd].
    clear -Hpair Ht. induction Hpair as [|o o' ? ? [[Ho Ho'] Hoo] _ IH];
      constructor; [|exact IH].
    rewrite Ho, Ho'. cbn. repeat split; try reflexivity.
    intros d Hd. apply Hoo; assumption. }
  rewrite Hlen, <- Hin in Hcs, Hcc.
  rewrite <- (Forall2_length Hpair), Hlen, <- Hin in Hcs'.
  destruct (causal_linear L (MultiHeadAttention.project m) c B T Hcs HT)
    as (y0 & Hy0 & _ & Hloc).
  rewrite Hy in Hy0. inversion Hy0; subst y0.
  apply (Hloc c' B' T' y' b i Hcs' HT' Hy' Hb Hb' Hi Hi' Hcc).
Qed.

Lemma causal_feed_forward (f : FeedForward.t) (L : nat) :
  Linear.in_features (FeedForward.contract f)
    = Linear.out_features (FeedForward.expand f) ->
  causal_op L (FeedForward.forward f)
    (Linear.in_features (FeedForward.expand f))
    (Linear.out_features (FeedForward.contract f)).
Proof.
  intros Hmid.
  apply (causal_ext L _
           (fun x => h <- Linear.forward (FeedForward.expand f) x ;;
                     r <- Ok (tmap FeedForward.relu h) ;;
                     Linear.forward (FeedForward.contract f) r)).
  { intros x. reflexivity. }
  apply (causal_bind L _ _ _ (Linear.out_features (FeedForward.expand f)) _).
  - apply causal_linear.
  - apply (causal_bind L (fun h => Ok (tmap FeedForward.relu h)) _ _
             (Linear.out_features (FeedForward.expand f)) _).
    + apply causal_map.
    + rewrite <- Hmid. apply causal_linear.
Qed.

Lemma causal_block (blk : TranformerBlock.t) (D hs L : nat) :
  block_dims blk D hs L -> 0 < D ->
  causal_op L (TranformerBlock.forward blk) D D.
Proof.
  intros Hb HD. destruct Hb.
  apply (causal_ext L _
           (fun x =>
              o <- (a <- (n1 <- LayerNorm.forward
                                  (TranformerBlock.layer_norm1 blk) x ;;
                          MultiHeadAttention.forward
                            (TranformerBlock.multi_head_attention blk) n1) ;;
                    zip_broadcast Rplus x a) ;;
              f <- (n2 <- LayerNorm.forward
                            (TranformerBlock.layer_norm2 blk) o ;;
                    FeedForward.forward (TranformerBlock.feed_forward blk) n2) ;;
              zip_broadcast Rplus o f)).
  { intros x. unfold TranformerBlock.forward.
    destruct (LayerNorm.forward (TranformerBlock.layer_norm1 blk) x);
      [|reflexivity].
    cbn [bind].
    destruct (MultiHeadAttention.forward _ _); [|reflexivity].
    cbn [bind]. destruct (zip_broadcast Rplus x _); [|reflexivity].
    cbn [bind].
    destruct (LayerNorm.forward (TranformerBlock.layer_norm2 blk) _);
      [|reflexivity].
    cbn [bind]. destruct (FeedForward.forward _ _); reflexivity. }
  pose proof (causal_layernorm L (TranformerBlock.layer_norm1 blk)) as Hl1.
  pose proof (causal_layernorm L (TranformerBlock.layer_norm2 blk)) as Hl2.
  pose proof (causal_multi_head _ D hs L bd_heads_nonempty0 bd_heads0
                bd_project_in0 HD) as Hmha.
  pose proof (causal_feed_forward _ L bd_contract_in0) as Hff.
  rewrite bd_ln3 in Hl1. rewrite bd_ln4 in Hl2.
  rewrite bd_project_out0 in Hmha.
  rewrite bd_expand_in0, bd_contract_out0 in Hff.
  apply (causal_bind L _ _ D D D).
  - apply (causal_residual L _ D).
    apply (causal_bind L _ _ D D D); assumption.
  - apply (causal_residual L _ D).
    apply (causal_bind L _ _ D D D); assumption.
Qed.

Lemma causal_sequential (blocks : list TranformerBlock.t) (D hs L : nat) :
  Forall (fun b => block_dims b D hs L) blocks -> 0 < D ->
  causal_op L (TutorialLLM.sequential blocks) D D.
Proof.
  intros Hall HD. induction Hall as [|blk l Hb _ IH].
  - intros x B T Hs HT. exists x. split; [reflexivity|]. split; [exact Hs|].
    intros x' B' T' y' b i _ _ Hy' _ _ _ _ Hsame.
    inversion Hy'; subst y'. exact Hsame.
  - apply (causal_ext L _
             (fun x => y <- TranformerBlock.forward blk x ;;
                       TutorialLLM.sequential l y)).
    { intros x. reflexivity. }
    apply (causal_bind L _ _ D D D); [|exact IH].
    apply (causal_block blk D hs L Hb HD).
Qed.

Lemma zip_batch_elem {A B C : Type} (f : A -> B -> C) (a : Tensor A)
    (p : Tensor B) (y : Tensor C) (n T D b t d : nat) :
  shape a = [n; T; D] -> shape p = [T; D] -> zip_broadcast f a p = Ok y ->
  b < n -> t < T -> d < D ->
  elem y [b; t; d] = f (elem a [b; t; d]) (elem p [t; d]).
Proof.
  intros Ha Hp Hy Hb Ht Hd. unfold zip_broadcast, broadcast_shapes in Hy.
  rewrite Ha, Hp in Hy. cbn in Hy. rewrite !Nat.eqb_refl in Hy. cbn in Hy.
  inversion Hy; subst y. cbn.
  destruct (Nat.eqb_spec n 1), (Nat.eqb_spec T 1), (Nat.eqb_spec D 1);
    repeat f_equal; lia.
Qed.

Lemma Embedding_forward_elem (e : Embedding.t) (ids : Tensor Z)
    (y : Tensor R) :
  Embedding.forward e ids = Ok y ->
  forall idx,
    elem y idx
    = elem (Embedding.weight e) [Z.to_nat (elem ids (lead idx)); lst idx].
Proof.
  unfold Embedding.forward. destruct (forallb _ _).
  - intros H. inversion H; subst y. reflexivity.
  - destruct (_ || _); discriminate.
Qed.

Lemma Embedding_forward_ok_shape (e : Embedding.t) (ids : Tensor Z)
    (y : Tensor R) :
  Embedding.forward e ids = Ok y ->
  shape y = shape ids ++ [Embedding.embedding_dim e].
Proof.
  unfold Embedding.forward. destruct (forallb _ _).
  - intros H. inversion H; subst y. reflexivity.
  - destruct (_ || _); discriminate.
Qed.

(** The part of the forward pass after the embeddings. *)
Lemma causal_after_embedding (m : TutorialLLM.t) (V D hs L : nat) :
  model_dims m V D hs L -> 0 < D ->
  causal_op L
    (fun e => e2 <- TutorialLLM.sequential (TutorialLLM.transformer_blocks m) e ;;
              e3 <- LayerNorm.forward (TutorialLLM.layer_norm_final m) e2 ;;
              Linear.forward (TutorialLLM.project m) e3)
    D V.
Proof.
  intros Hm HD. destruct Hm.
  pose proof (causal_sequential _ D hs L md_blocks0 HD) as Hseq.
  pose proof (causal_layernorm L (TutorialLLM.layer_norm_final m)) as Hln.
  pose proof (causal_linear L (TutorialLLM.project m)) as Hp.
  rewrite md_ln0 in Hln. rewrite md_project_in0, md_project_out0 in Hp.
  apply (causal_bind L _ _ D D V); [exact Hseq|].
  apply (causal_bind L _ _ D D V); assumption.
Qed.

Lemma logits_of_local (m : TutorialLLM.t) (ids ids' : Tensor Z)
    (V D hs L B T B' T' b i : nat) :
  model_dims m V D hs L -> 0 < D ->
  shape ids = [B; T] -> T <= L -> ids_in_vocab ids B T V ->
  shape ids' = [B'; T'] -> T' <= L -> ids_in_vocab ids' B' T' V ->
  b < B -> b < B' -> i < T -> i < T' ->
  ids_same_upto b i ids ids' ->
  exists lg lg',
    TutorialLLM.logits_of m ids = Ok lg
    /\ TutorialLLM.logits_of m ids' = Ok lg'
    /\ shape lg = [B; T; V] /\ shape lg' = [B'; T'; V]
    /\ same_upto b i V lg lg'.
Proof.
  intros Hm HD Hs HT Hv Hs' HT' Hv' Hb Hb' Hi Hi' Hsame.
  destruct (logits_of_shape m ids V D hs L B T Hm HD Hs HT Hv)
    as (lg & Hlg & Hlgs).
  destruct (logits_of_shape m ids' V D hs L B' T' Hm HD Hs' HT' Hv')
    as (lg' & Hlg' & Hlgs').
  exists lg, lg'. repeat (split; [assumption|]).
  pose proof (causal_after_embedding m V D hs L Hm HD) as Hop.
  unfold TutorialLLM.logits_of in Hlg, Hlg'. rewrite Hs in Hlg.
  rewrite Hs' in Hlg'.
  apply bind_ok in Hlg as (te & Hte & Hlg).
  apply bind_ok in Hlg as (pe & Hpe & Hlg).
  apply bind_ok in Hlg as (e & He & Hlg).
  apply bind_ok in Hlg' as (te' & Hte' & Hlg').
  apply bind_ok in Hlg' as (pe' & Hpe' & Hlg').
  apply bind_ok in Hlg' as (e' & He' & Hlg').
  assert (Htes : shape te = [B; T; D] /\ shape te' = [B'; T'; D]
                 /\ shape pe = [T; D] /\ shape pe' = [T'; D]).
  { rewrite (Embedding_forward_ok_shape _ _ _ Hte),
      (Embedding_forward_ok_shape _ _ _ Hte'),
      (Embedding_forward_ok_shape _ _ _ Hpe),
      (Embedding_forward_ok_shape _ _ _ Hpe').
    cbn [shape arange app]. rewrite Hs, Hs'.
    rewrite (md_tok_dim _ _ _ _ _ Hm), (md_pos_dim _ _ _ _ _ Hm).
    repeat split; reflexivity. }
  destruct Htes as (Htes & Htes' & Hpes & Hpes').
  destruct (zip_batch_shape Rplus te pe B T D Htes Hpes) as (e0 & He0 & Hes).
  rewrite He in He0. inversion He0; subst e0.
  destruct (zip_batch_shape Rplus te' pe' B' T' D Htes' Hpes')
    as (e1 & He1 & Hes').
  rewrite He' in He1. inversion He1; subst e1.
  assert (Hee : same_upto b i D e e').
  { intros t d Ht Hd.
    rewrite (zip_batch_elem Rplus te pe e B T D b t d Htes Hpes He)
      by lia.
    rewrite (zip_batch_elem Rplus te' pe' e' B' T' D b t d Htes' Hpes' He')
      by lia.
    rewrite (Embedding_forward_elem _ _ _ Hte),
      (Embedding_forward_elem _ _ _ Hte'),
      (Embedding_forward_elem _ _ _ Hpe),
      (Embedding_forward_elem _ _ _ Hpe').
    cbn [lead lst removelast last arange elem].
    rewrite (Hsame t Ht). reflexivity. }
  destruct (Hop e B T Hes HT) as (y & Hy & _ & Hloc).
  rewrite Hlg in Hy. inversion Hy; subst y.
  apply (Hloc e' B' T' lg' b i Hes' HT' Hlg' Hb Hb' Hi Hi' Hee).
Qed.

Lemma attention_weight_pos (h : AttentionHead.t) (x : Tensor R)
    (D b t j : nat) :
  (0 < attention_weight h x D b t j)%R.
Proof.
  unfold attention_weight. apply Rdiv_lt_0_compat; [apply exp_pos|].
  apply Rsum_pos; [lia|]. intros k _. apply exp_pos.
Qed.

Lemma attention_weight_sum (h : AttentionHead.t) (x : Tensor R)
    (D b t : nat) :
  Rsum (S t) (attention_weight h x D b t) = 1%R.
Proof.
  unfold attention_weight, Rdiv. rewrite Rsum_scal. apply Rinv_r.
  apply Rgt_not_eq, Rsum_pos; [lia|]. intros k _. apply exp_pos.
Qed.

(** X15. The output of a head at position t is an average of the value
    vectors of the positions 0 .. t only, with positive weights that sum
    to 1; its shape is (batch, seq_len, head_size), and at position 0 it is
    the value vector of the first token itself. *)
Theorem attention_head_output
    (ini : Initializer) (dim_embed head_size max_length : Z)
    (h : AttentionHead.t) (input : Tensor R) (B T : nat) :
  AttentionHead.init ini dim_embed head_size max_length = Ok h ->
  shape input = [B; T; Z.to_nat dim_embed] ->
  (0 < dim_embed)%Z -> (Z.of_nat T <= max_length)%Z ->
  exists y, AttentionHead.forward h input = Ok y
    /\ shape y = [B; T; Z.to_nat head_size]
    /\ forall b t o, t < T ->
         elem y [b; t; o]
         = Rsum (S t) (fun j =>
             Rmult (attention_weight h input (Z.to_nat dim_embed) b t j)
               (projected (AttentionHead.project_to_value h) input b j o))
         /\ (forall j,
               Rlt 0 (attention_weight h input (Z.to_nat dim_embed) b t j))
         /\ Rsum (S t) (attention_weight h input (Z.to_nat dim_embed) b t)
            = 1%R
         /\ (t = 0 ->
             elem y [b; t; o]
             = projected (AttentionHead.project_to_value h) input b 0 o).
Proof.
  intros Hini Hs HD HT. apply AttentionHead_init_dims in Hini as Hd.
  destruct (AttentionHead_forward_elem h input B T _ _ _ Hd Hs ltac:(lia)
              ltac:(lia)) as (y & Hy & Hys & Hye).
  exists y. split; [exact Hy|]. split; [exact Hys|].
  intros b t o Ht. rewrite (Hye b t o Ht).
  split; [reflexivity|]. split; [intros j; apply attention_weight_pos|].
  split; [apply attention_weight_sum|].
  intros ->. unfold head_output. rewrite Rsum_S, Rsum_0.
  pose proof (attention_weight_sum h input (Z.to_nat dim_embed) b 0) as E.
  rewrite Rsum_S, Rsum_0 in E.
  replace (attention_weight h input (Z.to_nat dim_embed) b 0 0) with 1%R
    by lra.
  lra.
Qed.

Lemma attention_head_output_witness :
  exists h,
    AttentionHead.init zero_init 8 4 4 = Ok h
    /\ exists y, AttentionHead.forward h (ones [1; 4; 8]) = Ok y
         /\ shape y = [1; 4; Z.to_nat 4]
         /\ forall b t o, t < 4 ->
              elem y [b; t; o]
              = Rsum (S t) (fun j =>
                  Rmult (attention_weight h (ones [1; 4; 8]) (Z.to_nat 8) b t j)
                    (projected (AttentionHead.project_to_value h)
                       (ones [1; 4; 8]) b j o))
              /\ (forall j,
                    Rlt 0 (attention_weight h (ones [1; 4; 8]) (Z.to_nat 8)
                             b t j))
              /\ Rsum (S t)
                   (attention_weight h (ones [1; 4; 8]) (Z.to_nat 8) b t)
                 = 1%R
              /\ (t = 0 ->
                  elem y [b; t; o]
                  = projected (AttentionHead.project_to_value h)
                      (ones [1; 4; 8]) b 0 o).
Proof.
  eexists. split; [reflexivity|].
  eapply (attention_head_output zero_init 8 4 4).
  - reflexivity.
  - reflexivity.
  - lia.
  - simpl; lia.
Defined.

(** X16. The output of a head at the positions up to i of one sequence is
    the same for two inputs that agree on these positions of that sequence:
    it reads neither later positions, nor other sequences of the batch, nor
    the length of the input. *)
Theorem attention_head_reads_only_the_past
    (ini : Initializer) (dim_embed head_size max_length : Z)
    (h : AttentionHead.t) (x x' : Tensor R) (B T B' T' b i : nat) :
  AttentionHead.init ini dim_embed head_size max_length = Ok h ->
  (0 < dim_embed)%Z ->
  shape x = [B; T; Z.to_nat dim_embed] -> (Z.of_nat T <= max_length)%Z ->
  shape x' = [B'; T'; Z.to_nat dim_embed] -> (Z.of_nat T' <= max_length)%Z ->
  b < B -> b < B' -> i < T -> i < T' ->
  same_upto b i (Z.to_nat dim_embed) x x' ->
  exists y y',
    AttentionHead.forward h x = Ok y
    /\ AttentionHead.forward h x' = Ok y'
    /\ same_upto b i (Z.to_nat head_size) y y'.
Proof.
  intros Hini HD Hs HT Hs' HT' Hb Hb' Hi Hi' Hsame.
  apply AttentionHead_init_dims in Hini as Hd.
  pose proof (causal_head h _ _ _ Hd ltac:(lia)) as Hop.
  destruct (Hop x B T Hs ltac:(lia)) as (y & Hy & _ & Hloc).
  destruct (Hop x' B' T' Hs' ltac:(lia)) as (y' & Hy' & _).
  exists y, y'. split; [exact Hy|]. split; [exact Hy'|].
  apply (Hloc x' B' T' y' b i Hs' ltac:(lia) Hy' Hb Hb' Hi Hi' Hsame).
Qed.

Lemma attention_head_reads_only_the_past_witness :
  exists h,
    AttentionHead.init zero_init 8 4 4 = Ok h
    /\ exists y y',
         AttentionHead.forward h (ones [1; 4; 8]) = Ok y
         /\ AttentionHead.forward h (ones [2; 3; 8]) = Ok y'
         /\ same_upto 0 2 (Z.to_nat 4) y y'.
Proof.
  eexists. split; [reflexivity|].
  eapply (attention_head_reads_only_the_past zero_init 8 4 4 _ _ _ 1 4 2 3).
  - reflexivity.
  - lia.
  - reflexivity.
  - simpl; lia.
  - reflexivity.
  - simpl; lia.
  - lia.
  - lia.
  - lia.
  - lia.
  - intros t d _ _. reflexivity.
Defined.

Lemma FeedForward_init_ok ini (dim_embed : Z) (f : FeedForward.t) :
  FeedForward.init ini dim_embed = Ok f ->
  Linear.in_features (FeedForward.expand f) = Z.to_nat dim_embed
  /\ Linear.out_features (FeedForward.expand f) = 4 * Z.to_nat dim_embed
  /\ Linear.in_features (FeedForward.contract f) = 4 * Z.to_nat dim_embed
  /\ Linear.out_features (FeedForward.contract f) = Z.to_nat dim_embed.
Proof.
  unfold FeedForward.init. intros H.
  apply bind_ok in H as (a & Ha & H). apply bind_ok in H as (b & Hb & H).
  inversion H; subst; clear H. cbn [FeedForward.expand FeedForward.contract].
  apply Linear_init_ok in Ha as (HD & _ & -> & -> & _).
  apply Linear_init_ok in Hb as (_ & _ & -> & -> & _).
  repeat split; lia.
Qed.

(** X17. The feed-forward network widens every position to 4 * dim_embed
    units and returns the input shape; it applies one and the same function
    to every position (equal input vectors, wherever they stand, give equal
    output vectors), and it rejects inputs of another width. *)
Theorem feed_forward_per_position
    (ini : Initializer) (dim_embed : Z) (f : FeedForward.t)
    (x x' : Tensor R) (B T B' T' : nat) :
  FeedForward.init ini dim_embed = Ok f ->
  shape x = [B; T; Z.to_nat dim_embed] ->
  shape x' = [B'; T'; Z.to_nat dim_embed] ->
  (exists hid y y',
     Linear.forward (FeedForward.expand f) x = Ok hid
     /\ shape hid = [B; T; 4 * Z.to_nat dim_embed]
     /\ FeedForward.forward f x = Ok y
     /\ FeedForward.forward f x' = Ok y'
     /\ shape y = [B; T; Z.to_nat dim_embed]
     /\ forall b t b' t',
          (forall d, d < Z.to_nat dim_embed ->
             elem x [b; t; d] = elem x' [b'; t'; d]) ->
          forall o, elem y [b; t; o] = elem y' [b'; t'; o])
  /\ forall z n,
       shape z = [B; T; n] -> n <> Z.to_nat dim_embed ->
       FeedForward.forward f z = Raise RuntimeError.
Proof.
  intros Hini Hs Hs'.
  apply FeedForward_init_ok in Hini as (Hein & Heout & Hcin & Hcout).
  split.
  - destruct (Linear_forward_shape _ x B T _ Hs Hein) as (hid & Hh & Hhs).
    destruct (Linear_forward_shape _ x' B' T' _ Hs' Hein) as (hid' & Hh' & Hhs').
    rewrite Heout in Hhs, Hhs'.
    destruct (Linear_forward_shape (FeedForward.contract f)
                (tmap FeedForward.relu hid) B T _ Hhs Hcin) as (y & Hy & Hys).
    destruct (Linear_forward_shape (FeedForward.contract f)
                (tmap FeedForward.relu hid') B' T' _ Hhs' Hcin)
      as (y' & Hy' & _).
    rewrite Hcout in Hys.
    exists hid, y, y'. split; [exact Hh|]. split; [exact Hhs|].
    split; [unfold FeedForward.forward; rewrite Hh; exact Hy|].
    split; [unfold FeedForward.forward; rewrite Hh'; exact Hy'|].
    split; [exact Hys|].
    intros b t b' t' Hrow o.
    rewrite (Linear_forward_elem _ _ _ Hy), (Linear_forward_elem _ _ _ Hy').
    f_equal. apply Rsum_ext. intros k _. cbn [tmap elem].
    rewrite (Linear_forward_elem _ _ _ Hh), (Linear_forward_elem _ _ _ Hh').
    do 3 f_equal. apply Rsum_ext. intros d Hd. rewrite Hein in Hd.
    rewrite (Hrow d Hd). reflexivity.
  - intros z n Hz Hn. unfold FeedForward.forward, Linear.forward.
    rewrite Hz. cbn [lst last]. rewrite Hein.
    destruct (Nat.eqb_spec n (Z.to_nat dim_embed)); [contradiction|].
    reflexivity.
Qed.

Lemma feed_forward_per_position_witness :
  exists f,
    FeedForward.init zero_init 8 = Ok f
    /\ (exists hid y y',
          Linear.forward (FeedForward.expand f) (ones [1; 4; 8]) = Ok hid
          /\ shape hid = [1; 4; 4 * Z.to_nat 8]
          /\ FeedForward.forward f (ones [1; 4; 8]) = Ok y
          /\ FeedForward.forward f (ones [2; 3; 8]) = Ok y'
          /\ shape y = [1; 4; Z.to_nat 8]
          /\ forall b t b' t',
               (forall d, d < Z.to_nat 8 ->
                  elem (ones [1; 4; 8]) [b; t; d]
                  = elem (ones [2; 3; 8]) [b'; t'; d]) ->
               forall o, elem y [b; t; o] = elem y' [b'; t'; o])
    /\ forall z n,
         shape z = [1; 4; n] -> n <> Z.to_nat 8 ->
         FeedForward.forward f z = Raise RuntimeError.
Proof.
  eexists. split; [reflexivity|].
  eapply (feed_forward_per_position zero_init 8).
  - reflexivity.
  - reflexivity.
  - reflexivity.
Defined.

(** X18. A transformer block keeps the shape (batch, seq_len, dim_embed),
    and its output at the positions up to i of one sequence is the same for
    two inputs that agree on these positions of that sequence: a block
    never mixes sequences and never reads later positions. *)
Theorem block_reads_only_the_past
    (ini : Initializer) (dim_embed num_heads max_length : Z)
    (blk : TranformerBlock.t) (x x' : Tensor R) (B T B' T' b i : nat) :
  TranformerBlock.init ini dim_embed num_heads max_length = Ok blk ->
  (0 < num_heads)%Z -> (0 < dim_embed)%Z ->
  shape x = [B; T; Z.to_nat dim_embed] -> (Z.of_nat T <= max_length)%Z ->
  shape x' = [B'; T'; Z.to_nat dim_embed] -> (Z.of_nat T' <= max_length)%Z ->
  b < B -> b < B' -> i < T -> i < T' ->
  same_upto b i (Z.to_nat dim_embed) x x' ->
  exists y y',
    TranformerBlock.forward blk x = Ok y
    /\ TranformerBlock.forward blk x' = Ok y'
    /\ shape y = [B; T; Z.to_nat dim_embed]
    /\ shape y' = [B'; T'; Z.to_nat dim_embed]
    /\ same_upto b i (Z.to_nat dim_embed) y y'.
Proof.
  intros Hini Hnh HD Hs HT Hs' HT' Hb Hb' Hi Hi' Hsame.
  pose proof (TranformerBlock_init_dims _ _ _ _ _ Hini Hnh) as Hd.
  pose proof (causal_block blk _ _ _ Hd ltac:(lia)) as Hop.
  destruct (Hop x B T Hs ltac:(lia)) as (y & Hy & Hys & Hloc).
  destruct (Hop x' B' T' Hs' ltac:(lia)) as (y' & Hy' & Hys' & _).
  exists y, y'. repeat (split; [assumption|]).
  apply (Hloc x' B' T' y' b i Hs' ltac:(lia) Hy' Hb Hb' Hi Hi' Hsame).
Qed.

Lemma block_reads_only_the_past_witness :
  exists blk,
    TranformerBlock.init zero_init 8 2 4 = Ok blk
    /\ exists y y',
         TranformerBlock.forward blk (ones [1; 4; 8]) = Ok y
         /\ TranformerBlock.forward blk (ones [2; 3; 8]) = Ok y'
         /\ shape y = [1; 4; Z.to_nat 8]
         /\ shape y' = [2; 3; Z.to_nat 8]
         /\ same_upto 0 2 (Z.to_nat 8) y y'.
Proof.
  eexists. split; [reflexivity|].
  eapply (block_reads_only_the_past zero_init 8 2 4 _ _ _ 1 4 2 3).
  - reflexivity.
  - lia.
  - lia.
  - reflexivity.
  - simpl; lia.
  - reflexivity.
  - simpl; lia.
  - lia.
  - lia.
  - lia.
  - lia.
  - intros t d _ _. reflexivity.
Defined.

(** X19. The logits at the positions up to i of one sequence depend only on
    the token ids of that sequence at these positions: changing later
    tokens, other sequences of the batch, the batch size or the length of
    the sequence leaves them unchanged. *)
Theorem logits_read_only_the_past
    (ini : Initializer)
    (vocabulary_size dim_embed max_length num_head num_layer : Z)
    (m : TutorialLLM.t) (ids ids' : Tensor Z) (B T B' T' b i : nat)
    (reduce : bool) :
  TutorialLLM.init ini vocabulary_size dim_embed max_length num_head num_layer
    = Ok m ->
  (0 < num_head)%Z -> (0 < dim_embed)%Z ->
  shape ids = [B; T] -> (Z.of_nat T <= max_length)%Z ->
  ids_in_vocab ids B T (Z.to_nat vocabulary_size) ->
  shape ids' = [B'; T'] -> (Z.of_nat T' <= max_length)%Z ->
  ids_in_vocab ids' B' T' (Z.to_nat vocabulary_size) ->
  b < B -> b < B' -> i < T -> i < T' ->
  ids_same_upto b i ids ids' ->
  exists lg lg',
    TutorialLLM.forward m ids None reduce = Ok (lg, None)
    /\ TutorialLLM.forward m ids' None reduce = Ok (lg', None)
    /\ same_upto b i (Z.to_nat vocabulary_size) lg lg'.
Proof.
  intros Hini Hnh HD Hs HT Hv Hs' HT' Hv' Hb Hb' Hi Hi' Hsame.
  pose proof (TutorialLLM_init_dims _ _ _ _ _ _ _ Hini Hnh) as Hm.
  destruct (logits_of_local m ids ids' _ _ _ _ B T B' T' b i Hm ltac:(lia)
              Hs ltac:(lia) Hv Hs' ltac:(lia) Hv' Hb Hb' Hi Hi' Hsame)
    as (lg & lg' & Hlg & Hlg' & _ & _ & Hloc).
  exists lg, lg'.
  split; [unfold TutorialLLM.forward; rewrite Hlg; reflexivity|].
  split; [unfold TutorialLLM.forward; rewrite Hlg'; reflexivity|].
  exact Hloc.
Qed.

Lemma logits_read_only_the_past_witness :
  exists m,
    TutorialLLM.init zero_init 5 8 4 2 1 = Ok m
    /\ exists lg lg',
         TutorialLLM.forward m (const_ids 1 4 1) None true = Ok (lg, None)
         /\ TutorialLLM.forward m (const_ids 2 3 1) None true = Ok (lg', None)
         /\ same_upto 0 2 (Z.to_nat 5) lg lg'.
Proof.
  eexists. split; [reflexivity|].
  eapply (logits_read_only_the_past zero_init 5 8 4 2 1 _ _ _ 1 4 2 3).
  - reflexivity.
  - lia.
  - lia.
  - reflexivity.
  - simpl; lia.
  - intros b t _ _. simpl. lia.
  - reflexivity.
  - simpl; lia.
  - intros b t _ _. simpl. lia.
  - lia.
  - lia.
  - lia.
  - lia.
  - intros t _. reflexivity.
Defined.
